(** * warc-tools: record framing, script classification and result collection

    A shallow embedding of the three programs of the repository:

    - [read-meta/read_meta.go]: the record reader [nextRecord] and the
      metadata correlator [readMeta];
    - [detect-chinese/detect_chinese.go]: the classifier that samples byte
      offsets of the body (module [DetectChinese]);
    - the earlier classifier that samples indices of a rune slice (module
      [DetectRunes]).

    Go strings are byte sequences and are modelled by [string]; Go's [int]
    is 64 bits wide and is modelled by [Z] (or by [nat] where the value is a
    length, an index or a counter that only grows and stays far below
    2^63); [float64] is modelled by the kernel's binary64 floats. *)

From Stdlib Require Import ZArith NArith List Bool Ascii String Lia Floats.
From stdpp Require Import base option list sorting gmap strings.
Import ListNotations.

Local Open Scope Z_scope.

(** ** Fragments of the Go language and library the programs rely on *)

Module Go.

(** *** Control results: an [error] value, a panic, or a value *)

Inductive error : Type :=
| EOF                (* io.EOF *)
| ErrIO              (* any other error of the underlying stream *)
| ErrSyntax          (* strconv.ErrSyntax, strconv.ErrRange *)
| ErrJSON.           (* an error of encoding/json *)

Inductive result (A : Type) : Type :=
| Ret (a : A)
| Err (e : error)
| Panic (msg : string).
Arguments Ret {A} a.
Arguments Err {A} e.
Arguments Panic {A} msg.

Definition error_eqb (a b : error) : bool :=
  match a, b with
  | EOF, EOF | ErrIO, ErrIO | ErrSyntax, ErrSyntax | ErrJSON, ErrJSON => true
  | _, _ => false
  end.

(** *** Bytes and strings *)

Definition byte_val (c : ascii) : Z := Z.of_N (N_of_ascii c).

Definition byte_of (n : Z) : ascii := ascii_of_N (Z.to_N n).

Definition str (bytes : list Z) : string :=
  string_of_list_ascii (map byte_of bytes).

Definition len (s : string) : nat := String.length s.

(** [s[n:]] for [n <= len s]. *)
Fixpoint slice_from (n : nat) (s : string) : string :=
  match n, s with
  | O, _ => s
  | S n', String _ s' => slice_from n' s'
  | S _, EmptyString => EmptyString
  end.

Definition HasPrefix (s pre : string) : bool := String.prefix pre s.

(** [strings.Contains]: [sub] occurs somewhere in [s]. *)
Fixpoint Contains (s sub : string) : bool :=
  HasPrefix s sub ||
  match s with
  | EmptyString => false
  | String _ s' => Contains s' sub
  end.

(** [strings.Join]. *)
Fixpoint Join (elems : list string) (sep : string) : string :=
  match elems with
  | [] => EmptyString
  | [e] => e
  | e :: rest => (e ++ sep ++ Join rest sep)%string
  end.

(** *** [strings.TrimSpace]

    Leading and trailing white space is removed, as [unicode.IsSpace]
    defines it: the six ASCII characters, and U+0085, U+00A0, U+1680,
    U+2000..U+200A, U+2028, U+2029, U+202F, U+205F, U+3000 in their UTF-8
    encodings. *)

Definition asciiSpace (c : ascii) : bool :=
  let b := byte_val c in
  (b =? 9) || (b =? 10) || (b =? 11) || (b =? 12) || (b =? 13) || (b =? 32).

(** The two-byte encodings C2 85 and C2 A0. *)
Definition space2 (c0 c1 : ascii) : bool :=
  (byte_val c0 =? 194) && ((byte_val c1 =? 133) || (byte_val c1 =? 160)).

(** The three-byte encodings E1 9A 80, E2 80 80..8A, E2 80 A8, E2 80 A9,
    E2 80 AF, E2 81 9F and E3 80 80. *)
Definition space3 (c0 c1 c2 : ascii) : bool :=
  let b0 := byte_val c0 in
  let b1 := byte_val c1 in
  let b2 := byte_val c2 in
  ((b0 =? 225) && (b1 =? 154) && (b2 =? 128))
  || ((b0 =? 226) && (b1 =? 128)
      && (((128 <=? b2) && (b2 <=? 138)) || (b2 =? 168) || (b2 =? 169) || (b2 =? 175)))
  || ((b0 =? 226) && (b1 =? 129) && (b2 =? 159))
  || ((b0 =? 227) && (b1 =? 128) && (b2 =? 128)).

(** Removes the white space at the front of [s]; [fwd] tells whether the
    bytes are met in reading order ([true]) or, for the string reversed, from
    the last byte backwards ([false]). *)
Fixpoint trim_front (fwd : bool) (s : string) : string :=
  match s with
  | EmptyString => s
  | String c0 s1 =>
    if asciiSpace c0 then trim_front fwd s1 else
    match s1 with
    | EmptyString => s
    | String c1 s2 =>
      if (if fwd then space2 c0 c1 else space2 c1 c0) then trim_front fwd s2 else
      match s2 with
      | EmptyString => s
      | String c2 s3 =>
        if (if fwd then space3 c0 c1 c2 else space3 c2 c1 c0)
        then trim_front fwd s3 else s
      end
    end
  end.

Definition TrimSpace (s : string) : string :=
  String.rev (trim_front false (String.rev (trim_front true s))).

(** *** [strconv.Atoi]: an optional sign, then decimal digits, within 64 bits *)

Definition digit_of (c : ascii) : option Z :=
  let b := byte_val c in
  if (48 <=? b) && (b <=? 57) then Some (b - 48) else None.

Fixpoint digits (s : string) (acc : Z) : option Z :=
  match s with
  | EmptyString => Some acc
  | String c s' =>
    match digit_of c with
    | Some d => digits s' (10 * acc + d)
    | None => None
    end
  end.

Definition unsigned_digits (s : string) : option Z :=
  match s with
  | EmptyString => None
  | _ => digits s 0
  end.

Definition Atoi (s : string) : option Z :=
  let signed :=
    match s with
    | String "-" s' => option_map Z.opp (unsigned_digits s')
    | String "+" s' => unsigned_digits s'
    | _ => unsigned_digits s
    end in
  match signed with
  | Some v => if (- 2 ^ 63 <=? v) && (v <? 2 ^ 63) then Some v else None
  | None => None
  end.

(** *** UTF-8: what [for k, ru := range s] yields, and [utf8.RuneLen] *)

Definition RuneError : Z := 65533.

Definition cont (c : ascii) : bool :=
  (128 <=? byte_val c) && (byte_val c <=? 191).

(** The rune at the front of [s] and the number of bytes it takes; a byte
    that starts no well-formed encoding yields [RuneError] and width 1. *)
Definition DecodeRuneInString (s : string) : Z * nat :=
  match s with
  | EmptyString => (RuneError, 0%nat)
  | String c0 s1 =>
    let b0 := byte_val c0 in
    if b0 <? 128 then (b0, 1%nat)
    else if (194 <=? b0) && (b0 <=? 223) then
      match s1 with
      | String c1 _ =>
        if cont c1 then ((b0 - 192) * 64 + (byte_val c1 - 128), 2%nat)
        else (RuneError, 1%nat)
      | _ => (RuneError, 1%nat)
      end
    else if (224 <=? b0) && (b0 <=? 239) then
      match s1 with
      | String c1 (String c2 _) =>
        let lo := if b0 =? 224 then 160 else 128 in
        let hi := if b0 =? 237 then 159 else 191 in
        if (lo <=? byte_val c1) && (byte_val c1 <=? hi) && cont c2
        then ((b0 - 224) * 4096 + (byte_val c1 - 128) * 64 + (byte_val c2 - 128), 3%nat)
        else (RuneError, 1%nat)
      | _ => (RuneError, 1%nat)
      end
    else if (240 <=? b0) && (b0 <=? 244) then
      match s1 with
      | String c1 (String c2 (String c3 _)) =>
        let lo := if b0 =? 240 then 144 else 128 in
        let hi := if b0 =? 244 then 143 else 191 in
        if (lo <=? byte_val c1) && (byte_val c1 <=? hi) && cont c2 && cont c3
        then ((b0 - 240) * 262144 + (byte_val c1 - 128) * 4096
              + (byte_val c2 - 128) * 64 + (byte_val c3 - 128), 4%nat)
        else (RuneError, 1%nat)
      | _ => (RuneError, 1%nat)
      end
    else (RuneError, 1%nat)
  end.

(** The pairs (byte offset, rune) of a [range] loop over the bytes [s] that
    start at offset [k]; [skip] counts the bytes still belonging to the rune
    yielded last. *)
Fixpoint range_from (s : string) (skip k : nat) : list (nat * Z) :=
  match s with
  | EmptyString => []
  | String _ s' =>
    match skip with
    | S skip' => range_from s' skip' (S k)
    | O => let '(ru, w) := DecodeRuneInString s in
           (k, ru) :: range_from s' (Nat.pred w) (S k)
    end
  end.

Definition range_string (s : string) : list (nat * Z) := range_from s 0 0.

(** [utf8.RuneCountInString]. *)
Definition rune_count (s : string) : nat := length (range_string s).

Definition RuneLen (r : Z) : Z :=
  if r <? 0 then -1
  else if r <=? 127 then 1
  else if r <=? 2047 then 2
  else if (55296 <=? r) && (r <=? 57343) then -1
  else if r <=? 65535 then 3
  else if r <=? 1114111 then 4
  else -1.

(** *** [float64] *)

Definition float64 (n : nat) : float := PrimFloat.of_uint63 (Uint63.of_Z (Z.of_nat n)).

(** [a > b] on float64. *)
Definition fgt (a b : float) : bool := PrimFloat.ltb b a.

(** *** A [bufio.Reader] over a finite stream

    [data] is what the stream still holds, [fin] the error it reports once
    the data is used up, and [short] bounds the sizes of the next calls of
    [Read]: a call may return fewer bytes than asked for. *)

Record Reader : Type := mkReader {
  data : string;
  fin : error;
  short : list nat
}.

(** Splits [s] after its first line feed. *)
Fixpoint cut_line (s : string) : option (string * string) :=
  match s with
  | EmptyString => None
  | String c s' =>
    if byte_val c =? 10 then Some (String c EmptyString, s')
    else match cut_line s' with
         | Some (l, rest) => Some (String c l, rest)
         | None => None
         end
  end.

(** [reader.ReadString('\n')]: the line with its delimiter, or what was left
    together with the stream's error. *)
Definition ReadString (r : Reader) : string * option error * Reader :=
  match cut_line (data r) with
  | Some (l, rest) => (l, None, mkReader rest (fin r) (short r))
  | None => (data r, Some (fin r), mkReader EmptyString (fin r) (short r))
  end.

Fixpoint take_bytes (n : nat) (s : string) : string * string :=
  match n, s with
  | S n', String c s' => let '(a, b) := take_bytes n' s' in (String c a, b)
  | _, _ => (EmptyString, s)
  end.

(** [reader.Read(p)] for a buffer [p] of [want > 0] bytes: at least one byte
    and at most [want], or the stream's error when nothing is left. *)
Definition Read (r : Reader) (want : nat) : string * option error * Reader :=
  match data r with
  | EmptyString => (EmptyString, Some (fin r), r)
  | _ =>
    let bound := match short r with
                 | b :: _ => Nat.min want (S b)
                 | [] => want
                 end in
    let '(got, rest) := take_bytes bound (data r) in
    (got, None, mkReader rest (fin r) (tl (short r)))
  end.

End Go.

(** ** read-meta/read_meta.go *)

Module ReadMeta.
Import Go.

(** *** The JSON decode targets *)

Record GzipMetaData : Type := {
  FooterLength : Z;
  DeflateLength : Z;
  HeaderLength : Z;
  InflatedLength : Z
}.

Record WarcContainer : Type := {
  Compressed : bool;
  Offset : Z;
  Filename : string;
  GzipMeta : GzipMetaData
}.

(** [WarcMetaData]: its fields [Type] and [Length] are [MetaType] and
    [MetaLength] here. *)
Record WarcMetaData : Type := {
  MetaType : string;
  MetaLength : Z;
  RecordId : string;
  Uri : string;
  MetaContentType : string
}.

Record ResponseMessage : Type := { Status : Z }.

Record HTTPHeaders : Type := { ContentType : string }.

Record ResponseMetaData : Type := {
  ResponseInfo : ResponseMessage;
  Headers : HTTPHeaders
}.

Record PayloadMetaData : Type := { ResponseMeta : ResponseMetaData }.

(** [WarcEnvelope]: its fields [HeaderLength] and [ContentLength] are
    [EnvHeaderLength] and [EnvContentLength] here. *)
Record WarcEnvelope : Type := {
  Format : string;
  EnvHeaderLength : Z;
  Digest : string;
  EnvContentLength : Z;
  HeaderMetaData : WarcMetaData;
  PayloadMetaData_ : PayloadMetaData
}.

Record WarcMeta : Type := {
  Envelope : WarcEnvelope;
  Container : WarcContainer
}.

(** The zero value of [var meta WarcMeta]. *)
Definition zeroMeta : WarcMeta :=
  {| Envelope := {| Format := ""; EnvHeaderLength := 0; Digest := "";
                    EnvContentLength := 0;
                    HeaderMetaData := {| MetaType := ""; MetaLength := 0; RecordId := "";
                                         Uri := ""; MetaContentType := "" |};
                    PayloadMetaData_ :=
                      {| ResponseMeta := {| ResponseInfo := {| Status := 0 |};
                                            Headers := {| ContentType := "" |} |} |} |};
     Container := {| Compressed := false; Offset := 0; Filename := "";
                     GzipMeta := {| FooterLength := 0; DeflateLength := 0;
                                    HeaderLength := 0; InflatedLength := 0 |} |} |}.

(** *** [record] and [nextRecord] *)

(** The struct [record]; its field [length] is [length_] here. *)
Record record : Type := mkRecord {
  length_ : Z;
  refersTo : string;
  header : list string;
  warcType : string;
  data_ : string
}.

Definition marker : string := "WARC/1.0".

(** What a loop of [nextRecord] hands to the code after it; [OutOfFuel] is
    the model's own: the fuel [nextRecord] gives its loops is never used up. *)
Inductive flow (A : Type) : Type :=
| Go_on (a : A)
| Return_err (e : error)
| Panics (msg : string)
| OutOfFuel.
Arguments Go_on {A} a.
Arguments Return_err {A} e.
Arguments Panics {A} msg.
Arguments OutOfFuel {A}.

(** The first loop: blank lines are skipped up to the record-start marker. *)
Fixpoint find_marker (fuel : nat) (r : Reader) : flow (string * Reader) :=
  match fuel with
  | O => OutOfFuel
  | S fuel' =>
    let '(line, err, r') := ReadString r in
    match err with
    | Some e => Return_err e
    | None =>
      let line := TrimSpace line in
      if String.eqb line marker then Go_on (line, r')
      else if String.eqb line "" then find_marker fuel' r'
      else Panics "Malformed first line"
    end
  end.

(** The state of the header loop: the record, [failSafe], and the variable
    [err] of the function as the last call assigned it. *)
Record header_state : Type := mkHS {
  hs_rec : record;
  hs_failSafe : Z;
  hs_err : option error
}.

(** The second loop: the rest of the header. *)
Fixpoint read_header (fuel : nat) (r : Reader) (rec : record) (failSafe : Z)
  : flow (header_state * Reader) :=
  match fuel with
  | O => OutOfFuel
  | S fuel' =>
    let '(line, err, r') := ReadString r in
    match err with
    | Some EOF => Go_on (mkHS rec failSafe (Some EOF), r')
    | Some e => Return_err e
    | None =>
      let line := TrimSpace line in
      if String.eqb line "" then Go_on (mkHS rec failSafe None, r')
      else
        let parsed : option record :=
          if HasPrefix line "WARC-Type: " then
            Some (mkRecord (length_ rec) (refersTo rec) (header rec)
                           (slice_from 11 line) (data_ rec))
          else if HasPrefix line "Content-Length: " then
            match Atoi (slice_from 16 line) with
            | Some n => Some (mkRecord n (refersTo rec) (header rec)
                                       (warcType rec) (data_ rec))
            | None => None
            end
          else if HasPrefix line "WARC-Refers-To: " then
            Some (mkRecord (length_ rec) (slice_from 16 line) (header rec)
                           (warcType rec) (data_ rec))
          else Some rec in
        match parsed with
        | None => Return_err ErrSyntax
        | Some rec1 =>
          let rec2 := mkRecord (length_ rec1) (refersTo rec1) (header rec1 ++ [line])
                               (warcType rec1) (data_ rec1) in
          let failSafe' := failSafe - 1 in
          if failSafe' =? 0 then Panics "Hit failsafe when reading header"
          else read_header fuel' r' rec2 failSafe'
        end
    end
  end.

(** The third loop: [for bytes < rec.length], where [got] is [rec.data[:bytes]]. *)
Fixpoint read_data (fuel : nat) (r : Reader) (length : nat) (got : string)
  : flow (string * Reader) :=
  if (len got <? length)%nat then
    match fuel with
    | O => OutOfFuel
    | S fuel' =>
      let '(chunk, err, r') := Read r (length - len got) in
      match err with
      | Some e => Return_err e
      | None => read_data fuel' r' length (got ++ chunk)%string
      end
    end
  else Go_on (got, r).

(** [nextRecord]: [Go_on] is its [return &rec, nil], with the reader as the
    call leaves it; a [return &rec, err] with an error is [Return_err], as
    the caller looks at [err] first. Memory is taken to suffice for
    [make([]byte, rec.length)]. *)
Definition nextRecord (r : Reader) : flow (record * Reader) :=
  let fuel := S (len (data r)) in
  match find_marker fuel r with
  | OutOfFuel => OutOfFuel
  | Return_err e => Return_err e
  | Panics msg => Panics msg
  | Go_on (line, r1) =>
    let rec0 := mkRecord 0 "" [line] "" "" in
    match read_header fuel r1 rec0 100 with
    | OutOfFuel => OutOfFuel
    | Return_err e => Return_err e
    | Panics msg => Panics msg
    | Go_on (hs, r2) =>
      let rec := hs_rec hs in
      if length_ rec =? 0 then Panics "No record length"
      else if length_ rec <? 0 then Panics "makeslice: len out of range"
      else
        let length := Z.to_nat (length_ rec) in
        match read_data length r2 length "" with
        | OutOfFuel => OutOfFuel
        | Return_err e => Return_err e
        | Panics msg => Panics msg
        | Go_on (bytes, r3) =>
          if negb (len bytes =? length)%nat then Panics "Only read fewer bytes than expected"
          else
            match hs_err hs with
            | Some e => Return_err e
            | None => Go_on (mkRecord (length_ rec) (refersTo rec) (header rec)
                                      (warcType rec) bytes, r3)
            end
        end
    end
  end.

(** *** [recordSet] and [readMeta] *)

(** [type recordSet map[string]bool]: indexing the map gives [false] for a
    key that is not in it. *)
Definition lookup_id (ids : gmap string bool) (k : string) : bool :=
  default false (ids !! k).

(** What [readMeta] writes to the standard output, a call of [fmt.Println]
    each. *)
Inductive printed : Type :=
| Blank                              (* fmt.Println("") *)
| Name (filename : string)           (* fmt.Println(filename) *)
| Pair (offset deflate : Z).         (* fmt.Println(offset, deflateLength) *)

(** How the process ends. *)
Inductive outcome : Type :=
| Finished (out : list printed)              (* the loop was left by [break] *)
| Fatal (e : error) (out : list printed)     (* log.Fatal: exit status 1 *)
| Panicked (msg : string) (out : list printed)
| Diverged.                                  (* the model ran out of fuel *)

(** The variables of [readMeta] that live across iterations. *)
Record state : Type := mkState {
  meta : WarcMeta;
  filename : string;
  out : list printed
}.

Inductive step : Type :=
| Next (st : state)        (* [continue], or the end of the loop body *)
| Stop (o : outcome).

Section Correlator.

(** [json.Unmarshal(data, &meta)]: the fields the data carries overwrite
    those of [meta], the others keep what earlier records left there;
    [None] is a decode error. The decoder is outside this development. *)
Variable Unmarshal : string -> WarcMeta -> option WarcMeta.

Variable ids : gmap string bool.

(** The body of the loop of [readMeta], from the record [nextRecord] gave. *)
Definition handle (rec : record) (st : state) : step :=
  if negb (String.eqb (warcType rec) "metadata") then Next st
  else if String.eqb (refersTo rec) "" then Stop (Panicked "No refersTo" (out st))
  else if negb (lookup_id ids (refersTo rec)) then Next st
  else
    match Unmarshal (data_ rec) (meta st) with
    | None => Stop (Fatal ErrJSON (out st))
    | Some meta' =>
      let st1 := mkState meta' (filename st) (out st) in
      if String.eqb (MetaType (HeaderMetaData (Envelope meta'))) "response" then
        let status := Status (ResponseInfo (ResponseMeta (PayloadMetaData_ (Envelope meta')))) in
        if negb (status =? 200) then Next st1
        else
          let contentType :=
            ContentType (Headers (ResponseMeta (PayloadMetaData_ (Envelope meta')))) in
          if Contains contentType "text/html" then
            let fn := Filename (Container meta') in
            let st2 :=
              if negb (String.eqb (filename st1) fn) then
                let o := if negb (String.eqb (filename st1) "")
                         then out st1 ++ [Blank] else out st1 in
                mkState meta' fn (o ++ [Name fn])
              else st1 in
            Next (mkState meta' (filename st2)
                    (out st2 ++ [Pair (Offset (Container meta'))
                                      (DeflateLength (GzipMeta (Container meta')))]))
          else Next st1
      else Next st1
    end.

Fixpoint readMeta_loop (fuel : nat) (reader : Reader) (st : state) : outcome :=
  match fuel with
  | O => Diverged
  | S fuel' =>
    match nextRecord reader with
    | OutOfFuel => Diverged
    | Return_err EOF => Finished (out st)
    | Return_err e => Fatal e (out st)
    | Panics msg => Panicked msg (out st)
    | Go_on (rec, reader') =>
      match handle rec st with
      | Stop o => o
      | Next st' => readMeta_loop fuel' reader' st'
      end
    end
  end.

Definition readMeta (reader : Reader) : outcome :=
  readMeta_loop (S (len (data reader))) reader (mkState zeroMeta "" []).

End Correlator.

(** [getRecordSubset]: one identifier a line, up to [io.EOF]; a last line
    that no line feed ends is dropped, and any other error is fatal. *)
Fixpoint getRecordSubset_loop (fuel : nat) (reader : Reader) (set : gmap string bool)
  : flow (gmap string bool) :=
  match fuel with
  | O => OutOfFuel
  | S fuel' =>
    let '(line, err, reader') := ReadString reader in
    match err with
    | Some EOF => Go_on set
    | Some e => Return_err e
    | None => getRecordSubset_loop fuel' reader' (<[TrimSpace line := true]> set)
    end
  end.

Definition getRecordSubset (stdin : Reader) : flow (gmap string bool) :=
  getRecordSubset_loop (S (len (data stdin))) stdin ∅.

End ReadMeta.

(** ** The dispatcher and the collector of the two classifiers

    [readWarc] and [printResults] are the same code in both programs, up to
    the blank line the rune-index program prints before a match. *)

Module Dispatch.
Import Go.

Definition marker : string := "WARC/1.0".

(** What [readWarc] has done when its loop ends: the arguments of the calls
    [go process(rec, ch)] in launch order, the value of [responses_to_expect]
    it sends on [count_ch], and the lines left in [rec]. *)
Record dispatched : Type := mkDispatched {
  launched : list (list string);
  responses_to_expect : nat;
  rec_left : list string
}.

(** The body of the reading loop once the line [s] is trimmed: a marker
    launches [process] on the lines gathered so far and starts a new [rec]. *)
Definition take_line (d : dispatched) (s : string) : dispatched :=
  let d1 :=
    if String.eqb s marker
    then mkDispatched (launched d ++ [rec_left d]) (S (responses_to_expect d)) []
    else d in
  mkDispatched (launched d1) (responses_to_expect d1) (rec_left d1 ++ [s]).

(** The reading loop of [readWarc]; any error of [ReadString], [io.EOF]
    included, leaves the loop. *)
Fixpoint readWarc_loop (fuel : nat) (reader : Reader) (d : dispatched) : option dispatched :=
  match fuel with
  | O => None
  | S fuel' =>
    let '(s, err, reader') := ReadString reader in
    match err with
    | Some _ => Some d
    | None => readWarc_loop fuel' reader' (take_line d (TrimSpace s))
    end
  end.

Definition readWarc (reader : Reader) : option dispatched :=
  readWarc_loop (S (len (data reader))) reader (mkDispatched [] 0 []).

(** What the [select] of [printResults] receives. *)
Inductive event : Type :=
| Result (response : string)      (* case response := <-ch *)
| Count (expecting : Z).          (* case expecting = <-count_ch *)

Record collector : Type := mkCollector {
  expecting : Z;
  received_count : Z;
  printed : list string
}.

(** [var expecting int; var received_count int = 1]. *)
Definition collector_init : collector := mkCollector 0 1 [].

Section Collector.

(** The rune-index program prints an empty line before each match. *)
Variable blank_first : bool.

(** One round of the [select]. *)
Definition receive (c : collector) (e : event) : collector :=
  match e with
  | Result response =>
    let p := if String.eqb response "" then printed c
             else if blank_first then printed c ++ [""; response]
             else printed c ++ [response] in
    mkCollector (expecting c) (received_count c + 1) p
  | Count k => mkCollector k (received_count c) (printed c)
  end.

(** [if expecting > 0 && received_count == expecting { break }]. *)
Definition done (c : collector) : bool :=
  (0 <? expecting c) && (received_count c =? expecting c).

(** How a run of [printResults] over the deliveries [events] ends: it left
    its loop and sent 0 on [count_ch], with [unread] never received; or every
    delivery was received and it waits in [select] for one more. *)
Inductive collected : Type :=
| Completed (c : collector) (unread : list event)
| Waiting (c : collector).

Fixpoint printResults_from (c : collector) (events : list event) : collected :=
  match events with
  | [] => Waiting c
  | e :: rest =>
    let c' := receive c e in
    if done c' then Completed c' rest else printResults_from c' rest
  end.

Definition printResults (events : list event) : collected :=
  printResults_from collector_init events.

End Collector.

End Dispatch.

(** ** The classifiers *)

Inductive regime : Type := Exhaustive | Sampled.

(** What a classification did; [sent] is what [process] puts on the channel,
    the other fields record the values of its variables when it concludes. *)
Record run : Type := mkRun {
  run_regime : regime;
  located : nat;       (* [j]: entries of [sample_indices] passed *)
  consulted : nat;     (* codepoints looked up in [chinese_chars] *)
  matches : float;     (* [c] *)
  denom : nat;         (* [n] at [ratio := c/float64(n)] *)
  ratio : float;
  matched : bool;      (* [ratio > threshold] *)
  sent : string
}.

Inductive classification : Type :=
| Skip                     (* a nil record: [ch <- ""] *)
| Classified (r : run).

Definition message (c : classification) : string :=
  match c with
  | Skip => ""
  | Classified r => sent r
  end.

(** Both programs fill [sample_indices] with [rand.Int() % size] and sort
    it with [sort.Ints]; [rand i] is what the call number [i] of [rand.Int()]
    returned, a non-negative number. *)
Definition draw_indices (rand : nat -> N) (n size : nat) : list nat :=
  merge_sort Nat.le
    (map (fun i => N.to_nat (rand i mod N.of_nat size)%N) (seq 0 n)).

(** The value of [c] after [k] additions of 1.0 to 0. *)
Fixpoint fcount (k : nat) : float :=
  match k with
  | O => 0%float
  | S k' => (fcount k' + 1)%float
  end.

#[local] Set Warnings "-inexact-float".

(** *** detect-chinese/detect_chinese.go: sampling byte offsets *)

Module DetectChinese.
Import Go.

Record warcRecord : Type := mkWarc {
  lines : list string;
  id : string;
  body : string
}.

(** The loop of [interpret] over the lines; [None] is its [return nil]. *)
Fixpoint interpret_lines (r : list string) (id : string) (body : list string)
  : option (string * list string) :=
  match r with
  | [] => Some (id, body)
  | line :: rest =>
    if String.eqb line "" then interpret_lines rest id body
    else if HasPrefix line "WARC" then
      if String.eqb line "WARC-Type: warcinfo" then None
      else if HasPrefix line "WARC-Record-ID: "
           then interpret_lines rest (slice_from 16 line) body
           else interpret_lines rest id body
    else if HasPrefix line "Content-" then interpret_lines rest id body
    else interpret_lines rest id (body ++ [line])
  end.

Definition interpret (r : list string) : result (option warcRecord) :=
  match interpret_lines r "" [] with
  | None => Ret None
  | Some (id, body) =>
    if (length body =? 0)%nat then Ret None
    else if String.eqb id "" then Panic "Record missing ID"
    else Ret (Some (mkWarc [] id (Join body " ")))
  end.

Definition threshold : float := 0.35%float.

Definition n_samples : nat := 500.

Section Process.

(** [chinese_chars], filled by [learnChinese] before any record is read. *)
Variable chinese_chars : gmap Z bool.

Definition is_chinese (ru : Z) : bool := bool_decide (is_Some (chinese_chars !! ru)).

(** The loop of the short-string branch: [c] and [n] after it. *)
Fixpoint count_all (rs : list (nat * Z)) (c : float) (n : nat) : float * nat :=
  match rs with
  | [] => (c, n)
  | (_, ru) :: rest =>
    count_all rest (if is_chinese ru then (c + 1)%float else c) (S n)
  end.

Section Sampling.

Variable sample_indices : list nat.
Variable n : nat.

(** [for j < n && sample_indices[j] < bound { j++ }]. *)
Fixpoint skip_duplicates (fuel : nat) (bound : Z) (j : nat) : nat :=
  match fuel with
  | O => j
  | S fuel' =>
    if (j <? n)%nat
       && match sample_indices !! j with
          | Some s => Z.of_nat s <? bound
          | None => false
          end
    then skip_duplicates fuel' bound (S j)
    else j
  end.

(** The loop [for k, ru := range warc.body] of the sampling branch, from
    the values [j], [m] and [c] to those it ends with. *)
Fixpoint count_samples (rs : list (nat * Z)) (j m : nat) (c : float)
  : result (nat * nat * float) :=
  match rs with
  | [] => Ret (j, m, c)
  | (k, ru) :: rest =>
    let rune_len := RuneLen ru in
    match sample_indices !! j with
    | None => Panic "index out of range"
    | Some s =>
      if Z.of_nat s <? Z.of_nat k + rune_len then
        let c' := if is_chinese ru then (c + 1)%float else c in
        let m' := S m in
        let j' := skip_duplicates n (Z.of_nat k + rune_len) j in
        if (j' =? n)%nat then Ret (j', m', c')
        else count_samples rest j' m' c'
      else count_samples rest j m c
    end
  end.

End Sampling.

Definition process (r : list string) (rand : nat -> N) : result classification :=
  match interpret r with
  | Err e => Err e
  | Panic msg => Panic msg
  | Ret None => Ret Skip
  | Ret (Some warc) =>
    let n := n_samples in
    if (len (body warc) <=? n)%nat then
      let '(c, n) := count_all (range_string (body warc)) 0%float 0%nat in
      let ratio := (c / float64 n)%float in
      Ret (Classified
             (mkRun Exhaustive 0 n c n ratio (fgt ratio threshold)
                    (if fgt ratio threshold then id warc else "")))
    else
      let sample_indices := draw_indices rand n (len (body warc)) in
      match count_samples sample_indices n (range_string (body warc)) 0 0 0%float with
      | Err e => Err e
      | Panic msg => Panic msg
      | Ret (j, m, c) =>
        if negb (j =? n)%nat then Panic "Only found fewer samples than drawn"
        else
          let ratio := (c / float64 n)%float in
          Ret (Classified
                 (mkRun Sampled j m c n ratio (fgt ratio threshold)
                        (if fgt ratio threshold then id warc else "")))
      end
  end.

End Process.

End DetectChinese.

(** *** The rune-index classifier: sampling indices of the rune slice *)

Module DetectRunes.
Import Go.

(** [len(line) >= k && line[:k] == pre]. *)
Definition starts (line : string) (k : nat) (pre : string) : bool :=
  (k <=? len line)%nat && String.eqb (String.substring 0 k line) pre.

(** The loop of [recordBody]; [None] is its [return nil]. *)
Fixpoint recordBody_lines (r : list string) (body : list string) : option (list string) :=
  match r with
  | [] => Some body
  | line :: rest =>
    if String.eqb line "" then recordBody_lines rest body
    else if starts line 4 "WARC" then
      if String.eqb line "WARC-Type: warcinfo" then None
      else recordBody_lines rest body
    else if starts line 8 "Content-" then recordBody_lines rest body
    else recordBody_lines rest (body ++ [line])
  end.

Definition recordBody (r : list string) : option (list string) :=
  recordBody_lines r [].

Definition threshold : float := 0.3%float.

Definition n_samples : nat := 200.

Section Process.

Variable chinese_chars : gmap Z bool.

Definition is_chinese (ru : Z) : bool := bool_decide (is_Some (chinese_chars !! ru)).

(** [for _, ru := range runes] of the short branch. *)
Fixpoint count_all (runes : list Z) (c : float) : float :=
  match runes with
  | [] => c
  | ru :: rest => count_all rest (if is_chinese ru then (c + 1)%float else c)
  end.

(** [for _, idx := range sample_indices] with [ru := runes[idx]]. *)
Fixpoint count_samples (runes : list Z) (sample_indices : list nat) (c : float)
  : result float :=
  match sample_indices with
  | [] => Ret c
  | idx :: rest =>
    match runes !! idx with
    | None => Panic "index out of range"
    | Some ru => count_samples runes rest (if is_chinese ru then (c + 1)%float else c)
    end
  end.

Definition process (r : list string) (rand : nat -> N) : result classification :=
  match recordBody r with
  | None => Ret Skip
  | Some body =>
    let body_str := Join body " " in
    let runes := map snd (range_string body_str) in
    let n := n_samples in
    if (length runes <=? n)%nat then
      let n := length runes in
      let c := count_all runes 0%float in
      let ratio := (c / float64 n)%float in
      Ret (Classified
             (mkRun Exhaustive 0 n c n ratio (fgt ratio threshold)
                    (if fgt ratio threshold then body_str else "")))
    else
      let sample_indices := draw_indices rand n (length runes) in
      match count_samples runes sample_indices 0%float with
      | Err e => Err e
      | Panic msg => Panic msg
      | Ret c =>
        let ratio := (c / float64 n)%float in
        Ret (Classified
               (mkRun Sampled (length sample_indices) (length sample_indices) c n ratio
                      (fgt ratio threshold)
                      (if fgt ratio threshold then body_str else "")))
      end
  end.

End Process.

End DetectRunes.

(** ** [learnChinese], the same loop in both classifiers

    The file of target characters is a parameter: opening it, and the
    environment variable that locates it, are outside this development. *)

Module Seed.
Import Go.

(** The loop of [learnChinese] from the map [chinese_chars] filled so far:
    the first rune of each trimmed line is put into the map; [io.EOF] ends
    the loop and any other error panics. *)
Fixpoint learnChinese_loop (fuel : nat) (reader : Reader) (chinese_chars : gmap Z bool)
  : ReadMeta.flow (gmap Z bool) :=
  match fuel with
  | O => ReadMeta.OutOfFuel
  | S fuel' =>
    let '(s, err, reader') := ReadString reader in
    match err with
    | Some EOF => ReadMeta.Go_on chinese_chars
    | Some _ => ReadMeta.Panics "learnChinese: read error"
    | None =>
      let s := TrimSpace s in
      match range_string s with
      | (_, ru) :: _ => learnChinese_loop fuel' reader' (<[ru := true]> chinese_chars)
      | [] => learnChinese_loop fuel' reader' chinese_chars
      end
    end
  end.

Definition learnChinese (reader : Reader) : ReadMeta.flow (gmap Z bool) :=
  learnChinese_loop (S (len (data reader))) reader ∅.

End Seed.

(** * The vocabulary of the properties *)

Section Vocabulary.
Import Go.

(** ** Streams given line by line *)

Definition LF : ascii := "010"%char.

(** The bytes of the lines [raw], a line feed after each, then [tail]. *)
Definition stream_of (raw : list string) (tail : string) : string :=
  fold_right (fun l acc => (l ++ String LF acc)%string) tail raw.

(** What the programs see of a line once [ReadString] and [TrimSpace] are
    through with it. *)
Definition trim_line (l : string) : string := TrimSpace (l ++ String LF "").

(** [l] holds no line feed. *)
Definition one_line (l : string) : bool :=
  match cut_line l with
  | None => true
  | Some _ => false
  end.

(** A raw line the first loop of [nextRecord] skips. *)
Definition blank_line (l : string) : bool :=
  one_line l && String.eqb (trim_line l) "".

(** A raw line that is the record-start marker once trimmed. *)
Definition marker_line (l : string) : bool :=
  one_line l && String.eqb (trim_line l) ReadMeta.marker.

(** A raw header line that declares no length, or the length 0. *)
Definition lengthless_line (l : string) : bool :=
  let line := trim_line l in
  one_line l && negb (String.eqb line "")
  && (if HasPrefix line "WARC-Type: " then true
      else if HasPrefix line "Content-Length: " then
        match Atoi (slice_from 16 line) with
        | Some n => n =? 0
        | None => false
        end
      else true).

(** The header loop stops at [r]: a blank line comes next, or the stream
    ends with [io.EOF]. *)
Definition header_ends (r : Reader) : bool :=
  match ReadString r with
  | (l, None, _) => String.eqb (TrimSpace l) ""
  | (_, Some e, _) => error_eqb e EOF
  end.

(** [strings.Repeat], to write inputs down. *)
Fixpoint Repeat (s : string) (count : nat) : string :=
  match count with
  | O => ""%string
  | S count' => (s ++ Repeat s count')%string
  end.

(** U+00E9, two bytes; U+4E2D, three bytes. *)
Definition e_acute : string := str [195; 169].
Definition zhong : string := str [228; 184; 173].

(** Every byte of [s] is an ASCII character. *)
Definition ascii_only (s : string) : bool :=
  forallb (fun c => byte_val c <? 128) (list_ascii_of_string s).

(** ** The dispatcher *)

(** The shape of what is launched: nothing yet and no marker read, or a
    first task without a marker followed by tasks that start with one. *)
Definition well_shaped (d : Dispatch.dispatched) : Prop :=
  (Dispatch.launched d = []
   /\ Forall (fun s => s <> Dispatch.marker) (Dispatch.rec_left d))
  \/ (exists first rest,
        Dispatch.launched d = first :: rest
        /\ Forall (fun s => s <> Dispatch.marker) first
        /\ Forall (fun t => head t = Some Dispatch.marker) rest
        /\ head (Dispatch.rec_left d) = Some Dispatch.marker).

(** ** The records of the classifiers *)

(** The lines that make up the body: not blank, and beginning neither with
    the metadata prefix nor with the content prefix. *)
Definition is_body_line (line : string) : bool :=
  negb (String.eqb line "") && negb (HasPrefix line "WARC")
  && negb (HasPrefix line "Content-").

(** The reconstructed body of a record: its body lines joined by a space. *)
Definition reconstructed_body (r : list string) : string :=
  Join (List.filter is_body_line r) " ".

Definition has_id_line (r : list string) : bool :=
  existsb (fun line => HasPrefix line "WARC-Record-ID: ") r.

Definition is_warcinfo (r : list string) : bool :=
  existsb (fun line => String.eqb line "WARC-Type: warcinfo") r.

(** ** The classifications *)

(** The number of runes of [rs] found in [chinese_chars]. *)
Definition members (chinese_chars : gmap Z bool) (rs : list Z) : nat :=
  length (List.filter (DetectChinese.is_chinese chinese_chars) rs).

(** The conclusion of [process] from the values of its variables. *)
Definition conclude (thr : float) (reg : regime) (j m : nat) (c : float) (n : nat)
           (hit : string) : classification :=
  Classified (mkRun reg j m c n (c / float64 n) (fgt (c / float64 n) thr)
                    (if fgt (c / float64 n) thr then hit else "")).

(** [ratio > thr] agrees with [num * n < den * k] for every count [k] of
    matches among [n <= nmax] codepoints; [nan > thr], for [n = 0], is false. *)
Definition table_ok (thr : float) (num den : Z) (nmax : nat) : bool :=
  forallb
    (fun n =>
       forallb
         (fun k => Bool.eqb (fgt (fcount k / float64 n) thr)
                            (num * Z.of_nat n <? den * Z.of_nat k))
         (seq 0 (S n)))
    (seq 0 (S nmax)).

(** ** The correlator *)

Import ReadMeta.

Variable Unmarshal : string -> WarcMeta -> option WarcMeta.
Variable ids : gmap string bool.

(** The loop body emits the triple [(f, o, l)] for [rec]: it goes on to the
    next record having printed the pair [o l], after the group header lines
    [f] needs if it is a new file name, with [f] the current file name. *)
Definition emits (rec : record) (st : state) (f : string) (o l : Z) : Prop :=
  exists st' group,
    handle Unmarshal ids rec st = Next st'
    /\ out st' = out st ++ group ++ [Pair o l]
    /\ filename st' = f
    /\ (group = [] \/ group = [Name f] \/ group = [Blank; Name f]).

(** What the filters of the loop body ask of a record, [meta'] being the
    decode target after this record's body is decoded into it. *)
Definition qualifies (rec : record) (st : state) (meta' : WarcMeta) : Prop :=
  warcType rec = "metadata"%string
  /\ refersTo rec <> ""%string
  /\ ids !! refersTo rec = Some true
  /\ Unmarshal (data_ rec) (meta st) = Some meta'
  /\ MetaType (HeaderMetaData (Envelope meta')) = "response"%string
  /\ Status (ResponseInfo (ResponseMeta (PayloadMetaData_ (Envelope meta')))) = 200
  /\ Contains (ContentType (Headers (ResponseMeta (PayloadMetaData_ (Envelope meta')))))
              "text/html" = true.

(** A decoder for examples: the body ["A"] is an HTML response with status
    200, ["B"] one with status 404, ["C"] one with status 200 again, all in
    the file [a.warc.gz]; any other body fails to decode. *)
Definition example_meta (status : Z) (offset deflate : Z) : WarcMeta :=
  {| Envelope := {| Format := "WARC"; EnvHeaderLength := 0; Digest := "";
                    EnvContentLength := 0;
                    HeaderMetaData := {| MetaType := "response"; MetaLength := 0;
                                         RecordId := ""; Uri := "";
                                         MetaContentType := "application/http" |};
                    PayloadMetaData_ :=
                      {| ResponseMeta :=
                           {| ResponseInfo := {| Status := status |};
                              Headers := {| ContentType := "text/html; charset=UTF-8" |} |} |} |};
     Container := {| Compressed := true; Offset := offset; Filename := "a.warc.gz";
                     GzipMeta := {| FooterLength := 8; DeflateLength := deflate;
                                    HeaderLength := 10; InflatedLength := 0 |} |} |}.

Definition example_Unmarshal (body : string) (_ : WarcMeta) : option WarcMeta :=
  if String.eqb body "A" then Some (example_meta 200 100 20)
  else if String.eqb body "B" then Some (example_meta 404 200 30)
  else if String.eqb body "C" then Some (example_meta 200 300 40)
  else None.

Definition CR : string := String "013"%char "".

(** A metadata record with CRLF line ends, its one-byte body, and the two
    empty lines that follow a record. *)
Definition example_record (refers body rest : string) : string :=
  stream_of [("WARC/1.0" ++ CR)%string;
             ("WARC-Type: metadata" ++ CR)%string;
             ("WARC-Refers-To: " ++ refers ++ CR)%string;
             ("Content-Length: 1" ++ CR)%string;
             CR]
            (body ++ stream_of [CR; CR] rest).

End Vocabulary.

(** * The vocabulary of the further properties *)

Section FurtherVocabulary.
Import Go.

(** ** Framed records *)

(** A raw line of a header: one line, not blank once trimmed. *)
Definition header_line (l : string) : bool :=
  one_line l && negb (String.eqb (trim_line l) "").

(** The value after the prefix [pre] in the last of [lines] that begins with
    it, [init] when there is none. *)
Definition last_field (pre : string) (lines : list string) (init : string) : string :=
  fold_left (fun acc line => if HasPrefix line pre then slice_from (len pre) line else acc)
            lines init.

(** The length the [Content-Length: ] lines declare, the last one winning
    over [cur]; [None] when one of them is not a number. *)
Fixpoint declared_length (lines : list string) (cur : Z) : option Z :=
  match lines with
  | [] => Some cur
  | line :: rest =>
    if HasPrefix line "Content-Length: " then
      match Atoi (slice_from 16 line) with
      | Some n => declared_length rest n
      | None => None
      end
    else declared_length rest cur
  end.

(** A record as it stands in a stream: the blank lines before it, its
    marker line, its header lines, the blank line that ends the header, and
    its body. *)
Record framed : Type := mkFramed {
  f_blanks : list string;
  f_marker : string;
  f_header : list string;
  f_stop : string;
  f_body : string
}.

(** The frame is one [nextRecord] reads whole: fewer than 100 header lines,
    and a body of the positive length the header declares. *)
Definition well_framed (f : framed) : bool :=
  forallb blank_line (f_blanks f)
  && marker_line (f_marker f)
  && forallb header_line (f_header f)
  && blank_line (f_stop f)
  && (length (f_header f) <? 100)%nat
  && match declared_length (map trim_line (f_header f)) 0 with
     | Some n => (0 <? n) && (n =? Z.of_nat (len (f_body f)))
     | None => false
     end.

(** The bytes of the frame, followed by [rest]. *)
Definition frame_bytes (f : framed) (rest : string) : string :=
  stream_of (f_blanks f ++ f_marker f :: f_header f ++ [f_stop f])
            (f_body f ++ rest)%string.

(** The record the frame holds. *)
Definition record_of (f : framed) : ReadMeta.record :=
  let lines := map trim_line (f_header f) in
  ReadMeta.mkRecord (Z.of_nat (len (f_body f)))
                    (last_field "WARC-Refers-To: " lines "")
                    (ReadMeta.marker :: lines)
                    (last_field "WARC-Type: " lines "")
                    (f_body f).

(** ** The correlator over a list of records *)

(** What [readMeta] prints, however it ends. *)
Definition output_of (o : ReadMeta.outcome) : list ReadMeta.printed :=
  match o with
  | ReadMeta.Finished out => out
  | ReadMeta.Fatal _ out => out
  | ReadMeta.Panicked _ out => out
  | ReadMeta.Diverged => []
  end.

(** The loop body of [readMeta] over the records [recs] in turn, up to the
    first one that stops the process. *)
Fixpoint handle_all (Unmarshal : string -> ReadMeta.WarcMeta -> option ReadMeta.WarcMeta)
         (ids : gmap string bool) (recs : list ReadMeta.record) (st : ReadMeta.state)
  : ReadMeta.outcome :=
  match recs with
  | [] => ReadMeta.Finished (ReadMeta.out st)
  | rec :: rest =>
    match ReadMeta.handle Unmarshal ids rec st with
    | ReadMeta.Stop o => o
    | ReadMeta.Next st' => handle_all Unmarshal ids rest st'
    end
  end.

(** What may follow a printed line: a file name after a blank line, a pair
    after a file name, anything after a pair. *)
Definition follows (a : ReadMeta.printed) (next : option ReadMeta.printed) : bool :=
  match a, next with
  | ReadMeta.Blank, Some (ReadMeta.Name _) => true
  | ReadMeta.Blank, _ => false
  | ReadMeta.Name _, Some (ReadMeta.Pair _ _) => true
  | ReadMeta.Name _, _ => false
  | ReadMeta.Pair _ _, _ => true
  end.

Fixpoint grouped (out : list ReadMeta.printed) : bool :=
  match out with
  | [] => true
  | a :: rest => follows a (head rest) && grouped rest
  end.

(** The file names printed, in order. *)
Fixpoint names_of (out : list ReadMeta.printed) : list string :=
  match out with
  | [] => []
  | ReadMeta.Name f :: rest => f :: names_of rest
  | _ :: rest => names_of rest
  end.

(** No two file names in a row are the same. *)
Fixpoint no_repeat (names : list string) : Prop :=
  match names with
  | a :: ((b :: _) as rest) => a <> b /\ no_repeat rest
  | _ => True
  end.

(** ** The collector *)

(** What [printResults] prints for one delivery. *)
Definition shown (blank_first : bool) (e : Dispatch.event) : list string :=
  match e with
  | Dispatch.Result response =>
    if String.eqb response "" then []
    else if blank_first then [""%string; response] else [response]
  | Dispatch.Count _ => []
  end.

Definition collector_of (r : Dispatch.collected) : Dispatch.collector :=
  match r with
  | Dispatch.Completed c _ => c
  | Dispatch.Waiting c => c
  end.

Definition unread_of (r : Dispatch.collected) : list Dispatch.event :=
  match r with
  | Dispatch.Completed _ unread => unread
  | Dispatch.Waiting _ => []
  end.

(** ** The records of the classifiers *)

(** The identifier of a record: what follows [WARC-Record-ID: ] in the last
    line that begins with it. *)
Definition last_id (r : list string) : string := last_field "WARC-Record-ID: " r "".

(** The first rune of each line that has one. *)
Definition first_runes (lines : list string) : list Z :=
  flat_map (fun line => match range_string line with
                        | (_, ru) :: _ => [ru]
                        | [] => []
                        end) lines.

Section LoopVocabulary.
Import ReadMeta.

(** ** Further pieces of the programs' loops *)

(** [nextRecord] once the header loop has ended. *)
Definition after_header (h : flow (header_state * Reader)) : flow (record * Reader) :=
  match h with
  | OutOfFuel => OutOfFuel
  | Return_err e => Return_err e
  | Panics msg => Panics msg
  | Go_on (hs, r2) =>
    let rec := hs_rec hs in
    if length_ rec =? 0 then Panics "No record length"
    else if length_ rec <? 0 then Panics "makeslice: len out of range"
    else
      let length := Z.to_nat (length_ rec) in
      match read_data length r2 length "" with
      | OutOfFuel => OutOfFuel
      | Return_err e => Return_err e
      | Panics msg => Panics msg
      | Go_on (bytes, r3) =>
        if negb (len bytes =? length)%nat then Panics "Only read fewer bytes than expected"
        else
          match hs_err hs with
          | Some e => Return_err e
          | None => Go_on (mkRecord (length_ rec) (refersTo rec) (header rec)
                                    (warcType rec) bytes, r3)
          end
      end
  end.

(** The results among the deliveries a collector has consumed. *)
Definition results_in (events : list Dispatch.event) : nat :=
  length (List.filter (fun e => match e with
                                | Dispatch.Result _ => true
                                | Dispatch.Count _ => false
                                end) events).

(** What the loop of [readMeta] keeps true of its output and of the file
    name it holds. *)
Definition grouping (st : state) : Prop :=
  grouped (out st) = true
  /\ (out st = [] \/ exists o l, last (out st) = Some (Pair o l))
  /\ no_repeat (names_of (out st))
  /\ match last (names_of (out st)) with
     | Some f => f = filename st
     | None => filename st = ""%string
     end
  /\ head (out st) <> Some Blank.

End LoopVocabulary.

(** ** The codepoints a sample reaches *)

(** A drawn offset lies among the bytes [k .. k + RuneLen ru - 1] of the
    codepoint [ru] that starts at [k]. *)
Definition reaches (samples : list nat) (e : nat * Z) : bool :=
  existsb (fun s => (Z.of_nat (fst e) <=? Z.of_nat s)
                    && (Z.of_nat s <? Z.of_nat (fst e) + Go.RuneLen (snd e))) samples.

(** The codepoints tile the bytes from [k] on: each takes at least one byte
    and starts [RuneLen] bytes after the one before. *)
Fixpoint tiled (k : Z) (rs : list (nat * Z)) : bool :=
  match rs with
  | [] => true
  | (k', ru) :: rest =>
    (Z.of_nat k' =? k) && (0 <? Go.RuneLen ru) && tiled (k + Go.RuneLen ru) rest
  end.

(** The runes at the drawn indices, one for every draw. *)
Definition drawn_runes (runes : list Z) (sample_indices : list nat) : list Z :=
  omap (fun idx => runes !! idx) sample_indices.

End FurtherVocabulary.

(** * Properties *)

(** ** The collector [printResults] *)

Section CollectorFacts.
Import Dispatch.

Variable blank_first : bool.

Lemma receive_results_expecting (rs : list string) (c : collector) :
  expecting (fold_left (receive blank_first) (map Result rs) c) = expecting c.
Proof.
  revert c. induction rs as [|r rs IH]; intros c; simpl; [reflexivity|].
  rewrite IH. reflexivity.
Qed.

Lemma receive_results_count (rs : list string) (c : collector) :
  received_count (fold_left (receive blank_first) (map Result rs) c)
  = received_count c + Z.of_nat (length rs).
Proof.
  revert c. induction rs as [|r rs IH]; intros c; simpl.
  - lia.
  - rewrite IH. simpl. lia.
Qed.

(** No result makes the collector leave its loop while the total is unknown
    or still ahead of the count. *)
Lemma printResults_from_results (rs : list string) (c : collector) (rest : list event) :
  expecting c <= 0 \/ received_count c + Z.of_nat (length rs) < expecting c ->
  printResults_from blank_first c (map Result rs ++ rest)
  = printResults_from blank_first (fold_left (receive blank_first) (map Result rs) c) rest.
Proof.
  revert c. induction rs as [|r rs IH]; intros c Hc;
    cbn [map app printResults_from fold_left]; [reflexivity|].
  assert (Hd : done (receive blank_first c (Result r)) = false).
  { unfold done. simpl. simpl in Hc.
    destruct Hc as [Hc|Hc].
    - replace (0 <? expecting c) with false by (symmetry; apply Z.ltb_ge; lia).
      reflexivity.
    - replace (received_count c + 1 =? expecting c) with false
        by (symmetry; apply Z.eqb_neq; lia).
      apply andb_false_r. }
  rewrite Hd. apply IH. cbn [length] in Hc. simpl. lia.
Qed.

(** When the total arrives after the last result, the collector never leaves
    its loop: its count is one more than the total. *)
Lemma printResults_total_last (rs : list string) :
  exists c, printResults blank_first (map Result rs ++ [Count (Z.of_nat (length rs))])
            = Waiting c
         /\ received_count c = Z.of_nat (length rs) + 1.
Proof.
  unfold printResults.
  rewrite printResults_from_results by (left; simpl; lia).
  set (c := fold_left _ _ _).
  assert (Hc : received_count c = 1 + Z.of_nat (length rs))
    by (subst c; rewrite receive_results_count; reflexivity).
  simpl. unfold done. simpl. rewrite Hc.
  replace (1 + Z.of_nat (length rs) =? Z.of_nat (length rs)) with false
    by (symmetry; apply Z.eqb_neq; lia).
  rewrite andb_false_r. eexists. split; [reflexivity|]. simpl. lia.
Qed.

(** When the total [k] arrives while results are still to come, the
    collector leaves its loop one result short: the last of the [k] results
    is never received. *)
Lemma printResults_one_short (rs1 rs2 : list string) (r : string) (k : Z) :
  k = Z.of_nat (length rs1 + length rs2 + 1) ->
  exists c, printResults blank_first
              (map Result rs1 ++ Count k :: map Result rs2 ++ [Result r])
            = Completed c [Result r]
         /\ received_count c = k.
Proof.
  intros Hk. unfold printResults.
  rewrite printResults_from_results by (left; simpl; lia).
  set (c1 := fold_left _ _ _).
  assert (Hc1 : received_count c1 = 1 + Z.of_nat (length rs1))
    by (subst c1; rewrite receive_results_count; reflexivity).
  destruct rs2 as [|x rs2] using rev_ind.
  - simpl. unfold done. simpl. rewrite Hc1.
    replace (0 <? k) with true by (symmetry; apply Z.ltb_lt; lia).
    replace (1 + Z.of_nat (length rs1) =? k) with true
      by (symmetry; apply Z.eqb_eq; simpl in Hk; lia).
    simpl. eexists. split; [reflexivity|]. simpl. simpl in Hk. lia.
  - clear IHrs2. rewrite length_app in Hk. simpl in Hk.
    simpl. unfold done at 1. simpl. rewrite Hc1.
    replace (1 + Z.of_nat (length rs1) =? k) with false
      by (symmetry; apply Z.eqb_neq; lia).
    rewrite andb_false_r.
    rewrite map_app. simpl. rewrite <- app_assoc.
    rewrite printResults_from_results by (right; simpl; lia).
    set (c2 := fold_left _ _ _).
    assert (Hc2 : received_count c2 = 1 + Z.of_nat (length rs1) + Z.of_nat (length rs2))
      by (subst c2; rewrite receive_results_count; simpl; lia).
    assert (He2 : expecting c2 = k)
      by (subst c2; rewrite receive_results_expecting; reflexivity).
    simpl. unfold done. simpl. rewrite Hc2, He2.
    replace (0 <? k) with true by (symmetry; apply Z.ltb_lt; lia).
    replace (1 + Z.of_nat (length rs1) + Z.of_nat (length rs2) + 1 =? k) with true
      by (symmetry; apply Z.eqb_eq; lia).
    simpl. eexists. split; [reflexivity|]. simpl. lia.
Qed.

(** So no interleaving of [k] results with the total [k] makes the collector
    leave its loop having received all of them. *)
Lemma printResults_never_after_all (rs1 rs2 : list string) (c : collector) :
  printResults blank_first
    (map Result rs1 ++ Count (Z.of_nat (length rs1 + length rs2)) :: map Result rs2)
  <> Completed c [].
Proof.
  destruct rs2 as [|r rs2 _] using rev_ind.
  - destruct (printResults_total_last rs1) as (c' & H & _).
    cbn [map length]. rewrite Nat.add_0_r, H. discriminate.
  - destruct (printResults_one_short rs1 rs2 r
                (Z.of_nat (length rs1 + length (rs2 ++ [r])))) as (c' & H & _).
    + rewrite length_app. simpl. f_equal. lia.
    + rewrite map_app. cbn [map]. rewrite H. discriminate.
Qed.

End CollectorFacts.

(** C1. With two tasks launched and the total 2 announced, the collector of
    either program leaves its loop after one result when the total arrives
    before the second result, which stays unread and unprinted; and it never
    leaves its loop when both results arrive before the total. The same holds
    for one task: the result, then the total 1, leaves it waiting. *)
Theorem printResults_two_tasks :
  Dispatch.printResults false [Dispatch.Result "a"; Dispatch.Count 2; Dispatch.Result "b"]
  = Dispatch.Completed (Dispatch.mkCollector 2 2 ["a"]) [Dispatch.Result "b"]
  /\ Dispatch.printResults false [Dispatch.Result "a"; Dispatch.Result "b"; Dispatch.Count 2]
     = Dispatch.Waiting (Dispatch.mkCollector 2 3 ["a"; "b"])
  /\ Dispatch.printResults true [Dispatch.Result "a"; Dispatch.Result "b"; Dispatch.Count 2]
     = Dispatch.Waiting (Dispatch.mkCollector 2 3 [""; "a"; ""; "b"])
  /\ Dispatch.printResults false [Dispatch.Result "a"; Dispatch.Count 1]
     = Dispatch.Waiting (Dispatch.mkCollector 1 2 ["a"]).
Proof. repeat split. Qed.

(** ** Streams given line by line *)

Section Lines.
Import Go.

Lemma cut_line_app (l rest : string) :
  cut_line l = None ->
  cut_line (l ++ String LF rest) = Some ((l ++ String LF "")%string, rest).
Proof.
  induction l as [|c l IH]; simpl; intros H; [reflexivity|].
  destruct (byte_val c =? 10); [discriminate|].
  destruct (cut_line l) as [[? ?]|]; [discriminate|].
  rewrite IH by reflexivity. reflexivity.
Qed.

Lemma ReadString_line (l rest : string) (e : error) (sh : list nat) :
  cut_line l = None ->
  ReadString (mkReader (l ++ String LF rest) e sh)
  = ((l ++ String LF "")%string, None, mkReader rest e sh).
Proof.
  intros H. unfold ReadString. simpl. rewrite cut_line_app by assumption. reflexivity.
Qed.

Lemma ReadString_tail (tail : string) (e : error) (sh : list nat) :
  cut_line tail = None ->
  ReadString (mkReader tail e sh) = (tail, Some e, mkReader "" e sh).
Proof.
  intros H. unfold ReadString. simpl. rewrite H. reflexivity.
Qed.

Lemma len_app (a b : string) : len (a ++ b) = (len a + len b)%nat.
Proof. unfold len. induction a as [|c a IH]; simpl; [reflexivity|]. rewrite IH. reflexivity. Qed.

Lemma len_stream_of (raw : list string) (tail : string) :
  (length raw <= len (stream_of raw tail))%nat.
Proof.
  induction raw as [|l raw IH]; simpl; [lia|].
  rewrite len_app. unfold len in *. simpl. lia.
Qed.

Lemma cut_line_len (s l rest : string) :
  cut_line s = Some (l, rest) -> len s = (len l + len rest)%nat /\ (1 <= len l)%nat.
Proof.
  revert l rest. induction s as [|c s IH]; intros l rest H; simpl in H; [discriminate|].
  destruct (byte_val c =? 10).
  - inversion H; subst. unfold len. simpl. lia.
  - destruct (cut_line s) as [[l' rest']|]; [|discriminate].
    inversion H; subst. destruct (IH _ _ eq_refl) as [IH1 IH2].
    unfold len in *. simpl. lia.
Qed.

Lemma ReadString_shrinks (r r' : Reader) (l : string) :
  ReadString r = (l, None, r') -> (len (data r') < len (data r))%nat.
Proof.
  unfold ReadString. destruct (cut_line (data r)) as [[l0 rest]|] eqn:Hc; [|discriminate].
  intros H. inversion H; subst. cbn [data].
  apply cut_line_len in Hc. lia.
Qed.

Lemma ReadString_data_le (r r' : Reader) (l : string) (err : option error) :
  ReadString r = (l, err, r') -> (len (data r') <= len (data r))%nat.
Proof.
  unfold ReadString. destruct (cut_line (data r)) as [[l0 rest]|] eqn:Hc;
    intros H; inversion H; subst; cbn [data].
  - apply cut_line_len in Hc. lia.
  - unfold len. simpl. lia.
Qed.

End Lines.

(** ** The dispatcher [readWarc] *)

Section DispatcherFacts.
Import Go Dispatch.

(** On a stream given line by line the loop is a fold of [take_line]. *)
Lemma readWarc_loop_lines (raw : list string) (tail : string) (e : error)
      (sh : list nat) (fuel : nat) (d : dispatched) :
  Forall (fun l => cut_line l = None) raw ->
  cut_line tail = None ->
  (length raw < fuel)%nat ->
  readWarc_loop fuel (mkReader (stream_of raw tail) e sh) d
  = Some (fold_left take_line (map trim_line raw) d).
Proof.
  intros Hraw Htail. revert fuel d.
  induction Hraw as [|l raw Hl Hraw IH]; intros fuel d Hfuel.
  - destruct fuel as [|fuel]; [simpl in Hfuel; lia|].
    cbn [stream_of fold_right readWarc_loop]. rewrite ReadString_tail by assumption.
    reflexivity.
  - destruct fuel as [|fuel]; [simpl in Hfuel; lia|].
    cbn [stream_of fold_right readWarc_loop].
    rewrite ReadString_line by assumption.
    cbn [map fold_left]. apply IH. simpl in Hfuel. lia.
Qed.

(** Lines other than the marker only extend [rec]. *)
Lemma take_lines_no_marker (ls : list string) (d : dispatched) :
  Forall (fun s => s <> marker) ls ->
  fold_left take_line ls d
  = mkDispatched (launched d) (responses_to_expect d) (rec_left d ++ ls).
Proof.
  intros H. revert d. induction H as [|s ls Hs Hls IH]; intros d; simpl.
  - rewrite app_nil_r. destruct d; reflexivity.
  - rewrite IH. unfold take_line.
    destruct (String.eqb_spec s marker) as [->|_]; [contradiction|].
    simpl. rewrite <- app_assoc. reflexivity.
Qed.

(** Every line read is in a launched task or still in [rec], in order. *)
Lemma take_lines_concat (ls : list string) (d : dispatched) :
  concat (launched (fold_left take_line ls d)) ++ rec_left (fold_left take_line ls d)
  = concat (launched d) ++ rec_left d ++ ls.
Proof.
  revert d. induction ls as [|s ls IH]; intros d; simpl.
  - rewrite app_nil_r. reflexivity.
  - rewrite IH. unfold take_line.
    destruct (String.eqb s marker); simpl.
    + rewrite concat_app. simpl. rewrite app_nil_r, <- !app_assoc. reflexivity.
    + rewrite <- !app_assoc. reflexivity.
Qed.

Lemma take_lines_count (ls : list string) (d : dispatched) :
  responses_to_expect d = length (launched d) ->
  responses_to_expect (fold_left take_line ls d)
  = length (launched (fold_left take_line ls d)).
Proof.
  revert d. induction ls as [|s ls IH]; intros d Hd; simpl; [assumption|].
  apply IH. unfold take_line. destruct (String.eqb s marker); simpl; [|assumption].
  rewrite length_app. simpl. lia.
Qed.

Lemma take_line_shape (d : dispatched) (s : string) :
  well_shaped d -> well_shaped (take_line d s).
Proof.
  unfold well_shaped, take_line. intros [[Hl Hr]|(first & rest & Hl & Hf & Hrest & Hr)].
  - destruct (String.eqb_spec s marker) as [->|Hs]; simpl.
    + right. exists (rec_left d), []. rewrite Hl. auto.
    + left. split; [assumption|]. apply Forall_app. auto.
  - right. destruct (String.eqb_spec s marker) as [->|Hs]; simpl.
    + exists first, (rest ++ [rec_left d]). rewrite Hl. repeat split; auto.
      apply Forall_app. auto.
    + exists first, rest. repeat split; auto.
      destruct (rec_left d); [discriminate|assumption].
Qed.

Lemma take_lines_shape (ls : list string) (d : dispatched) :
  well_shaped d -> well_shaped (fold_left take_line ls d).
Proof.
  revert d. induction ls as [|s ls IH]; intros d Hd; simpl; [assumption|].
  apply IH, take_line_shape, Hd.
Qed.

(** [readWarc] reaches the end of its stream. *)
Lemma readWarc_total (reader : Reader) : is_Some (readWarc reader).
Proof.
  unfold readWarc. generalize (mkDispatched [] 0 []).
  assert (H : forall fuel r d, (len (data r) < fuel)%nat ->
                               is_Some (readWarc_loop fuel r d)).
  { induction fuel as [|fuel IH]; intros r d Hfuel; [lia|].
    cbn [readWarc_loop]. destruct (ReadString r) as [[s err] r'] eqn:Hr.
    destruct err as [e|]; [eexists; reflexivity|].
    apply IH. apply ReadString_shrinks in Hr. lia. }
  intros d. apply H. lia.
Qed.

End DispatcherFacts.

(** C9. On a stream given line by line whose trimmed lines are
    [pre ++ marker :: post] with no marker in [post], [readWarc] launches
    tasks whose lines are, in order, exactly [pre]: the final marker and the
    lines after it stay in [rec] and reach no task. The total it announces
    is the number of tasks; the first task holds no marker (the lines before
    the first one) and every later task starts with a marker. *)
Theorem readWarc_last_record_not_dispatched
    (raw : list string) (tail : string) (e : Go.error) (sh : list nat)
    (pre post : list string) :
  Forall (fun l => Go.cut_line l = None) raw ->
  Go.cut_line tail = None ->
  map trim_line raw = pre ++ Dispatch.marker :: post ->
  Forall (fun s => s <> Dispatch.marker) post ->
  exists d,
    Dispatch.readWarc (Go.mkReader (stream_of raw tail) e sh) = Some d
    /\ concat (Dispatch.launched d) = pre
    /\ Dispatch.rec_left d = Dispatch.marker :: post
    /\ Dispatch.responses_to_expect d = length (Dispatch.launched d)
    /\ exists first rest,
         Dispatch.launched d = first :: rest
         /\ Forall (fun s => s <> Dispatch.marker) first
         /\ Forall (fun t => head t = Some Dispatch.marker) rest.
Proof.
  intros Hraw Htail Hlines Hpost.
  unfold Dispatch.readWarc.
  rewrite readWarc_loop_lines; try assumption.
  2:{ cbn [Go.data]. pose proof (len_stream_of raw tail). lia. }
  eexists. split; [reflexivity|].
  rewrite Hlines, fold_left_app. cbn [fold_left].
  set (d0 := Dispatch.mkDispatched [] 0 []).
  set (d1 := fold_left Dispatch.take_line pre d0).
  assert (Hcat : concat (Dispatch.launched d1) ++ Dispatch.rec_left d1 = pre)
    by (subst d1; rewrite take_lines_concat; reflexivity).
  assert (Hcnt : Dispatch.responses_to_expect d1 = length (Dispatch.launched d1))
    by (subst d1; apply take_lines_count; reflexivity).
  assert (Hshape : well_shaped (Dispatch.take_line d1 Dispatch.marker)).
  { apply take_line_shape. subst d1. apply take_lines_shape. left. split; constructor. }
  rewrite take_lines_no_marker by assumption.
  revert Hshape. unfold Dispatch.take_line.
  rewrite String.eqb_refl. cbn. intros Hshape.
  rewrite concat_app. cbn. rewrite app_nil_r.
  repeat split; try assumption.
  - rewrite length_app, Hcnt. simpl. lia.
  - destruct Hshape as [[Hnil _]|(first & rest & Hl & Hf & Hrest & _)].
    + destruct (Dispatch.launched d1); discriminate.
    + exists first, rest. auto.
Qed.

Lemma readWarc_last_record_not_dispatched_witness :
  exists d,
    Dispatch.readWarc
      (Go.mkReader (stream_of ["x"; " WARC/1.0"; "a"; "WARC/1.0"; "b"]%string "c") Go.EOF [])
    = Some d
    /\ concat (Dispatch.launched d) = ["x"; "WARC/1.0"; "a"]%string
    /\ Dispatch.rec_left d = ["WARC/1.0"; "b"]%string
    /\ Dispatch.responses_to_expect d = length (Dispatch.launched d)
    /\ exists first rest,
         Dispatch.launched d = first :: rest
         /\ Forall (fun s => s <> Dispatch.marker) first
         /\ Forall (fun t => head t = Some Dispatch.marker) rest.
Proof.
  apply (readWarc_last_record_not_dispatched
           ["x"; " WARC/1.0"; "a"; "WARC/1.0"; "b"]%string "c" Go.EOF []
           ["x"; "WARC/1.0"; "a"]%string ["b"]%string).
  - repeat constructor.
  - reflexivity.
  - reflexivity.
  - repeat constructor. discriminate.
Defined.

(** ** [interpret] of the byte-offset classifier *)

Section InterpretFacts.
Import Go DetectChinese.

Lemma Join_nonempty (l : string) (ls : list string) :
  l <> ""%string -> Join (l :: ls) " " <> ""%string.
Proof.
  intros Hl. simpl. destruct ls; [assumption|].
  destruct l; [contradiction|discriminate].
Qed.

Lemma filter_body_line_nonempty (r : list string) :
  Forall (fun l => l <> ""%string) (List.filter is_body_line r).
Proof.
  apply List.Forall_forall. intros l Hl. apply List.filter_In in Hl as [_ Hl].
  unfold is_body_line in Hl. intros ->. discriminate.
Qed.

Lemma reconstructed_body_nonempty (r : list string) :
  reconstructed_body r <> ""%string <-> List.filter is_body_line r <> [].
Proof.
  unfold reconstructed_body. pose proof (filter_body_line_nonempty r) as H.
  destruct (List.filter is_body_line r) as [|l ls].
  - simpl. split; intros F; contradiction.
  - split; [discriminate|]. intros _. apply Join_nonempty.
    inversion H; assumption.
Qed.

(** Without a warcinfo line and without an identifier line, the loop of
    [interpret] keeps its [id] and gathers the body lines. *)
Lemma interpret_lines_plain (r : list string) (i : string) (b : list string) :
  is_warcinfo r = false ->
  has_id_line r = false ->
  interpret_lines r i b = Some (i, b ++ List.filter is_body_line r).
Proof.
  revert b. induction r as [|line r IH]; intros b Hw Hi; simpl.
  - rewrite app_nil_r. reflexivity.
  - simpl in Hw, Hi. apply orb_false_iff in Hw as [Hw1 Hw2].
    apply orb_false_iff in Hi as [Hi1 Hi2].
    unfold is_body_line. rewrite Hw1, Hi1.
    destruct (String.eqb line ""); simpl; [apply IH; assumption|].
    destruct (HasPrefix line "WARC"); simpl; [apply IH; assumption|].
    destruct (HasPrefix line "Content-"); simpl; [apply IH; assumption|].
    rewrite IH by assumption. rewrite <- app_assoc. reflexivity.
Qed.

End InterpretFacts.

(** C10, as stated, fails: a record with the line [WARC-Type: warcinfo] is
    dropped without a panic although it has body lines and no identifier. *)
Lemma interpret_warcinfo_without_id :
  let r := ["WARC/1.0"; "WARC-Type: warcinfo"; "Content-Length: 5"; ""; "hello"]%string in
  reconstructed_body r = "hello"%string
  /\ has_id_line r = false
  /\ DetectChinese.interpret r = Go.Ret None
  /\ forall chinese_chars rand,
       DetectChinese.process chinese_chars r rand = Go.Ret Skip.
Proof. repeat split. Qed.

(** C10, amended. A record that is not dropped as warcinfo, whose
    reconstructed body is not empty and whose lines hold no
    [WARC-Record-ID: ] line, makes [interpret], and so [process], panic. *)
Theorem interpret_missing_id_panics (r : list string) :
  is_warcinfo r = false ->
  reconstructed_body r <> ""%string ->
  has_id_line r = false ->
  DetectChinese.interpret r = Go.Panic "Record missing ID"
  /\ forall chinese_chars rand,
       DetectChinese.process chinese_chars r rand = Go.Panic "Record missing ID".
Proof.
  intros Hw Hb Hi.
  assert (H : DetectChinese.interpret r = Go.Panic "Record missing ID").
  { unfold DetectChinese.interpret.
    rewrite interpret_lines_plain by assumption. simpl.
    apply reconstructed_body_nonempty in Hb.
    destruct (List.filter is_body_line r); [contradiction|reflexivity]. }
  split; [assumption|]. intros cc rand.
  unfold DetectChinese.process. rewrite H. reflexivity.
Qed.

Lemma interpret_missing_id_panics_witness :
  DetectChinese.interpret ["WARC/1.0"; "WARC-Type: response"; ""; "hello"; "world"]%string
  = Go.Panic "Record missing ID"
  /\ forall chinese_chars rand,
       DetectChinese.process chinese_chars
         ["WARC/1.0"; "WARC-Type: response"; ""; "hello"; "world"]%string rand
       = Go.Panic "Record missing ID".
Proof.
  apply (interpret_missing_id_panics
           ["WARC/1.0"; "WARC-Type: response"; ""; "hello"; "world"]%string).
  - reflexivity.
  - discriminate.
  - reflexivity.
Defined.

(** ** The record reader [nextRecord] *)

Section ReaderFacts.
Import Go ReadMeta.

Lemma one_line_cut (l : string) : one_line l = true -> cut_line l = None.
Proof. unfold one_line. destruct (cut_line l); [discriminate|reflexivity]. Qed.

Lemma stream_of_app (a b : list string) (tail : string) :
  stream_of (a ++ b) tail = stream_of a (stream_of b tail).
Proof. unfold stream_of. apply fold_right_app. Qed.

Lemma find_marker_lines (blanks : list string) (m rest : string) (e : error)
      (sh : list nat) (fuel : nat) :
  forallb blank_line blanks = true ->
  marker_line m = true ->
  (length blanks < fuel)%nat ->
  find_marker fuel (mkReader (stream_of (blanks ++ [m]) rest) e sh)
  = Go_on (marker, mkReader rest e sh).
Proof.
  intros Hb Hm. revert fuel.
  induction blanks as [|b blanks IH]; intros fuel Hfuel;
    (destruct fuel as [|fuel]; [simpl in Hfuel; lia|]).
  - apply andb_true_iff in Hm as [Hm1 Hm2].
    cbn [app stream_of fold_right find_marker].
    rewrite (ReadString_line m rest e sh (one_line_cut _ Hm1)).
    change (TrimSpace (m ++ String LF "")) with (trim_line m).
    rewrite Hm2. apply String.eqb_eq in Hm2. rewrite Hm2. reflexivity.
  - simpl in Hb. apply andb_true_iff in Hb as [Hb1 Hb].
    apply andb_true_iff in Hb1 as [Hb1 Hb2].
    cbn [app stream_of fold_right find_marker].
    rewrite (ReadString_line b _ e sh (one_line_cut _ Hb1)).
    change (TrimSpace (b ++ String LF "")) with (trim_line b).
    apply String.eqb_eq in Hb2. rewrite Hb2.
    change (String.eqb "" marker) with false. cbn iota.
    change (String.eqb "" "") with true. cbn iota.
    apply IH; [assumption|]. simpl in Hfuel. lia.
Qed.

(** Header lines that declare no length leave [rec.length] at 0, unless the
    ceiling on the number of header lines is hit first. *)
Lemma read_header_lengthless (hdr : list string) (rest : string) (e : error)
      (sh : list nat) (fuel : nat) (rec : record) (failSafe : Z) :
  forallb lengthless_line hdr = true ->
  header_ends (mkReader rest e sh) = true ->
  length_ rec = 0 ->
  0 < failSafe ->
  (length hdr < fuel)%nat ->
  match read_header fuel (mkReader (stream_of hdr rest) e sh) rec failSafe with
  | Go_on (hs, _) => length_ (hs_rec hs) = 0 /\ Z.of_nat (length hdr) < failSafe
  | Panics msg => ~ Z.of_nat (length hdr) < failSafe
                  /\ msg = "Hit failsafe when reading header"%string
  | _ => False
  end.
Proof.
  intros Hh Hend. revert fuel rec failSafe.
  induction hdr as [|l hdr IH]; intros fuel rec failSafe Hrec Hpos Hfuel;
    (destruct fuel as [|fuel]; [simpl in Hfuel; lia|]).
  - cbn [stream_of fold_right read_header].
    unfold header_ends in Hend.
    destruct (ReadString (mkReader rest e sh)) as [[line [err|]] r'].
    + destruct err; try discriminate. split; [assumption|simpl; lia].
    + rewrite Hend. split; [assumption|simpl; lia].
  - simpl in Hh. apply andb_true_iff in Hh as [Hl Hh].
    unfold lengthless_line in Hl.
    apply andb_true_iff in Hl as [Hl Hlen]. apply andb_true_iff in Hl as [Hl1 Hl2].
    cbn [stream_of fold_right read_header].
    rewrite (ReadString_line l _ e sh (one_line_cut _ Hl1)).
    change (TrimSpace (l ++ String LF "")) with (trim_line l).
    apply negb_true_iff in Hl2. rewrite Hl2.
    assert (Hstep : forall rec2, length_ rec2 = 0 ->
      match (if failSafe - 1 =? 0
             then Panics "Hit failsafe when reading header"
             else read_header fuel (mkReader (stream_of hdr rest) e sh) rec2 (failSafe - 1))
      with
      | Go_on (hs, _) => length_ (hs_rec hs) = 0
                         /\ Z.of_nat (length (l :: hdr)) < failSafe
      | Panics msg => ~ Z.of_nat (length (l :: hdr)) < failSafe
                      /\ msg = "Hit failsafe when reading header"%string
      | _ => False
      end).
    { intros rec2 Hrec2. destruct (Z.eqb_spec (failSafe - 1) 0) as [Hz|Hz].
      - split; [cbn [length]; lia|reflexivity].
      - specialize (IH Hh fuel rec2 (failSafe - 1) Hrec2 ltac:(lia)
                       ltac:(simpl in Hfuel; lia)).
        destruct (read_header fuel _ rec2 (failSafe - 1)) as [[hs r2]|?|msg|];
          try assumption.
        + destruct IH as [IH1 IH2]. split; [assumption|cbn [length]; lia].
        + destruct IH as [IH1 IH2]. split; [cbn [length]; lia|assumption]. }
    destruct (HasPrefix (trim_line l) "WARC-Type: ").
    + cbn iota. apply Hstep. assumption.
    + destruct (HasPrefix (trim_line l) "Content-Length: ").
      * destruct (Atoi (slice_from 16 (trim_line l))) as [n|]; [|discriminate].
        apply Z.eqb_eq in Hlen. subst n. cbn iota. apply Hstep. reflexivity.
      * destruct (HasPrefix (trim_line l) "WARC-Refers-To: ");
          cbn iota; apply Hstep; assumption.
Qed.

(** A body shorter than declared: the loop [for bytes < rec.length] returns
    the error of the stream, [io.EOF] at its end, however the reads are cut. *)
Lemma read_data_truncated (fuel : nat) (r : Reader) (length : nat) (got : string) :
  (len got + len (data r) < length)%nat ->
  (len (data r) < fuel)%nat ->
  read_data fuel r length got = Return_err (fin r).
Proof.
  revert r got. induction fuel as [|fuel IH]; intros r got Hshort Hfuel; [lia|].
  cbn [read_data].
  replace (len got <? length)%nat with true by (symmetry; apply Nat.ltb_lt; lia).
  destruct r as [d e sh]. cbn [data fin] in *.
  unfold Read. cbn [data fin short].
  destruct d as [|c d]; [reflexivity|].
  set (bound := match sh with b :: _ => Nat.min (length - len got) (S b) | [] => (length - len got)%nat end).
  assert (Hbound : (1 <= bound)%nat) by (subst bound; destruct sh; lia).
  destruct bound as [|bound]; [lia|].
  cbn [take_bytes].
  destruct (take_bytes bound d) as [a b] eqn:Htake.
  assert (Hlen : (len a + len b = len d)%nat).
  { clear -Htake. revert d a b Htake. induction bound as [|n IHn]; intros d a b H.
    - simpl in H. destruct d; inversion H; reflexivity.
    - destruct d as [|c d]; simpl in H; [inversion H; reflexivity|].
      destruct (take_bytes n d) as [a' b'] eqn:E. inversion H; subst.
      specialize (IHn _ _ _ E). unfold len in *. simpl. lia. }
  rewrite IH; [reflexivity| |].
  - cbn [data]. rewrite len_app. unfold len in *. simpl in *. lia.
  - cbn [data]. unfold len in *. simpl in *. lia.
Qed.

(** *** The fuel of the model suffices *)

Lemma find_marker_total (fuel : nat) (r : Reader) :
  (len (data r) < fuel)%nat ->
  match find_marker fuel r with
  | Go_on (_, r') => (len (data r') < len (data r))%nat
  | OutOfFuel => False
  | _ => True
  end.
Proof.
  revert r. induction fuel as [|fuel IH]; intros r Hfuel; [lia|].
  cbn [find_marker]. destruct (ReadString r) as [[line err] r'] eqn:Hr.
  destruct err as [e|]; [exact I|].
  apply ReadString_shrinks in Hr.
  destruct (String.eqb (TrimSpace line) marker); [assumption|].
  destruct (String.eqb (TrimSpace line) ""); [|exact I].
  specialize (IH r' ltac:(lia)).
  destruct (find_marker fuel r') as [[l1 r1]| | |]; try assumption. lia.
Qed.

Lemma read_header_total (fuel : nat) (r : Reader) (rec : record) (failSafe : Z) :
  (len (data r) < fuel)%nat ->
  match read_header fuel r rec failSafe with
  | Go_on (_, r') => (len (data r') <= len (data r))%nat
  | OutOfFuel => False
  | _ => True
  end.
Proof.
  revert r rec failSafe. induction fuel as [|fuel IH]; intros r rec failSafe Hfuel; [lia|].
  cbn [read_header]. destruct (ReadString r) as [[line err] r'] eqn:Hr.
  destruct err as [e|].
  - apply ReadString_data_le in Hr. destruct e; try exact I. assumption.
  - pose proof (ReadString_shrinks _ _ _ Hr) as Hlt.
    destruct (String.eqb (TrimSpace line) ""); [lia|].
    assert (Hstep : forall rec2,
              match (if failSafe - 1 =? 0
                     then Panics "Hit failsafe when reading header"
                     else read_header fuel r' rec2 (failSafe - 1))
              with
              | Go_on (_, r2) => (len (data r2) <= len (data r))%nat
              | OutOfFuel => False
              | _ => True
              end).
    { intros rec2. destruct (failSafe - 1 =? 0); [exact I|].
      specialize (IH r' rec2 (failSafe - 1) ltac:(lia)).
      destruct (read_header fuel r' rec2 (failSafe - 1)) as [[hs r2]| | |];
        try assumption. lia. }
    destruct (HasPrefix (TrimSpace line) "WARC-Type: "); [apply Hstep|].
    destruct (HasPrefix (TrimSpace line) "Content-Length: ").
    + destruct (Atoi (slice_from 16 (TrimSpace line))); [apply Hstep|exact I].
    + destruct (HasPrefix (TrimSpace line) "WARC-Refers-To: "); apply Hstep.
Qed.

Lemma take_bytes_len (n : nat) (s a b : string) :
  take_bytes n s = (a, b) -> (len a + len b = len s)%nat /\ len a = Nat.min n (len s).
Proof.
  revert s a b. induction n as [|n IH]; intros s a b H.
  - simpl in H. destruct s; inversion H; subst; unfold len; simpl; lia.
  - destruct s as [|c s]; simpl in H; [inversion H; subst; unfold len; simpl; lia|].
    destruct (take_bytes n s) as [a' b'] eqn:E. inversion H; subst.
    destruct (IH _ _ _ E) as [IH1 IH2]. unfold len in *. simpl. lia.
Qed.

Lemma read_data_total (fuel : nat) (r : Reader) (length : nat) (got : string) :
  (length - len got <= fuel)%nat ->
  match read_data fuel r length got with
  | Go_on (bytes, r') => (len (data r') <= len (data r))%nat /\ (length <= len bytes)%nat
  | OutOfFuel => False
  | _ => True
  end.
Proof.
  revert r got. induction fuel as [|fuel IH]; intros r got Hfuel.
  - cbn [read_data]. destruct (Nat.ltb_spec (len got) length); [lia|]. split; lia.
  - cbn [read_data]. destruct (Nat.ltb_spec (len got) length) as [Hlt|Hge]; [|split; lia].
    destruct (Read r (length - len got)) as [[chunk err] r'] eqn:Hread.
    destruct err as [e|]; [exact I|].
    unfold Read in Hread. destruct (data r) as [|c d] eqn:Hd; [discriminate|].
    set (bound := match short r with
                  | b :: _ => Nat.min (length - len got) (S b)
                  | [] => (length - len got)%nat
                  end) in Hread.
    assert (Hbound : (1 <= bound)%nat) by (subst bound; destruct (short r); lia).
    destruct (take_bytes bound (String c d)) as [a b] eqn:Htake.
    inversion Hread; subst chunk r'. clear Hread.
    apply take_bytes_len in Htake as [Ht1 Ht2].
    assert (Ha : (1 <= len a)%nat) by (rewrite Ht2; unfold len; simpl; lia).
    specialize (IH (mkReader b (fin r) (tl (short r))) (got ++ a)%string).
    rewrite len_app in IH. specialize (IH ltac:(lia)).
    destruct (read_data fuel _ length (got ++ a)) as [[bytes r2]| | |]; try assumption.
    cbn [data] in IH. lia.
Qed.

(** [nextRecord] never uses up its fuel, and a record it returns has taken
    bytes from the stream. *)
Lemma nextRecord_total (r : Reader) :
  match nextRecord r with
  | Go_on (_, r') => (len (data r') < len (data r))%nat
  | OutOfFuel => False
  | _ => True
  end.
Proof.
  unfold nextRecord. cbv zeta.
  pose proof (find_marker_total (S (len (data r))) r ltac:(lia)) as Hm.
  destruct (find_marker (S (len (data r))) r) as [[line r1]| | |]; try assumption.
  pose proof (read_header_total (S (len (data r))) r1
                (mkRecord 0 "" [line] "" "") 100 ltac:(lia)) as Hh.
  destruct (read_header _ r1 _ 100) as [[hs r2]| | |]; try assumption.
  destruct (length_ (hs_rec hs) =? 0); [exact I|].
  destruct (length_ (hs_rec hs) <? 0); [exact I|].
  pose proof (read_data_total (Z.to_nat (length_ (hs_rec hs))) r2
                (Z.to_nat (length_ (hs_rec hs))) "" ltac:(unfold len; simpl; lia)) as Hd.
  destruct (read_data _ r2 _ "") as [[bytes r3]| | |]; try assumption.
  destruct (negb _); [exact I|]. destruct (hs_err hs); [exact I|]. lia.
Qed.

(** [readMeta] ends: normally, with a fatal error or with a panic. *)
Lemma readMeta_total (Unmarshal : string -> WarcMeta -> option WarcMeta)
      (ids : gmap string bool) (reader : Reader) :
  readMeta Unmarshal ids reader <> Diverged.
Proof.
  unfold readMeta. generalize (mkState zeroMeta "" []).
  assert (H : forall fuel r st, (len (data r) < fuel)%nat ->
                                readMeta_loop Unmarshal ids fuel r st <> Diverged).
  { induction fuel as [|fuel IH]; intros r st Hfuel; [lia|].
    cbn [readMeta_loop]. pose proof (nextRecord_total r) as Hn.
    destruct (nextRecord r) as [[rec r']|e|msg|]; try contradiction.
    - destruct (handle Unmarshal ids rec st) as [st'|o] eqn:Hh.
      + apply IH. lia.
      + unfold handle in Hh.
        repeat match type of Hh with
               | (if ?b then _ else _) = _ => destruct b
               | match ?x with _ => _ end = _ => destruct x
               end; inversion Hh; discriminate.
    - destruct e; discriminate.
    - discriminate. }
  intros st. apply H. lia.
Qed.

End ReaderFacts.

(** C8. A record whose header lines declare no content length, or the
    length 0, and whose header ends with a blank line or with the end of the
    stream: [nextRecord] panics, with "No record length" when the header has
    fewer than 100 lines after the marker and with the panic of the ceiling
    on header lines otherwise, and [readMeta] ends with that panic: no
    record with an empty body is returned. *)
Theorem nextRecord_no_length_panics
    (blanks : list string) (m : string) (hdr : list string) (rest : string)
    (e : Go.error) (sh : list nat) :
  forallb blank_line blanks = true ->
  marker_line m = true ->
  forallb lengthless_line hdr = true ->
  header_ends (Go.mkReader rest e sh) = true ->
  let reader := Go.mkReader (stream_of (blanks ++ m :: hdr) rest) e sh in
  let msg := if (length hdr <? 100)%nat then "No record length"%string
             else "Hit failsafe when reading header"%string in
  ReadMeta.nextRecord reader = ReadMeta.Panics msg
  /\ forall Unmarshal ids fuel st,
       ReadMeta.readMeta_loop Unmarshal ids (S fuel) reader st
       = ReadMeta.Panicked msg (ReadMeta.out st).
Proof.
  intros Hb Hm Hh Hend reader msg.
  assert (Hlen : (length blanks + 1 + length hdr <= Go.len (Go.data reader))%nat).
  { subst reader. cbn [Go.data].
    pose proof (len_stream_of (blanks ++ m :: hdr) rest) as H.
    rewrite length_app in H. simpl in H. lia. }
  assert (Hnext : ReadMeta.nextRecord reader = ReadMeta.Panics msg).
  { unfold ReadMeta.nextRecord. subst reader msg.
    replace (blanks ++ m :: hdr) with ((blanks ++ [m]) ++ hdr) in *
      by (rewrite <- app_assoc; reflexivity).
    cbn [Go.data] in *. rewrite stream_of_app in Hlen |- *. cbv zeta.
    rewrite find_marker_lines by (try assumption; lia).
    pose proof (read_header_lengthless hdr rest e sh
                  (S (Go.len (stream_of (blanks ++ [m]) (stream_of hdr rest))))
                  (ReadMeta.mkRecord 0 "" [ReadMeta.marker] "" "") 100
                  Hh Hend eq_refl ltac:(lia) ltac:(lia)) as H.
    destruct (ReadMeta.read_header _ _ _ _) as [[hs r2]|?|msg|]; try contradiction.
    - destruct H as [H0 Hlt].
      replace (length hdr <? 100)%nat with true by (symmetry; apply Nat.ltb_lt; lia).
      rewrite H0. reflexivity.
    - destruct H as [Hge ->].
      replace (length hdr <? 100)%nat with false by (symmetry; apply Nat.ltb_ge; lia).
      reflexivity. }
  split; [assumption|].
  intros Unmarshal ids fuel st. cbn [ReadMeta.readMeta_loop]. rewrite Hnext. reflexivity.
Qed.

Lemma nextRecord_no_length_panics_witness :
  let reader :=
    Go.mkReader
      (stream_of [""; "  "; "WARC/1.0"; "WARC-Type: metadata"; "Content-Length: 0"]%string
                 (String LF "rest"))
      Go.EOF [] in
  ReadMeta.nextRecord reader = ReadMeta.Panics "No record length"
  /\ forall Unmarshal ids fuel st,
       ReadMeta.readMeta_loop Unmarshal ids (S fuel) reader st
       = ReadMeta.Panicked "No record length" (ReadMeta.out st).
Proof.
  apply (nextRecord_no_length_panics
           [""; "  "]%string "WARC/1.0"
           ["WARC-Type: metadata"; "Content-Length: 0"]%string
           (String LF "rest") Go.EOF []); reflexivity.
Defined.

(** C2. A stream that ends after three of the five declared body bytes:
    [nextRecord] returns [io.EOF], however the reads are cut, and [readMeta]
    takes it for the end of the stream and finishes normally, printing
    nothing; no abort happens. *)
Theorem readMeta_truncated_body_finishes (sh : list nat) :
  let reader :=
    Go.mkReader
      (stream_of ["WARC/1.0"; "WARC-Type: metadata"; "WARC-Refers-To: <a>";
                  "Content-Length: 5"; ""]%string "hel")
      Go.EOF sh in
  ReadMeta.nextRecord reader = ReadMeta.Return_err Go.EOF
  /\ forall Unmarshal ids, ReadMeta.readMeta Unmarshal ids reader = ReadMeta.Finished [].
Proof.
  intros reader.
  assert (H : ReadMeta.nextRecord reader = ReadMeta.Return_err Go.EOF).
  { unfold ReadMeta.nextRecord, reader. cbv zeta.
    set (fuel := S _).
    assert (Hm : ReadMeta.find_marker fuel
                   (Go.mkReader
                      (stream_of ["WARC/1.0"; "WARC-Type: metadata"; "WARC-Refers-To: <a>";
                                  "Content-Length: 5"; ""]%string "hel") Go.EOF sh)
                 = ReadMeta.Go_on
                     ("WARC/1.0"%string,
                      Go.mkReader
                        (stream_of ["WARC-Type: metadata"; "WARC-Refers-To: <a>";
                                    "Content-Length: 5"; ""]%string "hel") Go.EOF sh))
      by (vm_compute; reflexivity).
    rewrite Hm.
    assert (Hh : ReadMeta.read_header fuel
                   (Go.mkReader
                      (stream_of ["WARC-Type: metadata"; "WARC-Refers-To: <a>";
                                  "Content-Length: 5"; ""]%string "hel") Go.EOF sh)
                   (ReadMeta.mkRecord 0 "" ["WARC/1.0"%string] "" "") 100
                 = ReadMeta.Go_on
                     (ReadMeta.mkHS
                        (ReadMeta.mkRecord 5 "<a>"
                           ["WARC/1.0"; "WARC-Type: metadata"; "WARC-Refers-To: <a>";
                            "Content-Length: 5"]%string "metadata" "") 97 None,
                      Go.mkReader "hel" Go.EOF sh))
      by (vm_compute; reflexivity).
    rewrite Hh. cbn [ReadMeta.hs_rec ReadMeta.length_].
    change (5 =? 0) with false. change (5 <? 0) with false. cbn iota.
    rewrite read_data_truncated; [reflexivity| |]; vm_compute; lia. }
  split; [assumption|].
  intros Unmarshal ids. unfold ReadMeta.readMeta. cbn [ReadMeta.readMeta_loop].
  rewrite H. reflexivity.
Qed.

(** ** The correlator [readMeta] *)

Section CorrelatorFacts.
Import Go ReadMeta.

Variable Unmarshal : string -> WarcMeta -> option WarcMeta.
Variable ids : gmap string bool.

Lemma lookup_id_true (k : string) : lookup_id ids k = true <-> ids !! k = Some true.
Proof.
  unfold lookup_id. destruct (ids !! k) as [[|]|]; simpl; split; congruence.
Qed.

Lemma no_growth (o : list printed) (group : list printed) (p : printed) :
  o = o ++ group ++ [p] -> False.
Proof.
  intros H. apply (f_equal length) in H. rewrite !length_app in H. simpl in H. lia.
Qed.

Lemma handle_qualified (rec : record) (st : state) (meta' : WarcMeta) :
  qualifies Unmarshal ids rec st meta' ->
  emits Unmarshal ids rec st (Filename (Container meta')) (Offset (Container meta'))
        (DeflateLength (GzipMeta (Container meta'))).
Proof.
  intros (Ht & Hr & Hid & Hu & Hty & Hs & Hc).
  unfold emits, handle.
  rewrite Ht. change (String.eqb "metadata" "metadata") with true. cbn [negb].
  replace (String.eqb (refersTo rec) "") with false
    by (symmetry; apply String.eqb_neq; assumption).
  apply lookup_id_true in Hid. rewrite Hid. cbn [negb].
  rewrite Hu, Hty. change (String.eqb "response" "response") with true. cbn iota.
  rewrite Hs. change (200 =? 200) with true. cbn [negb]. rewrite Hc.
  cbn [filename out].
  destruct (String.eqb_spec (filename st) (Filename (Container meta'))) as [He|He];
    cbn [negb filename out].
  - eexists _, []. repeat split; auto.
  - destruct (String.eqb (filename st) ""); cbn [negb].
    + eexists _, [Name _]. repeat split; auto. cbn [out]. rewrite <- app_assoc. reflexivity.
    + eexists _, [Blank; Name _]. repeat split; auto. cbn [out].
      rewrite <- !app_assoc. reflexivity.
Qed.

Lemma handle_emits (rec : record) (st : state) (f : string) (o l : Z) :
  emits Unmarshal ids rec st f o l ->
  exists meta',
    qualifies Unmarshal ids rec st meta'
    /\ f = Filename (Container meta')
    /\ o = Offset (Container meta')
    /\ l = DeflateLength (GzipMeta (Container meta')).
Proof.
  intros (st' & group & Hh & Hout & Hf & _). unfold handle in Hh.
  destruct (String.eqb_spec (warcType rec) "metadata") as [Ht|Ht]; cbn [negb] in Hh;
    [|inversion Hh; subst; destruct (no_growth _ _ _ Hout)].
  destruct (String.eqb_spec (refersTo rec) "") as [Hr|Hr]; [discriminate|].
  destruct (lookup_id ids (refersTo rec)) eqn:Hid; cbn [negb] in Hh;
    [|inversion Hh; subst; destruct (no_growth _ _ _ Hout)].
  apply lookup_id_true in Hid.
  destruct (Unmarshal (data_ rec) (meta st)) as [meta'|] eqn:Hu; [|discriminate].
  destruct (String.eqb_spec (MetaType (HeaderMetaData (Envelope meta'))) "response")
    as [Hty|Hty];
    [|inversion Hh; subst; destruct (no_growth _ _ _ Hout)].
  destruct (Z.eqb_spec (Status (ResponseInfo (ResponseMeta (PayloadMetaData_ (Envelope meta')))))
                       200) as [Hs|Hs]; cbn [negb] in Hh;
    [|inversion Hh; subst; destruct (no_growth _ _ _ Hout)].
  destruct (Contains (ContentType (Headers (ResponseMeta (PayloadMetaData_ (Envelope meta')))))
                     "text/html") eqn:Hc;
    [|inversion Hh; subst; destruct (no_growth _ _ _ Hout)].
  exists meta'. split; [repeat split; assumption|].
  inversion Hh as [Hst]. clear Hh. subst st'. cbn [out filename] in *.
  assert (Hlast : Pair (Offset (Container meta')) (DeflateLength (GzipMeta (Container meta')))
                  = Pair o l).
  { rewrite !app_assoc in Hout. apply app_inj_tail in Hout as [_ H]. exact H. }
  inversion Hlast; subst o l.
  split; [|split; reflexivity].
  destruct (String.eqb_spec (filename st) (Filename (Container meta'))) as [He|He];
    cbn [negb filename] in *; congruence.
Qed.

End CorrelatorFacts.

(** C6. For a record [rec] that [nextRecord] gave, the loop body of
    [readMeta] emits the triple (file name, offset, deflate length) exactly
    when the record's type is "metadata", its refers-to identifier is
    present and in the reference set, the body decodes, the decoded
    header-metadata type is "response", the status is 200 and the content
    type contains "text/html"; the triple is then the one of the decode
    target. A metadata record without a refers-to identifier makes it
    panic. *)
Theorem readMeta_emits_iff
    (Unmarshal : string -> ReadMeta.WarcMeta -> option ReadMeta.WarcMeta)
    (ids : gmap string bool) (rec : ReadMeta.record) (st : ReadMeta.state) :
  (forall f o l,
     emits Unmarshal ids rec st f o l <->
     exists meta',
       qualifies Unmarshal ids rec st meta'
       /\ f = ReadMeta.Filename (ReadMeta.Container meta')
       /\ o = ReadMeta.Offset (ReadMeta.Container meta')
       /\ l = ReadMeta.DeflateLength (ReadMeta.GzipMeta (ReadMeta.Container meta')))
  /\ (ReadMeta.warcType rec = "metadata"%string /\ ReadMeta.refersTo rec = ""%string <->
      ReadMeta.handle Unmarshal ids rec st
      = ReadMeta.Stop (ReadMeta.Panicked "No refersTo" (ReadMeta.out st))).
Proof.
  split.
  - intros f o l. split.
    + apply handle_emits.
    + intros (meta' & Hq & -> & -> & ->). apply handle_qualified. assumption.
  - unfold ReadMeta.handle. split.
    + intros [-> ->]. reflexivity.
    + destruct (String.eqb_spec (ReadMeta.warcType rec) "metadata") as [Ht|Ht];
        cbn [negb]; [|discriminate].
      destruct (String.eqb_spec (ReadMeta.refersTo rec) "") as [Hr|Hr]; [auto|].
      destruct (negb _); [discriminate|].
      destruct (Unmarshal _ _); [|discriminate].
      repeat match goal with |- context [if ?b then _ else _] => destruct b end;
        discriminate.
Qed.

(** The reference set read from ["id-1\nid-2\n"], and three metadata records
    that refer to id-1 (status 200), id-2 (status 404) and id-3 (status 200,
    not in the set): only the first one is printed, under its file name. *)
Example readMeta_filters_three_records :
  let stdin := Go.mkReader (stream_of ["id-1"; "id-2"]%string "") Go.EOF [] in
  let metadata :=
    Go.mkReader
      (example_record "id-1" "A" (example_record "id-2" "B" (example_record "id-3" "C" "")))
      Go.EOF [3%nat; 0%nat] in
  exists ids,
    ReadMeta.getRecordSubset stdin = ReadMeta.Go_on ids
    /\ ids !! "id-1"%string = Some true
    /\ ids !! "id-3"%string = None
    /\ ReadMeta.readMeta example_Unmarshal ids metadata
       = ReadMeta.Finished [ReadMeta.Name "a.warc.gz"; ReadMeta.Pair 100 20].
Proof.
  eexists. split; [vm_compute; reflexivity|].
  split; [vm_compute; reflexivity|].
  split; vm_compute; reflexivity.
Qed.

(** ** UTF-8 decoding *)

Section Utf8Facts.
Import Go.

Lemma byte_val_range (c : ascii) : 0 <= byte_val c < 256.
Proof.
  unfold byte_val. pose proof (N_ascii_bounded c). lia.
Qed.

Ltac bool_hyps :=
  repeat match goal with
         | H : (_ && _) = true |- _ => apply andb_true_iff in H as [? ?]
         | H : (_ <=? _) = true |- _ => apply Z.leb_le in H
         | H : (_ <=? _) = false |- _ => apply Z.leb_gt in H
         | H : (_ <? _) = true |- _ => apply Z.ltb_lt in H
         | H : (_ <? _) = false |- _ => apply Z.ltb_ge in H
         | H : (_ =? _) = true |- _ => apply Z.eqb_eq in H
         | H : (_ =? _) = false |- _ => apply Z.eqb_neq in H
         end.

Lemma RuneLen_1 (r : Z) : 0 <= r <= 127 -> RuneLen r = 1.
Proof.
  intros H. unfold RuneLen.
  destruct (r <? 0) eqn:E1; bool_hyps; [lia|].
  destruct (r <=? 127) eqn:E2; bool_hyps; [reflexivity|lia].
Qed.

Lemma RuneLen_2 (r : Z) : 128 <= r <= 2047 -> RuneLen r = 2.
Proof.
  intros H. unfold RuneLen.
  destruct (r <? 0) eqn:E1; bool_hyps; [lia|].
  destruct (r <=? 127) eqn:E2; bool_hyps; [lia|].
  destruct (r <=? 2047) eqn:E3; bool_hyps; [reflexivity|lia].
Qed.

Lemma RuneLen_3 (r : Z) :
  2048 <= r <= 65535 -> r < 55296 \/ 57343 < r -> RuneLen r = 3.
Proof.
  intros H Hs. unfold RuneLen.
  destruct (r <? 0) eqn:E1; bool_hyps; [lia|].
  destruct (r <=? 127) eqn:E2; bool_hyps; [lia|].
  destruct (r <=? 2047) eqn:E3; bool_hyps; [lia|].
  destruct ((55296 <=? r) && (r <=? 57343)) eqn:E4; bool_hyps; [lia|].
  destruct (r <=? 65535) eqn:E5; bool_hyps; [reflexivity|lia].
Qed.

Lemma RuneLen_4 (r : Z) : 65536 <= r <= 1114111 -> RuneLen r = 4.
Proof.
  intros H. unfold RuneLen.
  destruct (r <? 0) eqn:E1; bool_hyps; [lia|].
  destruct (r <=? 127) eqn:E2; bool_hyps; [lia|].
  destruct (r <=? 2047) eqn:E3; bool_hyps; [lia|].
  destruct ((55296 <=? r) && (r <=? 57343)) eqn:E4; bool_hyps; [lia|].
  destruct (r <=? 65535) eqn:E5; bool_hyps; [lia|].
  destruct (r <=? 1114111) eqn:E6; bool_hyps; [reflexivity|lia].
Qed.

(** A rune takes at least one byte, and never more bytes than [RuneLen]
    gives for it: as many for a well-formed encoding, and one byte against
    the three of [RuneError] otherwise. *)
Lemma DecodeRune_width (c : ascii) (s : string) (ru : Z) (w : nat) :
  DecodeRuneInString (String c s) = (ru, w) ->
  (1 <= w)%nat /\ Z.of_nat w <= RuneLen ru.
Proof.
  assert (Herr : forall ru' w', (RuneError, 1%nat) = (ru', w') ->
                                (1 <= w')%nat /\ Z.of_nat w' <= RuneLen ru').
  { intros ru' w' H. inversion H; subst. split; [lia|]. vm_compute. discriminate. }
  unfold DecodeRuneInString.
  pose proof (byte_val_range c) as Hc.
  destruct (byte_val c <? 128) eqn:E0.
  { intros H. inversion H; subst. bool_hyps. rewrite RuneLen_1 by lia. lia. }
  destruct ((194 <=? byte_val c) && (byte_val c <=? 223)) eqn:E1.
  { destruct s as [|c1 s]; [apply Herr|].
    unfold cont. destruct ((128 <=? byte_val c1) && (byte_val c1 <=? 191)) eqn:F1;
      [|apply Herr].
    intros H. inversion H; subst. bool_hyps. rewrite RuneLen_2 by lia. lia. }
  destruct ((224 <=? byte_val c) && (byte_val c <=? 239)) eqn:E2.
  { destruct s as [|c1 [|c2 s]]; [apply Herr|apply Herr|].
    pose proof (byte_val_range c1). pose proof (byte_val_range c2).
    unfold cont.
    destruct (byte_val c =? 224) eqn:G1; destruct (byte_val c =? 237) eqn:G2;
      match goal with
      | |- (if ?b then _ else _) = _ -> _ => destruct b eqn:F1; [|apply Herr]
      end;
      intros Hd; inversion Hd; subst; bool_hyps; rewrite RuneLen_3 by lia; lia. }
  destruct ((240 <=? byte_val c) && (byte_val c <=? 244)) eqn:E3; [|apply Herr].
  destruct s as [|c1 [|c2 [|c3 s]]]; [apply Herr|apply Herr|apply Herr|].
  pose proof (byte_val_range c1). pose proof (byte_val_range c2).
  pose proof (byte_val_range c3).
  unfold cont.
  destruct (byte_val c =? 240) eqn:G1; destruct (byte_val c =? 244) eqn:G2;
    match goal with
    | |- (if ?b then _ else _) = _ -> _ => destruct b eqn:F1; [|apply Herr]
    end;
    intros Hd; inversion Hd; subst; bool_hyps; rewrite RuneLen_4 by lia; lia.
Qed.

(** The last rune of a [range] loop reaches the end of the string, when
    its length is counted by [RuneLen]. *)
Lemma range_from_last (s : string) (skip k : nat) :
  match last (range_from s skip k) with
  | Some (k', ru') => Z.of_nat (k + len s) <= Z.of_nat k' + RuneLen ru'
  | None => (len s <= skip)%nat
  end.
Proof.
  revert skip k. induction s as [|c s IH]; intros skip k; [simpl; lia|].
  cbn [range_from]. destruct skip as [|skip].
  - destruct (DecodeRuneInString (String c s)) as [ru w] eqn:Hd.
    apply DecodeRune_width in Hd as [Hw1 Hw2].
    rewrite last_cons. specialize (IH (Nat.pred w) (S k)).
    destruct (last (range_from s (Nat.pred w) (S k))) as [[k' ru']|].
    + unfold len in *. simpl. lia.
    + unfold len in *. simpl. lia.
  - specialize (IH skip (S k)).
    destruct (last (range_from s skip (S k))) as [[k' ru']|];
      unfold len in *; simpl; lia.
Qed.

Lemma range_string_nonempty (s : string) :
  s <> ""%string -> range_string s <> [].
Proof.
  destruct s as [|c s]; [contradiction|]. intros _. unfold range_string. cbn [range_from].
  destruct (DecodeRuneInString (String c s)). discriminate.
Qed.

(** No more runes than bytes. *)
Lemma range_from_length (s : string) (skip k : nat) :
  (length (range_from s skip k) <= len s)%nat.
Proof.
  revert skip k. induction s as [|c s IH]; intros skip k; [simpl; lia|].
  cbn [range_from]. destruct skip as [|skip].
  - destruct (DecodeRuneInString (String c s)) as [ru w].
    specialize (IH (Nat.pred w) (S k)). unfold len in *. simpl. lia.
  - specialize (IH skip (S k)). unfold len in *. simpl. lia.
Qed.

Lemma rune_count_ascii (s : string) : ascii_only s = true -> rune_count s = len s.
Proof.
  intros H. unfold rune_count, range_string.
  enough (Hk : forall k, length (range_from s 0 k) = len s) by apply Hk.
  induction s as [|c s IH]; intros k; [reflexivity|].
  unfold ascii_only in H. simpl in H. apply andb_true_iff in H as [Hc Hs].
  cbn [range_from DecodeRuneInString]. rewrite Hc. simpl.
  rewrite IH by assumption. reflexivity.
Qed.

End Utf8Facts.

(** ** The comparison [ratio > threshold] in exact arithmetic *)

Section ThresholdFacts.
Import Go.

Lemma table_ok_spec (thr : float) (num den : Z) (nmax n k : nat) :
  table_ok thr num den nmax = true ->
  (k <= n <= nmax)%nat ->
  fgt (fcount k / float64 n) thr = (num * Z.of_nat n <? den * Z.of_nat k).
Proof.
  intros Ht Hk. unfold table_ok in Ht.
  rewrite List.forallb_forall in Ht.
  specialize (Ht n ltac:(apply in_seq; lia)).
  rewrite List.forallb_forall in Ht.
  specialize (Ht k ltac:(apply in_seq; lia)).
  apply Bool.eqb_prop in Ht. exact Ht.
Qed.

(** 0.35 against up to 500 codepoints: [ratio > 0.35] iff [7 n < 20 k]. *)
Lemma table_035 : table_ok DetectChinese.threshold 7 20 500 = true.
Proof. vm_compute. reflexivity. Qed.

(** 0.3 against up to 200 codepoints: [ratio > 0.3] iff [3 n < 10 k]. *)
Lemma table_03 : table_ok DetectRunes.threshold 3 10 200 = true.
Proof. vm_compute. reflexivity. Qed.

End ThresholdFacts.

(** ** Drawing the sample *)

Section DrawFacts.

Lemma draw_indices_length (rand : nat -> N) (n size : nat) :
  length (draw_indices rand n size) = n.
Proof.
  unfold draw_indices. rewrite (Permutation_length (merge_sort_Permutation _ _)).
  rewrite length_map, length_seq. reflexivity.
Qed.

Lemma draw_indices_bound (rand : nat -> N) (n size : nat) :
  (0 < size)%nat ->
  Forall (fun s => (s < size)%nat) (draw_indices rand n size).
Proof.
  intros Hsize. unfold draw_indices.
  rewrite (merge_sort_Permutation Nat.le).
  apply Forall_map. apply Forall_forall. intros i _.
  assert (H : (rand i mod N.of_nat size < N.of_nat size)%N) by (apply N.mod_lt; lia).
  lia.
Qed.

End DrawFacts.

(** ** The byte-offset classifier *)

Section ByteSamplingFacts.
Import Go DetectChinese.

Variable chinese_chars : gmap Z bool.

Lemma members_le (rs : list Z) : (members chinese_chars rs <= length rs)%nat.
Proof. apply List.filter_length_le. Qed.

Lemma count_all_spec (rs : list (nat * Z)) (cnt n : nat) :
  count_all chinese_chars rs (fcount cnt) n
  = (fcount (cnt + members chinese_chars (map snd rs)), (n + length rs)%nat).
Proof.
  revert cnt n. induction rs as [|[k ru] rs IH]; intros cnt n.
  - simpl. rewrite !Nat.add_0_r. reflexivity.
  - cbn [count_all map snd length]. unfold members. cbn [List.filter].
    destruct (is_chinese chinese_chars ru).
    + change (fcount cnt + 1)%float with (fcount (S cnt)). rewrite IH.
      unfold members. cbn [length]. f_equal; [f_equal|]; lia.
    + rewrite IH. unfold members. f_equal. lia.
Qed.

Variable sample_indices : list nat.
Variable n : nat.
Hypothesis sample_length : length sample_indices = n.

Lemma skip_duplicates_le (fuel : nat) (bound : Z) (j : nat) :
  (j <= n)%nat ->
  (j <= skip_duplicates sample_indices n fuel bound j <= n)%nat.
Proof.
  revert j. induction fuel as [|fuel IH]; intros j Hj; cbn [skip_duplicates]; [lia|].
  destruct (Nat.ltb_spec j n) as [Hlt|Hge]; cbn [andb]; [|lia].
  destruct (sample_indices !! j) as [s|]; [|lia].
  destruct (Z.of_nat s <? bound); [|lia].
  specialize (IH (S j) ltac:(lia)). lia.
Qed.

Lemma skip_duplicates_progress (fuel : nat) (bound : Z) (j s : nat) :
  (0 < fuel)%nat ->
  sample_indices !! j = Some s ->
  Z.of_nat s < bound ->
  (j < skip_duplicates sample_indices n fuel bound j)%nat.
Proof.
  intros Hfuel Hs Hb. destruct fuel as [|fuel]; [lia|]. cbn [skip_duplicates].
  assert (Hj : (j < n)%nat) by (rewrite <- sample_length; eapply lookup_lt_Some; eassumption).
  replace (j <? n)%nat with true by (symmetry; apply Nat.ltb_lt; assumption).
  rewrite Hs. replace (Z.of_nat s <? bound) with true by (symmetry; apply Z.ltb_lt; assumption).
  cbn [andb]. pose proof (skip_duplicates_le fuel bound (S j) ltac:(lia)). lia.
Qed.

Lemma skip_duplicates_all (fuel : nat) (bound : Z) (j : nat) :
  Forall (fun s => Z.of_nat s < bound) sample_indices ->
  (j <= n)%nat -> (n - j <= fuel)%nat ->
  skip_duplicates sample_indices n fuel bound j = n.
Proof.
  intros Hall. revert j. induction fuel as [|fuel IH]; intros j Hj Hfuel;
    cbn [skip_duplicates]; [lia|].
  destruct (Nat.ltb_spec j n) as [Hlt|Hge]; cbn [andb]; [|lia].
  destruct (lookup_lt_is_Some_2 sample_indices j ltac:(lia)) as [s Hs].
  rewrite Hs. rewrite Forall_lookup in Hall. specialize (Hall _ _ Hs).
  replace (Z.of_nat s <? bound) with true by (symmetry; apply Z.ltb_lt; assumption).
  apply IH; lia.
Qed.

(** The loop over the string passes every entry of [sample_indices] when
    they all lie below [size] and the last rune reaches [size]: it ends with
    [j = n]. *)
Lemma count_samples_finds_all (size : nat) (rs : list (nat * Z)) (j m : nat) (c : float) :
  Forall (fun s => (s < size)%nat) sample_indices ->
  match last rs with
  | Some (k', ru') => Z.of_nat size <= Z.of_nat k' + RuneLen ru'
  | None => False
  end ->
  (j < n)%nat ->
  exists m' c', count_samples chinese_chars sample_indices n rs j m c = Ret (n, m', c').
Proof.
  intros Hall. revert j m c.
  induction rs as [|[k ru] rs IH]; intros j m c Hlast Hj; [contradiction|].
  cbn [count_samples].
  destruct (lookup_lt_is_Some_2 sample_indices j ltac:(lia)) as [s Hs].
  rewrite Hs. rewrite last_cons in Hlast.
  assert (Hsz : (s < size)%nat)
    by (rewrite Forall_lookup in Hall; exact (Hall _ _ Hs)).
  destruct (Z.ltb_spec (Z.of_nat s) (Z.of_nat k + RuneLen ru)) as [Hlt|Hge].
  - pose proof (skip_duplicates_le n (Z.of_nat k + RuneLen ru) j ltac:(lia)) as Hle.
    destruct (Nat.eqb_spec (skip_duplicates sample_indices n n (Z.of_nat k + RuneLen ru) j) n)
      as [He|Hne].
    + rewrite He. eauto.
    + destruct (last rs) as [[k' ru']|] eqn:Hl.
      * apply IH; [assumption|lia].
      * exfalso. apply Hne. apply skip_duplicates_all; [|lia|lia].
        eapply Forall_impl; [exact Hall|]. intros x Hx. simpl in Hx. lia.
  - destruct (last rs) as [[k' ru']|] eqn:Hl.
    + apply IH; assumption.
    + lia.
Qed.

(** What the loop maintains: [c] counts at most the lookups made, and each
    lookup passes at least one entry of [sample_indices]. *)
Lemma count_samples_bounds (rs : list (nat * Z)) (j m cnt j' m' : nat) (c' : float) :
  count_samples chinese_chars sample_indices n rs j m (fcount cnt) = Ret (j', m', c') ->
  (j <= n)%nat ->
  exists cnt',
    c' = fcount cnt'
    /\ (cnt <= cnt')%nat /\ (cnt' - cnt <= m' - m)%nat
    /\ (m <= m')%nat /\ (m' - m <= j' - j)%nat
    /\ (j <= j' <= n)%nat
    /\ ((j < j')%nat -> (m < m')%nat)
    /\ (m' - m <= length rs)%nat.
Proof.
  revert j m cnt. induction rs as [|[k ru] rs IH]; intros j m cnt Hrun Hj.
  - cbn [count_samples] in Hrun. inversion Hrun; subst. exists cnt.
    cbn [length]. repeat split; lia.
  - cbn [count_samples] in Hrun.
    destruct (sample_indices !! j) as [s|] eqn:Hs; [|discriminate].
    destruct (Z.ltb_spec (Z.of_nat s) (Z.of_nat k + RuneLen ru)) as [Hlt|Hge].
    + assert (Hjn : (j < n)%nat)
        by (rewrite <- sample_length; eapply lookup_lt_Some; eassumption).
      pose proof (skip_duplicates_le n (Z.of_nat k + RuneLen ru) j ltac:(lia)) as Hle.
      assert (Hpr : (j < skip_duplicates sample_indices n n (Z.of_nat k + RuneLen ru) j)%nat)
        by (apply skip_duplicates_progress with (s := s); [lia|assumption|assumption]).
      set (j1 := skip_duplicates sample_indices n n (Z.of_nat k + RuneLen ru) j) in *.
      assert (Hc : exists cnt1, (if is_chinese chinese_chars ru then (fcount cnt + 1)%float
                                 else fcount cnt) = fcount cnt1
                                /\ (cnt <= cnt1 <= S cnt)%nat).
      { destruct (is_chinese chinese_chars ru); [exists (S cnt)|exists cnt];
          (split; [reflexivity|lia]). }
      destruct Hc as (cnt1 & Hc & Hcnt1). rewrite Hc in Hrun.
      destruct (Nat.eqb_spec j1 n) as [He|Hne].
      * inversion Hrun; subst j' m' c'. exists cnt1. cbn [length]. repeat split; lia.
      * apply IH in Hrun; [|lia].
        destruct Hrun as (cnt' & -> & H1 & H2 & H3 & H4 & H5 & H6 & H7).
        exists cnt'. cbn [length]. repeat split; lia.
    + apply IH in Hrun; [|lia].
      destruct Hrun as (cnt' & -> & H1 & H2 & H3 & H4 & H5 & H6 & H7).
      exists cnt'. cbn [length]. repeat split; lia.
Qed.

End ByteSamplingFacts.

Section ByteProcessFacts.
Import Go DetectChinese.

Variable chinese_chars : gmap Z bool.

(** The short branch: every codepoint is looked up, whatever is drawn. *)
Lemma byte_process_exhaustive (r : list string) (rand : nat -> N) (warc : warcRecord) :
  interpret r = Ret (Some warc) ->
  (len (body warc) <= 500)%nat ->
  process chinese_chars r rand
  = Ret (conclude threshold Exhaustive 0 (rune_count (body warc))
           (fcount (members chinese_chars (map snd (range_string (body warc)))))
           (rune_count (body warc)) (id warc)).
Proof.
  intros Hi Hlen. unfold process. rewrite Hi.
  replace (len (body warc) <=? n_samples)%nat with true
    by (symmetry; apply Nat.leb_le; exact Hlen).
  change 0%float with (fcount 0). rewrite count_all_spec. reflexivity.
Qed.

(** The sampling branch: all 500 entries of [sample_indices] are passed, so
    the panic on [j != n] cannot happen; between 1 and 500 codepoints are
    looked up. *)
Lemma byte_process_sampled (r : list string) (rand : nat -> N) (warc : warcRecord) :
  interpret r = Ret (Some warc) ->
  (500 < len (body warc))%nat ->
  exists m cnt,
    process chinese_chars r rand
    = Ret (conclude threshold Sampled 500 m (fcount cnt) 500 (id warc))
    /\ (1 <= m <= 500)%nat /\ (cnt <= m)%nat /\ (m <= rune_count (body warc))%nat.
Proof.
  intros Hi Hlen. unfold process. rewrite Hi.
  replace (len (body warc) <=? n_samples)%nat with false
    by (symmetry; apply Nat.leb_gt; exact Hlen).
  set (samples := draw_indices rand n_samples (len (body warc))).
  assert (Hsl : length samples = n_samples) by apply draw_indices_length.
  assert (Hsb : Forall (fun s => (s < len (body warc))%nat) samples)
    by (apply draw_indices_bound; lia).
  assert (Hlast : match last (range_string (body warc)) with
                  | Some (k', ru') => Z.of_nat (len (body warc)) <= Z.of_nat k' + RuneLen ru'
                  | None => False
                  end).
  { pose proof (range_from_last (body warc) 0 0) as H. unfold range_string.
    destruct (last (range_from (body warc) 0 0)) as [[k' ru']|]; [exact H|lia]. }
  destruct (count_samples_finds_all chinese_chars samples n_samples Hsl
              (len (body warc)) (range_string (body warc)) 0 0 (fcount 0) Hsb Hlast)
    as (m & c & Hrun); [unfold n_samples; lia|].
  change 0%float with (fcount 0). rewrite Hrun.
  apply count_samples_bounds in Hrun; [|assumption|lia].
  destruct Hrun as (cnt & -> & H1 & H2 & H3 & H4 & H5 & H6 & H7).
  rewrite Nat.eqb_refl. cbn [negb].
  exists m, cnt. split; [reflexivity|]. unfold n_samples, rune_count in *. lia.
Qed.

Lemma interpret_id_nonempty (r : list string) (warc : warcRecord) :
  interpret r = Ret (Some warc) -> id warc <> ""%string.
Proof.
  unfold interpret. destruct (interpret_lines r "" []) as [[i b]|]; [|discriminate].
  destruct (length b =? 0)%nat; [discriminate|].
  destruct (String.eqb_spec i "") as [|Hi]; [discriminate|].
  intros H. inversion H; subst. exact Hi.
Qed.

End ByteProcessFacts.

(** ** The rune-index classifier *)

Section RuneProcessFacts.
Import Go DetectRunes.

Variable chinese_chars : gmap Z bool.

Lemma rune_is_chinese (ru : Z) :
  DetectRunes.is_chinese chinese_chars ru = DetectChinese.is_chinese chinese_chars ru.
Proof. reflexivity. Qed.

Lemma rune_count_all_spec (runes : list Z) (cnt : nat) :
  count_all chinese_chars runes (fcount cnt) = fcount (cnt + members chinese_chars runes).
Proof.
  revert cnt. induction runes as [|ru runes IH]; intros cnt.
  - simpl. rewrite Nat.add_0_r. reflexivity.
  - cbn [count_all]. unfold members. cbn [List.filter]. rewrite rune_is_chinese.
    destruct (DetectChinese.is_chinese chinese_chars ru).
    + change (fcount cnt + 1)%float with (fcount (S cnt)). rewrite IH.
      unfold members. cbn [length]. f_equal. lia.
    + rewrite IH. reflexivity.
Qed.

(** Every index in range is looked up, and [c] grows by at most one each. *)
Lemma rune_count_samples_spec (runes : list Z) (idxs : list nat) (cnt : nat) :
  Forall (fun i => (i < length runes)%nat) idxs ->
  exists cnt',
    count_samples chinese_chars runes idxs (fcount cnt) = Ret (fcount cnt')
    /\ (cnt <= cnt' <= cnt + length idxs)%nat.
Proof.
  intros H. revert cnt. induction H as [|i idxs Hi Hrest IH]; intros cnt.
  - exists cnt. split; [reflexivity|simpl; lia].
  - cbn [count_samples].
    destruct (lookup_lt_is_Some_2 runes i Hi) as [ru Hru]. rewrite Hru.
    destruct (is_chinese chinese_chars ru).
    + change (fcount cnt + 1)%float with (fcount (S cnt)).
      destruct (IH (S cnt)) as (cnt' & -> & Hb). exists cnt'. split; [reflexivity|simpl; lia].
    + destruct (IH cnt) as (cnt' & -> & Hb). exists cnt'. split; [reflexivity|simpl; lia].
Qed.

Lemma rune_process_exhaustive (r : list string) (rand : nat -> N) (body : list string) :
  recordBody r = Some body ->
  (rune_count (Join body " ") <= 200)%nat ->
  process chinese_chars r rand
  = Ret (conclude threshold Exhaustive 0 (rune_count (Join body " "))
           (fcount (members chinese_chars (map snd (range_string (Join body " ")))))
           (rune_count (Join body " ")) (Join body " ")).
Proof.
  intros Hb Hlen. unfold process. rewrite Hb. rewrite length_map.
  fold (rune_count (Join body " ")).
  replace (rune_count (Join body " ") <=? n_samples)%nat with true
    by (symmetry; apply Nat.leb_le; exact Hlen).
  change 0%float with (fcount 0). rewrite rune_count_all_spec. reflexivity.
Qed.

Lemma rune_process_sampled (r : list string) (rand : nat -> N) (body : list string) :
  recordBody r = Some body ->
  (200 < rune_count (Join body " "))%nat ->
  exists cnt,
    process chinese_chars r rand
    = Ret (conclude threshold Sampled 200 200 (fcount cnt) 200 (Join body " "))
    /\ (cnt <= 200)%nat.
Proof.
  intros Hb Hlen. unfold process. rewrite Hb. rewrite length_map.
  fold (rune_count (Join body " ")).
  replace (rune_count (Join body " ") <=? n_samples)%nat with false
    by (symmetry; apply Nat.leb_gt; exact Hlen).
  set (samples := draw_indices rand n_samples (rune_count (Join body " "))).
  assert (Hsl : length samples = 200%nat) by apply draw_indices_length.
  assert (Hsb : Forall (fun i => (i < length (map snd (range_string (Join body " "))))%nat)
                       samples).
  { rewrite length_map. apply draw_indices_bound. lia. }
  destruct (rune_count_samples_spec _ samples 0 Hsb) as (cnt & Hrun & Hcnt).
  change 0%float with (fcount 0). rewrite Hrun, Hsl.
  exists cnt. split; [reflexivity|lia].
Qed.

End RuneProcessFacts.

(** ** The classifiers: regime, samples and decision *)

(** C3, as stated, fails for the byte-offset program: a body of exactly
    500 codepoints of two bytes each is 1000 bytes long and is sampled. *)
Lemma byte_regime_is_by_bytes :
  let r := ["WARC/1.0"; "WARC-Record-ID: <urn:x>"; Repeat e_acute 500]%string in
  exists warc,
    DetectChinese.interpret r = Go.Ret (Some warc)
    /\ Go.rune_count (DetectChinese.body warc) = 500%nat
    /\ forall chinese_chars rand,
         exists run, DetectChinese.process chinese_chars r rand = Go.Ret (Classified run)
                     /\ run_regime run = Sampled.
Proof.
  intros r.
  exists (DetectChinese.mkWarc [] "<urn:x>" (Repeat e_acute 500)).
  assert (Hi : DetectChinese.interpret r
               = Go.Ret (Some (DetectChinese.mkWarc [] "<urn:x>" (Repeat e_acute 500))))
    by (vm_compute; reflexivity).
  split; [exact Hi|]. split; [vm_compute; reflexivity|].
  intros cc rand.
  destruct (byte_process_sampled cc r rand _ Hi) as (m & cnt & Hp & _).
  - vm_compute. lia.
  - rewrite Hp. eexists. split; reflexivity.
Qed.

(** C3, amended. The byte-offset program chooses the regime by the length
    of the body in bytes against 500, which is its codepoint count when the
    body is ASCII; the rune-index program chooses it by the codepoint count
    against 200. In both, the exhaustive regime divides by the codepoint
    count and the sampled regime by the sample budget. *)
Theorem regime_by_length (chinese_chars : gmap Z bool) (r : list string) (rand : nat -> N) :
  (forall warc,
     DetectChinese.interpret r = Go.Ret (Some warc) ->
     exists run,
       DetectChinese.process chinese_chars r rand = Go.Ret (Classified run)
       /\ (run_regime run = Exhaustive <-> (Go.len (DetectChinese.body warc) <= 500)%nat)
       /\ (run_regime run = Sampled <-> (501 <= Go.len (DetectChinese.body warc))%nat)
       /\ (ascii_only (DetectChinese.body warc) = true ->
           (run_regime run = Exhaustive <-> (Go.rune_count (DetectChinese.body warc) <= 500)%nat))
       /\ denom run = match run_regime run with
                      | Exhaustive => Go.rune_count (DetectChinese.body warc)
                      | Sampled => 500%nat
                      end)
  /\ (forall body,
        DetectRunes.recordBody r = Some body ->
        exists run,
          DetectRunes.process chinese_chars r rand = Go.Ret (Classified run)
          /\ (run_regime run = Exhaustive <-> (Go.rune_count (Go.Join body " ") <= 200)%nat)
          /\ (run_regime run = Sampled <-> (201 <= Go.rune_count (Go.Join body " "))%nat)
          /\ denom run = match run_regime run with
                         | Exhaustive => Go.rune_count (Go.Join body " ")
                         | Sampled => 200%nat
                         end).
Proof.
  assert (Hiff : forall (a b : regime) (P : Prop),
             (a = b -> P) -> (P -> a = b) -> (a = b <-> P)) by (intros; split; auto).
  split.
  - intros warc Hi.
    destruct (le_lt_dec (Go.len (DetectChinese.body warc)) 500) as [Hle|Hgt].
    + rewrite (byte_process_exhaustive chinese_chars r rand warc Hi Hle).
      eexists. split; [reflexivity|]. cbn [conclude run_regime denom].
      split; [apply Hiff; intros; first [reflexivity|lia]|].
      split; [apply Hiff; intros; first [congruence|lia]|].
      split; [|reflexivity].
      intros Ha. rewrite (rune_count_ascii _ Ha).
      apply Hiff; intros; first [reflexivity|lia].
    + destruct (byte_process_sampled chinese_chars r rand warc Hi Hgt) as (m & cnt & Hp & _).
      rewrite Hp. eexists. split; [reflexivity|]. cbn [conclude run_regime denom].
      split; [apply Hiff; intros; first [congruence|lia]|].
      split; [apply Hiff; intros; first [reflexivity|lia]|].
      split; [|reflexivity].
      intros Ha. rewrite (rune_count_ascii _ Ha).
      apply Hiff; intros; first [congruence|lia].
  - intros body Hb.
    destruct (le_lt_dec (Go.rune_count (Go.Join body " ")) 200) as [Hle|Hgt].
    + rewrite (rune_process_exhaustive chinese_chars r rand body Hb Hle).
      eexists. split; [reflexivity|]. cbn [conclude run_regime denom].
      split; [apply Hiff; intros; first [reflexivity|lia]|].
      split; [apply Hiff; intros; first [congruence|lia]|reflexivity].
    + destruct (rune_process_sampled chinese_chars r rand body Hb Hgt) as (cnt & Hp & _).
      rewrite Hp. eexists. split; [reflexivity|]. cbn [conclude run_regime denom].
      split; [apply Hiff; intros; first [congruence|lia]|].
      split; [apply Hiff; intros; first [reflexivity|lia]|reflexivity].
Qed.

Lemma regime_by_length_witness :
  let r := ["WARC/1.0"; "WARC-Record-ID: <urn:x>"; Repeat "a" 500]%string in
  let rand := fun i : nat => N.of_nat i in
  (exists run,
     DetectChinese.process ∅ r rand = Go.Ret (Classified run)
     /\ (run_regime run = Exhaustive <-> (Go.len (Repeat "a" 500) <= 500)%nat)
     /\ (run_regime run = Sampled <-> (501 <= Go.len (Repeat "a" 500))%nat)
     /\ (ascii_only (Repeat "a" 500) = true ->
         (run_regime run = Exhaustive <-> (Go.rune_count (Repeat "a" 500) <= 500)%nat))
     /\ denom run = match run_regime run with
                    | Exhaustive => Go.rune_count (Repeat "a" 500)
                    | Sampled => 500%nat
                    end)
  /\ (exists run,
        DetectRunes.process ∅ r rand = Go.Ret (Classified run)
        /\ (run_regime run = Exhaustive
            <-> (Go.rune_count (Go.Join [Repeat "a" 500] " ") <= 200)%nat)
        /\ (run_regime run = Sampled
            <-> (201 <= Go.rune_count (Go.Join [Repeat "a" 500] " "))%nat)
        /\ denom run = match run_regime run with
                       | Exhaustive => Go.rune_count (Go.Join [Repeat "a" 500] " ")
                       | Sampled => 200%nat
                       end).
Proof.
  intros r rand. split.
  - apply (proj1 (regime_by_length ∅ r rand)
                 (DetectChinese.mkWarc [] "<urn:x>" (Repeat "a" 500))).
    vm_compute. reflexivity.
  - apply (proj2 (regime_by_length ∅ r rand) [Repeat "a" 500]).
    vm_compute. reflexivity.
Defined.

(** C5, as stated, fails: the draws are made with replacement. When every
    draw is 0, the byte-offset program passes its 500 entries having looked
    up one codepoint, and the rune-index program looks up the same rune 200
    times; both conclude without a panic. *)
Lemma sampled_regime_repeats_samples :
  let rand := fun _ : nat => 0%N in
  DetectChinese.process ∅ ["WARC/1.0"; "WARC-Record-ID: <urn:x>"; Repeat "a" 501]%string rand
  = Go.Ret (Classified (mkRun Sampled 500 1 0 500 0 false ""))
  /\ draw_indices rand 200 201 = repeat 0%nat 200
  /\ DetectRunes.process ∅ ["WARC/1.0"; Repeat "a" 201]%string rand
     = Go.Ret (Classified (mkRun Sampled 200 200 0 200 0 false "")).
Proof. vm_compute. repeat split. Qed.

(** C5, amended. In the sampled regime the byte-offset program passes all
    500 entries of [sample_indices] and concludes, so its panic on
    [j != n] never happens, and it has then looked up between 1 and 500
    codepoints, no more than the body has; the rune-index program makes 200
    lookups, one for each entry drawn, repeated or not, and concludes. *)
Theorem sampled_regime_passes_all_draws
    (chinese_chars : gmap Z bool) (r : list string) (rand : nat -> N) :
  (forall warc,
     DetectChinese.interpret r = Go.Ret (Some warc) ->
     (500 < Go.len (DetectChinese.body warc))%nat ->
     exists run,
       DetectChinese.process chinese_chars r rand = Go.Ret (Classified run)
       /\ run_regime run = Sampled
       /\ located run = 500%nat
       /\ length (draw_indices rand 500 (Go.len (DetectChinese.body warc))) = 500%nat
       /\ (1 <= consulted run <= 500)%nat
       /\ (consulted run <= Go.rune_count (DetectChinese.body warc))%nat)
  /\ (forall body,
        DetectRunes.recordBody r = Some body ->
        (200 < Go.rune_count (Go.Join body " "))%nat ->
        exists run,
          DetectRunes.process chinese_chars r rand = Go.Ret (Classified run)
          /\ run_regime run = Sampled
          /\ consulted run = 200%nat
          /\ length (draw_indices rand 200 (Go.rune_count (Go.Join body " "))) = 200%nat).
Proof.
  split.
  - intros warc Hi Hlen.
    destruct (byte_process_sampled chinese_chars r rand warc Hi Hlen)
      as (m & cnt & Hp & Hm & Hc & Hr).
    rewrite Hp. eexists. split; [reflexivity|]. cbn [conclude run_regime located consulted].
    rewrite draw_indices_length. auto.
  - intros body Hb Hlen.
    destruct (rune_process_sampled chinese_chars r rand body Hb Hlen) as (cnt & Hp & _).
    rewrite Hp. eexists. split; [reflexivity|]. cbn [conclude run_regime consulted].
    rewrite draw_indices_length. auto.
Qed.

Lemma sampled_regime_passes_all_draws_witness :
  let r := ["WARC/1.0"; "WARC-Record-ID: <urn:x>"; Repeat zhong 201]%string in
  let rand := fun i : nat => N.of_nat (7 * i) in
  let chinese_chars : gmap Z bool := {[ 20013 := true ]} in
  (exists run,
     DetectChinese.process chinese_chars r rand = Go.Ret (Classified run)
     /\ run_regime run = Sampled
     /\ located run = 500%nat
     /\ length (draw_indices rand 500 (Go.len (Repeat zhong 201))) = 500%nat
     /\ (1 <= consulted run <= 500)%nat
     /\ (consulted run <= Go.rune_count (Repeat zhong 201))%nat)
  /\ (exists run,
        DetectRunes.process chinese_chars r rand = Go.Ret (Classified run)
        /\ run_regime run = Sampled
        /\ consulted run = 200%nat
        /\ length (draw_indices rand 200 (Go.rune_count (Go.Join [Repeat zhong 201] " ")))
           = 200%nat).
Proof.
  intros r rand chinese_chars. split.
  - apply (proj1 (sampled_regime_passes_all_draws chinese_chars r rand)
                 (DetectChinese.mkWarc [] "<urn:x>" (Repeat zhong 201))).
    + vm_compute. reflexivity.
    + vm_compute. lia.
  - apply (proj2 (sampled_regime_passes_all_draws chinese_chars r rand) [Repeat zhong 201]).
    + vm_compute. reflexivity.
    + vm_compute. lia.
Defined.

Section DecisionFacts.
Import Go.

Lemma Ret_inj (A : Type) (a b : A) : Ret a = Ret b -> b = a.
Proof. intros H. inversion H. reflexivity. Qed.

Lemma members_range (chinese_chars : gmap Z bool) (s : string) :
  (members chinese_chars (map snd (range_string s)) <= rune_count s)%nat.
Proof.
  pose proof (members_le chinese_chars (map snd (range_string s))) as H.
  rewrite length_map in H. exact H.
Qed.

(** The decision of a conclusion whose [c] is the count [cnt] of matches
    among [n] codepoints, in exact arithmetic. *)
Lemma conclude_decision (thr : float) (num den : Z) (nmax : nat)
      (reg : regime) (j m cnt n : nat) (hit : string) (run : run) :
  table_ok thr num den nmax = true ->
  0 < num -> 0 < den ->
  (cnt <= n <= nmax)%nat ->
  ((0 < n)%nat -> hit <> ""%string) ->
  Classified run = conclude thr reg j m (fcount cnt) n hit ->
  matched run = fgt (ratio run) thr
  /\ ratio run = (matches run / float64 (denom run))%float
  /\ (sent run <> ""%string <-> matched run = true)
  /\ exists cnt',
       matches run = fcount cnt'
       /\ (cnt' <= denom run <= nmax)%nat
       /\ (matched run = true <-> num * Z.of_nat (denom run) < den * Z.of_nat cnt').
Proof.
  intros Ht Hnum Hden Hcnt Hhit Hrun. unfold conclude in Hrun. inversion Hrun; subst run.
  cbn [matched ratio matches denom sent].
  pose proof (table_ok_spec thr num den nmax n cnt Ht Hcnt) as Hfgt.
  split; [reflexivity|]. split; [reflexivity|]. split.
  - destruct (fgt (fcount cnt / float64 n) thr) eqn:Hm.
    + split; [reflexivity|]. intros _. apply Hhit.
      symmetry in Hfgt. apply Z.ltb_lt in Hfgt. nia.
    + split; [intros H; contradiction|discriminate].
  - exists cnt. split; [reflexivity|]. split; [assumption|].
    rewrite Hfgt. apply Z.ltb_lt.
Qed.

End DecisionFacts.

(** C7. Whatever the regime, [process] decides a match exactly when the
    ratio it computed is greater than the threshold, and then sends a
    non-empty message. With [c] the count of matches and [n] the divisor,
    [ratio > 0.35] holds exactly when [7 n < 20 c] (byte-offset program) and
    [ratio > 0.3] exactly when [3 n < 10 c] (rune-index program): a ratio
    equal to the threshold is no match. *)
Theorem match_iff_ratio_above_threshold
    (chinese_chars : gmap Z bool) (r : list string) (rand : nat -> N) (run : run) :
  (DetectChinese.process chinese_chars r rand = Go.Ret (Classified run) ->
   matched run = Go.fgt (ratio run) DetectChinese.threshold
   /\ ratio run = (matches run / Go.float64 (denom run))%float
   /\ (sent run <> ""%string <-> matched run = true)
   /\ exists cnt,
        matches run = fcount cnt
        /\ (cnt <= denom run <= 500)%nat
        /\ (matched run = true <-> 7 * Z.of_nat (denom run) < 20 * Z.of_nat cnt))
  /\ (DetectRunes.process chinese_chars r rand = Go.Ret (Classified run) ->
      matched run = Go.fgt (ratio run) DetectRunes.threshold
      /\ ratio run = (matches run / Go.float64 (denom run))%float
      /\ (sent run <> ""%string <-> matched run = true)
      /\ exists cnt,
           matches run = fcount cnt
           /\ (cnt <= denom run <= 200)%nat
           /\ (matched run = true <-> 3 * Z.of_nat (denom run) < 10 * Z.of_nat cnt)).
Proof.
  split.
  - intros Hp.
    destruct (DetectChinese.interpret r) as [[warc|]|e|msg] eqn:Hi;
      try (unfold DetectChinese.process in Hp; rewrite Hi in Hp; discriminate).
    pose proof (interpret_id_nonempty r warc Hi) as Hid.
    destruct (le_lt_dec (Go.len (DetectChinese.body warc)) 500) as [Hle|Hgt].
    + rewrite (byte_process_exhaustive chinese_chars r rand warc Hi Hle) in Hp.
      apply Ret_inj in Hp as Hrun.
      eapply conclude_decision; [exact table_035|lia|lia| | |exact Hrun]; [|auto].
      split; [apply members_range|].
      pose proof (range_from_length (DetectChinese.body warc) 0 0). unfold Go.rune_count,
        Go.range_string. lia.
    + destruct (byte_process_sampled chinese_chars r rand warc Hi Hgt)
        as (m & cnt & Hp' & Hm & Hc & _).
      rewrite Hp' in Hp. apply Ret_inj in Hp as Hrun.
      eapply conclude_decision; [exact table_035|lia|lia| | |exact Hrun]; [lia|auto].
  - intros Hp.
    destruct (DetectRunes.recordBody r) as [body|] eqn:Hb;
      [|unfold DetectRunes.process in Hp; rewrite Hb in Hp; discriminate].
    destruct (le_lt_dec (Go.rune_count (Go.Join body " ")) 200) as [Hle|Hgt].
    + rewrite (rune_process_exhaustive chinese_chars r rand body Hb Hle) in Hp.
      apply Ret_inj in Hp as Hrun.
      eapply conclude_decision; [exact table_03|lia|lia| | |exact Hrun].
      * split; [apply members_range|assumption].
      * intros Hpos Hempty. rewrite Hempty in Hpos. vm_compute in Hpos. lia.
    + destruct (rune_process_sampled chinese_chars r rand body Hb Hgt) as (cnt & Hp' & Hc).
      rewrite Hp' in Hp. apply Ret_inj in Hp as Hrun.
      eapply conclude_decision; [exact table_03|lia|lia| | |exact Hrun]; [lia|].
      intros _ Hempty. rewrite Hempty in Hgt. vm_compute in Hgt. lia.
Qed.

Lemma match_iff_ratio_above_threshold_witness :
  let run1 := mkRun Exhaustive 0 20 7 20 (7 / 20) false "" in
  let run2 := mkRun Exhaustive 0 10 4 10 (4 / 10) true
                    (Go.Join [(Repeat zhong 4 ++ Repeat "a" 6)%string] " ") in
  (matched run1 = Go.fgt (ratio run1) DetectChinese.threshold
   /\ ratio run1 = (matches run1 / Go.float64 (denom run1))%float
   /\ (sent run1 <> ""%string <-> matched run1 = true)
   /\ exists cnt,
        matches run1 = fcount cnt
        /\ (cnt <= denom run1 <= 500)%nat
        /\ (matched run1 = true <-> 7 * Z.of_nat (denom run1) < 20 * Z.of_nat cnt))
  /\ (matched run2 = Go.fgt (ratio run2) DetectRunes.threshold
      /\ ratio run2 = (matches run2 / Go.float64 (denom run2))%float
      /\ (sent run2 <> ""%string <-> matched run2 = true)
      /\ exists cnt,
           matches run2 = fcount cnt
           /\ (cnt <= denom run2 <= 200)%nat
           /\ (matched run2 = true <-> 3 * Z.of_nat (denom run2) < 10 * Z.of_nat cnt)).
Proof.
  intros run1 run2. split.
  - apply (proj1 (match_iff_ratio_above_threshold
                    {[ 20013 := true ]}
                    ["WARC/1.0"; "WARC-Record-ID: <urn:x>";
                     (Repeat zhong 7 ++ Repeat "a" 13)%string]
                    (fun _ => 0%N) run1)).
    vm_compute. reflexivity.
  - apply (proj2 (match_iff_ratio_above_threshold
                    {[ 20013 := true ]}
                    ["WARC/1.0"; (Repeat zhong 4 ++ Repeat "a" 6)%string]
                    (fun _ => 0%N) run2)).
    vm_compute. reflexivity.
Defined.

(** C4. A body of 170 codepoints of three bytes each, all of them in the
    target set: with the draws [3 i] every codepoint is sampled, 170
    distinct codepoints are looked up and all match, and [process] divides
    by 500, not by 170: the ratio is 0.34 and the record is no match.
    Whatever is drawn, this record is never a match. *)
Theorem byte_sampled_ratio_divides_by_budget :
  let r := ["WARC/1.0"; "WARC-Record-ID: <urn:x>"; Repeat zhong 170]%string in
  let chinese_chars : gmap Z bool := {[ 20013 := true ]} in
  DetectChinese.process chinese_chars r (fun i => N.of_nat (3 * i))
  = Go.Ret (Classified (mkRun Sampled 500 170 170 500 (170 / 500) false ""))
  /\ forall rand,
       exists run,
         DetectChinese.process chinese_chars r rand = Go.Ret (Classified run)
         /\ run_regime run = Sampled
         /\ denom run = 500%nat
         /\ (consulted run <= 170)%nat
         /\ matched run = false
         /\ sent run = ""%string.
Proof.
  intros r cc. split; [vm_compute; reflexivity|].
  intros rand.
  assert (Hi : DetectChinese.interpret r
               = Go.Ret (Some (DetectChinese.mkWarc [] "<urn:x>" (Repeat zhong 170))))
    by (vm_compute; reflexivity).
  destruct (byte_process_sampled cc r rand _ Hi) as (m & cnt & Hp & Hm & Hc & Hr).
  { vm_compute. lia. }
  assert (Hcount : Go.rune_count (Repeat zhong 170) = 170%nat) by (vm_compute; reflexivity).
  cbn [DetectChinese.body] in Hr. rewrite Hcount in Hr.
  rewrite Hp. eexists. split; [reflexivity|].
  cbn [conclude run_regime denom consulted matched sent].
  assert (Hno : Go.fgt (fcount cnt / Go.float64 500) DetectChinese.threshold = false).
  { rewrite (table_ok_spec _ 7 20 500 500 cnt table_035) by lia. apply Z.ltb_ge. lia. }
  rewrite Hno. auto.
Qed.


(** * Further properties *)

(** ** [nextRecord] on framed records *)

Section FramingFacts.
Import Go ReadMeta.

Lemma string_app_assoc (a b c : string) : ((a ++ b) ++ c = a ++ (b ++ c))%string.
Proof.
  induction a as [|x a IH]; [reflexivity|].
  change (String x ((a ++ b) ++ c) = String x (a ++ (b ++ c)))%string. f_equal. exact IH.
Qed.

Lemma string_app_nil_r (a : string) : (a ++ "" = a)%string.
Proof.
  induction a as [|x a IH]; [reflexivity|].
  change (String x (a ++ "") = String x a)%string. f_equal. exact IH.
Qed.

(** The three prefixes of interest exclude each other. *)
Lemma prefix_type_exclusive (line : string) :
  HasPrefix line "WARC-Type: " = true ->
  HasPrefix line "Content-Length: " = false /\ HasPrefix line "WARC-Refers-To: " = false.
Proof.
  unfold HasPrefix. intros H.
  repeat (destruct line as [|? line]; [discriminate H|];
          cbn [String.prefix] in H;
          match type of H with
          | (if ascii_dec ?a ?b then _ else _) = true =>
            destruct (ascii_dec a b) as [<-|]; [|discriminate H]
          end);
  split; reflexivity.
Qed.

Lemma prefix_length_exclusive (line : string) :
  HasPrefix line "Content-Length: " = true ->
  HasPrefix line "WARC-Type: " = false /\ HasPrefix line "WARC-Refers-To: " = false.
Proof.
  unfold HasPrefix. intros H.
  destruct line as [|? line]; [discriminate H|].
  cbn [String.prefix] in H.
  destruct (ascii_dec "C" a) as [<-|]; [|discriminate H].
  split; reflexivity.
Qed.

Lemma prefix_refers_exclusive (line : string) :
  HasPrefix line "WARC-Refers-To: " = true ->
  HasPrefix line "WARC-Type: " = false /\ HasPrefix line "Content-Length: " = false.
Proof.
  intros H. split.
  - destruct (HasPrefix line "WARC-Type: ") eqn:E; [|reflexivity].
    apply prefix_type_exclusive in E as [_ E]. congruence.
  - destruct (HasPrefix line "Content-Length: ") eqn:E; [|reflexivity].
    apply prefix_length_exclusive in E as [_ E]. congruence.
Qed.

(** The header loop over well-formed header lines: it goes on after them
    with the fields those lines give. *)
Lemma read_header_prefix (hdr : list string) (rest : string) (e : error)
      (sh : list nat) (fuel : nat) (rec : record) (failSafe : Z) (n : Z) :
  forallb header_line hdr = true ->
  declared_length (map trim_line hdr) (length_ rec) = Some n ->
  Z.of_nat (length hdr) < failSafe ->
  read_header (length hdr + fuel) (mkReader (stream_of hdr rest) e sh) rec failSafe
  = read_header fuel (mkReader rest e sh)
      (mkRecord n
                (last_field "WARC-Refers-To: " (map trim_line hdr) (refersTo rec))
                (header rec ++ map trim_line hdr)
                (last_field "WARC-Type: " (map trim_line hdr) (warcType rec))
                (data_ rec))
      (failSafe - Z.of_nat (length hdr)).
Proof.
  revert rec failSafe.
  induction hdr as [|l hdr IH]; intros rec failSafe Hh Hd Hfs.
  - cbn in *. inversion Hd; subst. rewrite app_nil_r, Z.sub_0_r.
    destruct rec; reflexivity.
  - cbn [forallb] in Hh. apply andb_true_iff in Hh as [Hl Hh].
    unfold header_line in Hl. apply andb_true_iff in Hl as [Hl1 Hl2].
    apply negb_true_iff in Hl2.
    cbn [length Nat.add stream_of fold_right read_header].
    rewrite (ReadString_line l _ e sh (one_line_cut _ Hl1)).
    change (TrimSpace (l ++ String LF "")) with (trim_line l).
    rewrite Hl2. cbn [map declared_length] in Hd.
    replace (failSafe - 1 =? 0) with false
      by (symmetry; apply Z.eqb_neq; cbn [length] in Hfs; lia).
    unfold last_field. cbn [map fold_left]. fold (last_field "WARC-Refers-To: ").
    fold (last_field "WARC-Type: ").
    replace (failSafe - Z.of_nat (S (length hdr)))
      with (failSafe - 1 - Z.of_nat (length hdr)) by lia.
    assert (Hfs' : Z.of_nat (length hdr) < failSafe - 1) by (cbn [length] in Hfs; lia).
    destruct (HasPrefix (trim_line l) "WARC-Type: ") eqn:Ht.
    + destruct (prefix_type_exclusive _ Ht) as [Hc Hr]. rewrite Hc in Hd. rewrite Hr.
      cbn iota. rewrite IH; [|assumption|exact Hd|assumption].
      cbn [refersTo header warcType data_ length_]. rewrite <- app_assoc. reflexivity.
    + destruct (HasPrefix (trim_line l) "Content-Length: ") eqn:Hc.
      * destruct (prefix_length_exclusive _ Hc) as [_ Hr]. rewrite Hr.
        destruct (Atoi (slice_from 16 (trim_line l))) as [n1|]; [|discriminate].
        cbn iota. rewrite IH; [|assumption|exact Hd|assumption].
        cbn [refersTo header warcType data_ length_]. rewrite <- app_assoc. reflexivity.
      * destruct (HasPrefix (trim_line l) "WARC-Refers-To: ") eqn:Hr;
          cbn iota; (rewrite IH; [|assumption|exact Hd|assumption]);
          cbn [refersTo header warcType data_ length_]; rewrite <- app_assoc; reflexivity.
Qed.

Lemma find_marker_blanks (blanks : list string) (rest : string) (e : error)
      (sh : list nat) (fuel : nat) :
  forallb blank_line blanks = true ->
  find_marker (length blanks + fuel) (mkReader (stream_of blanks rest) e sh)
  = find_marker fuel (mkReader rest e sh).
Proof.
  intros Hb. induction blanks as [|b blanks IH]; [reflexivity|].
  cbn [forallb] in Hb. apply andb_true_iff in Hb as [Hb1 Hb].
  apply andb_true_iff in Hb1 as [Hb1 Hb2]. apply String.eqb_eq in Hb2.
  cbn [length Nat.add stream_of fold_right find_marker].
  rewrite (ReadString_line b _ e sh (one_line_cut _ Hb1)).
  change (TrimSpace (b ++ String LF "")) with (trim_line b). rewrite Hb2.
  change (String.eqb "" marker) with false. change (String.eqb "" "") with true.
  cbn iota. apply IH. assumption.
Qed.

Lemma take_bytes_app (n : nat) (body rest : string) :
  (n <= len body)%nat ->
  exists a b, take_bytes n (body ++ rest) = (a, (b ++ rest)%string)
              /\ (a ++ b)%string = body /\ len a = n.
Proof.
  revert body. induction n as [|n IH]; intros body Hn.
  - exists ""%string, body. cbn [take_bytes]. destruct (body ++ rest)%string; auto.
  - destruct body as [|c body]; [unfold len in Hn; simpl in Hn; lia|].
    destruct (IH body ltac:(unfold len in *; simpl in Hn; lia)) as (a & b & Ht & Hab & Hl).
    exists (String c a), b.
    change (String c body ++ rest)%string with (String c (body ++ rest)).
    cbn [take_bytes]. rewrite Ht.
    repeat split; [|unfold len in *; simpl; lia].
    change (String c a ++ b)%string with (String c (a ++ b)). rewrite Hab. reflexivity.
Qed.

(** The body loop reads exactly the declared bytes, however the reads are
    cut, and leaves the stream right after them. *)
Lemma read_data_exact (fuel : nat) (body rest : string) (e : error) (sh : list nat)
      (length : nat) (got : string) :
  (len got + len body = length)%nat ->
  (len body <= fuel)%nat ->
  exists sh',
    read_data fuel (mkReader (body ++ rest) e sh) length got
    = Go_on ((got ++ body)%string, mkReader rest e sh').
Proof.
  revert body sh got. induction fuel as [|fuel IH]; intros body sh got Hlen Hfuel.
  - destruct body; [|unfold len in Hfuel; simpl in Hfuel; lia].
    cbn [read_data]. replace (len got <? length)%nat with false
      by (symmetry; apply Nat.ltb_ge; unfold len in *; simpl in Hlen; lia).
    exists sh. rewrite string_app_nil_r. reflexivity.
  - cbn [read_data]. destruct (Nat.ltb_spec (len got) length) as [Hlt|Hge].
    + destruct body as [|c body]; [unfold len in *; simpl in Hlen; lia|].
      unfold Read. cbn [data fin short].
      change (String c body ++ rest)%string with (String c (body ++ rest)).
      cbn iota.
      set (bound := match sh with
                    | b :: _ => Nat.min (length - len got) (S b)
                    | [] => (length - len got)%nat
                    end).
      assert (Hbound : (1 <= bound <= len (String c body))%nat)
        by (subst bound; destruct sh; lia).
      change (String c (body ++ rest)) with (String c body ++ rest)%string.
      destruct (take_bytes_app bound (String c body) rest ltac:(lia))
        as (a & b & Ht & Hab & Hl).
      rewrite Ht.
      destruct (IH b (tl sh) (got ++ a)%string) as (sh' & Hr).
      * rewrite len_app. rewrite <- Hab, len_app in Hlen. lia.
      * rewrite <- Hab, len_app in Hfuel. lia.
      * exists sh'. rewrite Hr, string_app_assoc, Hab. reflexivity.
    + destruct body; [|unfold len in *; simpl in Hlen; lia].
      exists sh. rewrite string_app_nil_r. reflexivity.
Qed.

(** [nextRecord] past the blank lines, the marker and well-formed header
    lines: what is left is the header loop at the next line. *)
Lemma nextRecord_header (blanks : list string) (m : string) (hdr : list string)
      (rest : string) (e : error) (sh : list nat) (n : Z) :
  forallb blank_line blanks = true ->
  marker_line m = true ->
  forallb header_line hdr = true ->
  declared_length (map trim_line hdr) 0 = Some n ->
  (length hdr < 100)%nat ->
  exists fuel,
    nextRecord (mkReader (stream_of (blanks ++ m :: hdr) rest) e sh)
    = after_header
        (read_header (S fuel) (mkReader rest e sh)
           (mkRecord n (last_field "WARC-Refers-To: " (map trim_line hdr) "")
                     (marker :: map trim_line hdr)
                     (last_field "WARC-Type: " (map trim_line hdr) "") "")
           (100 - Z.of_nat (length hdr))).
Proof.
  intros Hb Hm Hh Hd Hlen.
  pose proof (len_stream_of (blanks ++ m :: hdr) rest) as Hl.
  rewrite length_app in Hl. cbn [length] in Hl.
  exists (len (stream_of (blanks ++ m :: hdr) rest) - length hdr)%nat.
  change (nextRecord ?r) with
    (match find_marker (S (len (data r))) r with
     | Go_on (line, r1) =>
       after_header (read_header (S (len (data r))) r1 (mkRecord 0 "" [line] "" "") 100)
     | Return_err e => Return_err e
     | Panics msg => Panics msg
     | OutOfFuel => OutOfFuel
     end).
  cbn [data].
  replace (blanks ++ m :: hdr) with ((blanks ++ [m]) ++ hdr) in *
    by (rewrite <- app_assoc; reflexivity).
  rewrite stream_of_app in Hl |- *.
  rewrite find_marker_lines by (try assumption; lia).
  set (F := len _) in *.
  replace (S F) with (length hdr + S (F - length hdr))%nat by lia.
  rewrite (read_header_prefix hdr rest e sh _ (mkRecord 0 "" [marker] "" "") 100 n Hh Hd
             ltac:(lia)).
  reflexivity.
Qed.

Lemma len_stream_of_tail (raw : list string) (tail : string) :
  (length raw + len tail <= len (stream_of raw tail))%nat.
Proof.
  induction raw as [|l raw IH]; cbn [stream_of fold_right length]; [lia|].
  rewrite len_app. fold (stream_of raw tail). unfold len in *. simpl. lia.
Qed.

Lemma declared_length_app (a b : list string) (cur : Z) :
  declared_length (a ++ b) cur
  = match declared_length a cur with
    | Some x => declared_length b x
    | None => None
    end.
Proof.
  revert cur. induction a as [|l a IH]; intros cur; [reflexivity|].
  cbn [app declared_length]. destruct (HasPrefix l "Content-Length: "); [|apply IH].
  destruct (Atoi (slice_from 16 l)); [apply IH|reflexivity].
Qed.

(** At the end of the stream, after blank lines only: the error of the
    stream comes back, and a last line without a line feed is not looked at. *)
Lemma nextRecord_end (blanks : list string) (tail : string) (e : error) (sh : list nat) :
  forallb blank_line blanks = true ->
  one_line tail = true ->
  nextRecord (mkReader (stream_of blanks tail) e sh) = Return_err e.
Proof.
  intros Hb Ht. unfold nextRecord. cbv zeta. cbn [data].
  pose proof (len_stream_of blanks tail) as Hl.
  replace (S (len (stream_of blanks tail)))
    with (length blanks + S (len (stream_of blanks tail) - length blanks))%nat by lia.
  rewrite find_marker_blanks by assumption.
  cbn [find_marker]. rewrite (ReadString_tail tail e sh (one_line_cut _ Ht)). reflexivity.
Qed.

(** A framed record comes back whole, whatever follows it and however the
    reads of its body are cut. *)
Lemma nextRecord_frame (f : framed) (rest : string) (e : error) (sh : list nat) :
  well_framed f = true ->
  exists sh',
    nextRecord (mkReader (frame_bytes f rest) e sh) = Go_on (record_of f, mkReader rest e sh').
Proof.
  unfold well_framed. intros H.
  apply andb_true_iff in H as [H Hd]. apply andb_true_iff in H as [H Hlen].
  apply andb_true_iff in H as [H Hstop]. apply andb_true_iff in H as [H Hh].
  apply andb_true_iff in H as [Hb Hm]. apply Nat.ltb_lt in Hlen.
  destruct (declared_length (map trim_line (f_header f)) 0) as [n|] eqn:Hn; [|discriminate].
  apply andb_true_iff in Hd as [Hpos Hbody]. apply Z.ltb_lt in Hpos. apply Z.eqb_eq in Hbody.
  apply andb_true_iff in Hstop as [Hs1 Hs2]. apply String.eqb_eq in Hs2.
  unfold frame_bytes.
  replace (f_blanks f ++ f_marker f :: f_header f ++ [f_stop f])
    with ((f_blanks f ++ f_marker f :: f_header f) ++ [f_stop f])
    by (rewrite <- app_assoc; reflexivity).
  rewrite stream_of_app.
  destruct (nextRecord_header (f_blanks f) (f_marker f) (f_header f)
              (stream_of [f_stop f] (f_body f ++ rest)) e sh n Hb Hm Hh Hn Hlen)
    as (fuel & ->).
  cbn [stream_of fold_right read_header].
  rewrite (ReadString_line (f_stop f) _ e sh (one_line_cut _ Hs1)).
  change (TrimSpace (f_stop f ++ String LF "")) with (trim_line (f_stop f)).
  rewrite Hs2. change (String.eqb "" "") with true. cbn iota.
  unfold after_header. cbn [hs_rec hs_err length_ refersTo header warcType].
  replace (n =? 0) with false by (symmetry; apply Z.eqb_neq; lia).
  replace (n <? 0) with false by (symmetry; apply Z.ltb_ge; lia).
  destruct (read_data_exact (Z.to_nat n) (f_body f) rest e sh (Z.to_nat n) "")
    as (sh' & Hr); [unfold len at 1; simpl; lia|lia|].
  change ("" ++ f_body f)%string with (f_body f) in Hr.
  cbv zeta. rewrite Hr.
  replace (len (f_body f) =? Z.to_nat n)%nat with true
    by (symmetry; apply Nat.eqb_eq; lia).
  cbn [negb]. exists sh'. unfold record_of. rewrite Hbody. reflexivity.
Qed.

End FramingFacts.

(** X1. A well-formed record in a stream (blank lines, the marker, fewer
    than 100 header lines, a blank line, and a body of the positive length
    the header declares) is returned whole by [nextRecord]: the type and the
    refers-to identifier of the last lines that give them, the trimmed
    header lines, and the body byte for byte, with the stream left right
    after the body, however the reads are cut. *)
Theorem nextRecord_round_trip
    (f : framed) (rest : string) (e : Go.error) (sh : list nat) :
  well_framed f = true ->
  exists sh',
    ReadMeta.nextRecord (Go.mkReader (frame_bytes f rest) e sh)
    = ReadMeta.Go_on (record_of f, Go.mkReader rest e sh')
    /\ ReadMeta.data_ (record_of f) = f_body f
    /\ ReadMeta.length_ (record_of f) = Z.of_nat (Go.len (f_body f))
    /\ ReadMeta.warcType (record_of f)
       = last_field "WARC-Type: " (map trim_line (f_header f)) ""
    /\ ReadMeta.refersTo (record_of f)
       = last_field "WARC-Refers-To: " (map trim_line (f_header f)) "".
Proof.
  intros H. destruct (nextRecord_frame f rest e sh H) as (sh' & Hn).
  exists sh'. repeat split. exact Hn.
Qed.

Lemma nextRecord_round_trip_witness :
  let f := mkFramed [""%string] "WARC/1.0"
                    ["WARC-Type: metadata"; "Content-Length: 9"; "WARC-Refers-To: <urn:a>";
                     "Content-Length: 5"]%string
                    "" "hello" in
  exists sh',
    ReadMeta.nextRecord (Go.mkReader (frame_bytes f "WARC/1.0") Go.EOF [1%nat; 0%nat])
    = ReadMeta.Go_on (record_of f, Go.mkReader "WARC/1.0" Go.EOF sh')
    /\ ReadMeta.data_ (record_of f) = f_body f
    /\ ReadMeta.length_ (record_of f) = Z.of_nat (Go.len (f_body f))
    /\ ReadMeta.warcType (record_of f)
       = last_field "WARC-Type: " (map trim_line (f_header f)) ""
    /\ ReadMeta.refersTo (record_of f)
       = last_field "WARC-Refers-To: " (map trim_line (f_header f)) "".
Proof.
  intros f. apply (nextRecord_round_trip f "WARC/1.0" Go.EOF [1%nat; 0%nat]).
  vm_compute. reflexivity.
Defined.

Section CorrelatorStreamFacts.
Import Go ReadMeta.

Variable Unmarshal : string -> WarcMeta -> option WarcMeta.
Variable ids : gmap string bool.

Lemma len_frame_bytes (f : framed) (rest : string) :
  (1 + len rest <= len (frame_bytes f rest))%nat.
Proof.
  unfold frame_bytes.
  pose proof (len_stream_of_tail (f_blanks f ++ f_marker f :: f_header f ++ [f_stop f])
                (f_body f ++ rest)) as H.
  rewrite length_app, len_app in H. cbn [length] in H. lia.
Qed.

Lemma len_frames (frames : list framed) (tail : string) :
  (length frames <= len (fold_right frame_bytes tail frames))%nat.
Proof.
  induction frames as [|f frames IH]; cbn [fold_right length]; [lia|].
  pose proof (len_frame_bytes f (fold_right frame_bytes tail frames)). lia.
Qed.

Lemma readMeta_loop_frames (frames : list framed) (blanks : list string) (tail : string)
      (sh : list nat) (fuel : nat) (st : state) :
  forallb well_framed frames = true ->
  forallb blank_line blanks = true ->
  one_line tail = true ->
  (length frames < fuel)%nat ->
  readMeta_loop Unmarshal ids fuel
    (mkReader (fold_right frame_bytes (stream_of blanks tail) frames) EOF sh) st
  = handle_all Unmarshal ids (map record_of frames) st.
Proof.
  intros Hf Hb Ht. revert sh fuel st.
  induction frames as [|f frames IH]; intros sh fuel st Hfuel;
    (destruct fuel as [|fuel]; [cbn [length] in Hfuel; lia|]).
  - cbn [fold_right readMeta_loop map handle_all].
    rewrite nextRecord_end by assumption. reflexivity.
  - cbn [forallb] in Hf. apply andb_true_iff in Hf as [Hf1 Hf].
    cbn [fold_right readMeta_loop map handle_all].
    destruct (nextRecord_frame f (fold_right frame_bytes (stream_of blanks tail) frames)
                EOF sh Hf1) as (sh' & ->).
    destruct (handle Unmarshal ids (record_of f) st) as [st'|o]; [|reflexivity].
    apply IH; [assumption|]. cbn [length] in Hfuel. lia.
Qed.

End CorrelatorStreamFacts.

(** X2. On a stream of well-formed records that ends, after blank lines,
    with the end of the stream, [readMeta] is the loop body applied to the
    records in stream order, up to the first one that stops the process; a
    last line that no line feed ends is not looked at. *)
Theorem readMeta_reads_frames
    (Unmarshal : string -> ReadMeta.WarcMeta -> option ReadMeta.WarcMeta)
    (ids : gmap string bool) (frames : list framed) (blanks : list string)
    (tail : string) (sh : list nat) :
  forallb well_framed frames = true ->
  forallb blank_line blanks = true ->
  one_line tail = true ->
  ReadMeta.readMeta Unmarshal ids
    (Go.mkReader (fold_right frame_bytes (stream_of blanks tail) frames) Go.EOF sh)
  = handle_all Unmarshal ids (map record_of frames)
               (ReadMeta.mkState ReadMeta.zeroMeta "" []).
Proof.
  intros Hf Hb Ht. unfold ReadMeta.readMeta.
  apply readMeta_loop_frames; try assumption.
  cbn [Go.data]. pose proof (len_frames frames (stream_of blanks tail)). lia.
Qed.

Lemma readMeta_reads_frames_witness :
  let frame refers body :=
    mkFramed [CR; CR] ("WARC/1.0" ++ CR)%string
             [("WARC-Type: metadata" ++ CR)%string;
              ("WARC-Refers-To: " ++ refers ++ CR)%string;
              ("Content-Length: 1" ++ CR)%string]
             CR body in
  let frames := [frame "id-1" "A"; frame "id-2" "B"; frame "id-3" "C"]%string in
  let ids : gmap string bool := {[ "id-1"%string := true; "id-2"%string := true ]} in
  ReadMeta.readMeta example_Unmarshal ids
    (Go.mkReader (fold_right frame_bytes (stream_of [CR; CR] "junk") frames) Go.EOF [0%nat])
  = handle_all example_Unmarshal ids (map record_of frames)
               (ReadMeta.mkState ReadMeta.zeroMeta "" []).
Proof.
  intros frame frames ids.
  apply (readMeta_reads_frames example_Unmarshal ids frames [CR; CR] "junk" [0%nat]);
    vm_compute; reflexivity.
Defined.

(** X3. When only blank lines are left before the end of the stream,
    [nextRecord] returns the error of the stream: with [io.EOF], [readMeta]
    finishes normally having printed nothing more, and with any other error
    it is fatal. What stands after the last line feed is dropped unread. *)
Theorem nextRecord_at_end_of_stream
    (blanks : list string) (tail : string) (e : Go.error) (sh : list nat) :
  forallb blank_line blanks = true ->
  one_line tail = true ->
  let reader := Go.mkReader (stream_of blanks tail) e sh in
  ReadMeta.nextRecord reader = ReadMeta.Return_err e
  /\ forall Unmarshal ids fuel st,
       ReadMeta.readMeta_loop Unmarshal ids (S fuel) reader st
       = match e with
         | Go.EOF => ReadMeta.Finished (ReadMeta.out st)
         | _ => ReadMeta.Fatal e (ReadMeta.out st)
         end.
Proof.
  intros Hb Ht reader.
  assert (H : ReadMeta.nextRecord reader = ReadMeta.Return_err e)
    by (apply nextRecord_end; assumption).
  split; [exact H|]. intros Unmarshal ids fuel st.
  cbn [ReadMeta.readMeta_loop]. rewrite H. destruct e; reflexivity.
Qed.

Lemma nextRecord_at_end_of_stream_witness :
  let reader := Go.mkReader (stream_of [""; "  "; CR]%string "WARC/1.0") Go.EOF [] in
  ReadMeta.nextRecord reader = ReadMeta.Return_err Go.EOF
  /\ forall Unmarshal ids fuel st,
       ReadMeta.readMeta_loop Unmarshal ids (S fuel) reader st
       = ReadMeta.Finished (ReadMeta.out st).
Proof.
  apply (nextRecord_at_end_of_stream [""; "  "; CR]%string "WARC/1.0" Go.EOF []);
    reflexivity.
Defined.

(** X4. A line that is neither blank nor the marker where a record should
    start makes [nextRecord] panic, and [readMeta] with it. *)
Theorem nextRecord_malformed_first_line
    (blanks : list string) (l rest : string) (e : Go.error) (sh : list nat) :
  forallb blank_line blanks = true ->
  header_line l = true ->
  marker_line l = false ->
  let reader := Go.mkReader (stream_of (blanks ++ [l]) rest) e sh in
  ReadMeta.nextRecord reader = ReadMeta.Panics "Malformed first line"
  /\ forall Unmarshal ids fuel st,
       ReadMeta.readMeta_loop Unmarshal ids (S fuel) reader st
       = ReadMeta.Panicked "Malformed first line" (ReadMeta.out st).
Proof.
  intros Hb Hl Hm reader.
  assert (H : ReadMeta.nextRecord reader = ReadMeta.Panics "Malformed first line").
  { unfold ReadMeta.nextRecord, reader. cbv zeta. cbn [Go.data].
    rewrite stream_of_app.
    pose proof (len_stream_of blanks (stream_of [l] rest)) as Hlen.
    replace (S (Go.len (stream_of blanks (stream_of [l] rest))))
      with (length blanks + S (Go.len (stream_of blanks (stream_of [l] rest)) - length blanks))%nat
      by lia.
    rewrite find_marker_blanks by assumption.
    unfold header_line in Hl. apply andb_true_iff in Hl as [Hl1 Hl2].
    apply negb_true_iff in Hl2.
    unfold marker_line in Hm. rewrite Hl1 in Hm. cbn [andb] in Hm.
    cbn [stream_of fold_right ReadMeta.find_marker].
    rewrite (ReadString_line l rest e sh (one_line_cut _ Hl1)).
    change (Go.TrimSpace (l ++ String LF "")) with (trim_line l).
    rewrite Hm, Hl2. reflexivity. }
  split; [exact H|]. intros Unmarshal ids fuel st.
  cbn [ReadMeta.readMeta_loop]. rewrite H. reflexivity.
Qed.

Lemma nextRecord_malformed_first_line_witness :
  let reader := Go.mkReader (stream_of [""; "WARC/0.9"]%string "rest") Go.EOF [] in
  ReadMeta.nextRecord reader = ReadMeta.Panics "Malformed first line"
  /\ forall Unmarshal ids fuel st,
       ReadMeta.readMeta_loop Unmarshal ids (S fuel) reader st
       = ReadMeta.Panicked "Malformed first line" (ReadMeta.out st).
Proof.
  apply (nextRecord_malformed_first_line [""%string] "WARC/0.9" "rest" Go.EOF []);
    reflexivity.
Defined.

(** X5. A [Content-Length: ] line whose value is not a number within 64
    bits, after well-formed header lines: [nextRecord] returns the
    conversion error and [readMeta] ends fatally. *)
Theorem nextRecord_bad_content_length
    (blanks : list string) (m : string) (hdr : list string) (l rest : string)
    (e : Go.error) (sh : list nat) (n : Z) :
  forallb blank_line blanks = true ->
  marker_line m = true ->
  forallb header_line hdr = true ->
  declared_length (map trim_line hdr) 0 = Some n ->
  (length hdr < 100)%nat ->
  header_line l = true ->
  Go.HasPrefix (trim_line l) "Content-Length: " = true ->
  Go.Atoi (Go.slice_from 16 (trim_line l)) = None ->
  let reader := Go.mkReader (stream_of (blanks ++ m :: hdr ++ [l]) rest) e sh in
  ReadMeta.nextRecord reader = ReadMeta.Return_err Go.ErrSyntax
  /\ forall Unmarshal ids fuel st,
       ReadMeta.readMeta_loop Unmarshal ids (S fuel) reader st
       = ReadMeta.Fatal Go.ErrSyntax (ReadMeta.out st).
Proof.
  intros Hb Hm Hh Hd Hlen Hl Hp Ha reader.
  assert (H : ReadMeta.nextRecord reader = ReadMeta.Return_err Go.ErrSyntax).
  { unfold reader.
    replace (blanks ++ m :: hdr ++ [l]) with ((blanks ++ m :: hdr) ++ [l])
      by (rewrite <- app_assoc; reflexivity).
    rewrite stream_of_app.
    destruct (nextRecord_header blanks m hdr (stream_of [l] rest) e sh n Hb Hm Hh Hd Hlen)
      as (fuel & ->).
    unfold header_line in Hl. apply andb_true_iff in Hl as [Hl1 Hl2].
    apply negb_true_iff in Hl2.
    cbn [stream_of fold_right ReadMeta.read_header].
    rewrite (ReadString_line l rest e sh (one_line_cut _ Hl1)).
    change (Go.TrimSpace (l ++ String LF "")) with (trim_line l).
    rewrite Hl2. destruct (prefix_length_exclusive _ Hp) as [Ht _].
    rewrite Ht, Hp, Ha. reflexivity. }
  split; [exact H|]. intros Unmarshal ids fuel st.
  cbn [ReadMeta.readMeta_loop]. rewrite H. reflexivity.
Qed.

Lemma nextRecord_bad_content_length_witness :
  let reader :=
    Go.mkReader
      (stream_of ["WARC/1.0"; "WARC-Type: metadata"; "Content-Length: 12 bytes"]%string
                 "rest") Go.EOF [] in
  ReadMeta.nextRecord reader = ReadMeta.Return_err Go.ErrSyntax
  /\ forall Unmarshal ids fuel st,
       ReadMeta.readMeta_loop Unmarshal ids (S fuel) reader st
       = ReadMeta.Fatal Go.ErrSyntax (ReadMeta.out st).
Proof.
  apply (nextRecord_bad_content_length [] "WARC/1.0" ["WARC-Type: metadata"%string]
           "Content-Length: 12 bytes" "rest" Go.EOF [] 0); first [reflexivity|simpl; lia].
Defined.

(** X6. A header that declares a negative length makes [nextRecord] panic
    when it allocates the body. *)
Theorem nextRecord_negative_length
    (blanks : list string) (m : string) (hdr : list string) (rest : string)
    (e : Go.error) (sh : list nat) (n : Z) :
  forallb blank_line blanks = true ->
  marker_line m = true ->
  forallb header_line hdr = true ->
  declared_length (map trim_line hdr) 0 = Some n ->
  (length hdr < 100)%nat ->
  n < 0 ->
  header_ends (Go.mkReader rest e sh) = true ->
  let reader := Go.mkReader (stream_of (blanks ++ m :: hdr) rest) e sh in
  ReadMeta.nextRecord reader = ReadMeta.Panics "makeslice: len out of range"
  /\ forall Unmarshal ids fuel st,
       ReadMeta.readMeta_loop Unmarshal ids (S fuel) reader st
       = ReadMeta.Panicked "makeslice: len out of range" (ReadMeta.out st).
Proof.
  intros Hb Hm Hh Hd Hlen Hneg Hend reader.
  assert (H : ReadMeta.nextRecord reader = ReadMeta.Panics "makeslice: len out of range").
  { unfold reader.
    destruct (nextRecord_header blanks m hdr rest e sh n Hb Hm Hh Hd Hlen) as (fuel & ->).
    cbn [ReadMeta.read_header]. unfold header_ends in Hend.
    destruct (Go.ReadString (Go.mkReader rest e sh)) as [[line [err|]] r'].
    - destruct err; try discriminate. unfold after_header.
      cbn [ReadMeta.hs_rec ReadMeta.length_].
      replace (n =? 0) with false by (symmetry; apply Z.eqb_neq; lia).
      replace (n <? 0) with true by (symmetry; apply Z.ltb_lt; lia). reflexivity.
    - rewrite Hend. unfold after_header. cbn [ReadMeta.hs_rec ReadMeta.length_].
      replace (n =? 0) with false by (symmetry; apply Z.eqb_neq; lia).
      replace (n <? 0) with true by (symmetry; apply Z.ltb_lt; lia). reflexivity. }
  split; [exact H|]. intros Unmarshal ids fuel st.
  cbn [ReadMeta.readMeta_loop]. rewrite H. reflexivity.
Qed.

Lemma nextRecord_negative_length_witness :
  let reader :=
    Go.mkReader
      (stream_of ["WARC/1.0"; "WARC-Type: metadata"; "Content-Length: -5"; ""]%string
                 "hello") Go.EOF [] in
  ReadMeta.nextRecord reader = ReadMeta.Panics "makeslice: len out of range"
  /\ forall Unmarshal ids fuel st,
       ReadMeta.readMeta_loop Unmarshal ids (S fuel) reader st
       = ReadMeta.Panicked "makeslice: len out of range" (ReadMeta.out st).
Proof.
  apply (nextRecord_negative_length [] "WARC/1.0"
           ["WARC-Type: metadata"; "Content-Length: -5"]%string
           (String LF "hello") Go.EOF [] (-5)); first [reflexivity|simpl; lia].
Defined.

(** X7. The ceiling on the header: the hundredth header line after the
    marker makes [nextRecord] panic, whatever the header declares and
    whatever follows, so a record can have at most 99 of them. *)
Theorem nextRecord_header_ceiling
    (blanks : list string) (m : string) (hdr : list string) (rest : string)
    (e : Go.error) (sh : list nat) (n : Z) :
  forallb blank_line blanks = true ->
  marker_line m = true ->
  forallb header_line hdr = true ->
  declared_length (map trim_line hdr) 0 = Some n ->
  length hdr = 100%nat ->
  let reader := Go.mkReader (stream_of (blanks ++ m :: hdr) rest) e sh in
  ReadMeta.nextRecord reader = ReadMeta.Panics "Hit failsafe when reading header"
  /\ forall Unmarshal ids fuel st,
       ReadMeta.readMeta_loop Unmarshal ids (S fuel) reader st
       = ReadMeta.Panicked "Hit failsafe when reading header" (ReadMeta.out st).
Proof.
  intros Hb Hm Hh Hd Hlen reader.
  assert (H : ReadMeta.nextRecord reader
              = ReadMeta.Panics "Hit failsafe when reading header").
  { unfold reader.
    destruct hdr as [|l0 hdr0] using rev_ind; [discriminate|]. clear IHhdr0.
    rename hdr0 into hdr, l0 into l.
    rewrite length_app in Hlen. cbn [length] in Hlen.
    rewrite forallb_app in Hh. apply andb_true_iff in Hh as [Hh Hl].
    cbn [forallb] in Hl. rewrite andb_true_r in Hl.
    rewrite map_app, declared_length_app in Hd.
    destruct (declared_length (map trim_line hdr) 0) as [n0|] eqn:Hd0; [|discriminate].
    replace (blanks ++ m :: hdr ++ [l]) with ((blanks ++ m :: hdr) ++ [l])
      by (rewrite <- app_assoc; reflexivity).
    rewrite stream_of_app.
    destruct (nextRecord_header blanks m hdr (stream_of [l] rest) e sh n0 Hb Hm Hh Hd0
                ltac:(lia)) as (fuel & ->).
    unfold header_line in Hl. apply andb_true_iff in Hl as [Hl1 Hl2].
    apply negb_true_iff in Hl2.
    cbn [stream_of fold_right ReadMeta.read_header].
    rewrite (ReadString_line l rest e sh (one_line_cut _ Hl1)).
    change (Go.TrimSpace (l ++ String LF "")) with (trim_line l).
    rewrite Hl2.
    replace (100 - Z.of_nat (length hdr) - 1 =? 0) with true
      by (symmetry; apply Z.eqb_eq; lia).
    cbn [map declared_length] in Hd.
    destruct (Go.HasPrefix (trim_line l) "WARC-Type: "); [reflexivity|].
    destruct (Go.HasPrefix (trim_line l) "Content-Length: ").
    - destruct (Go.Atoi (Go.slice_from 16 (trim_line l))); [reflexivity|discriminate].
    - destruct (Go.HasPrefix (trim_line l) "WARC-Refers-To: "); reflexivity. }
  split; [exact H|]. intros Unmarshal ids fuel st.
  cbn [ReadMeta.readMeta_loop]. rewrite H. reflexivity.
Qed.

Lemma nextRecord_header_ceiling_witness :
  let reader :=
    Go.mkReader
      (stream_of ("WARC/1.0"%string :: "Content-Length: 5"%string
                  :: repeat "X-Field: 1"%string 99)
                 (String LF "hello")) Go.EOF [] in
  ReadMeta.nextRecord reader = ReadMeta.Panics "Hit failsafe when reading header"
  /\ forall Unmarshal ids fuel st,
       ReadMeta.readMeta_loop Unmarshal ids (S fuel) reader st
       = ReadMeta.Panicked "Hit failsafe when reading header" (ReadMeta.out st).
Proof.
  apply (nextRecord_header_ceiling [] "WARC/1.0"
           ("Content-Length: 5"%string :: repeat "X-Field: 1"%string 99)
           (String LF "hello") Go.EOF [] 5); vm_compute; reflexivity.
Defined.

(** ** What [readMeta] prints *)

Section GroupingFacts.
Import Go ReadMeta.

Variable Unmarshal : string -> WarcMeta -> option WarcMeta.
Variable ids : gmap string bool.

(** The ways the loop body leaves the state. *)
Lemma handle_cases (rec : record) (st : state) :
  match handle Unmarshal ids rec st with
  | Stop o => output_of o = out st
  | Next st' =>
    (out st' = out st /\ filename st' = filename st)
    \/ exists o l,
         (out st' = out st ++ [Pair o l] /\ filename st' = filename st)
         \/ (filename st = ""%string /\ filename st' <> ""%string
             /\ out st' = out st ++ [Name (filename st'); Pair o l])
         \/ (filename st <> ""%string /\ filename st' <> filename st
             /\ out st' = out st ++ [Blank; Name (filename st'); Pair o l])
  end.
Proof.
  unfold handle.
  destruct (negb (String.eqb (warcType rec) "metadata")); [left; auto|].
  destruct (String.eqb (refersTo rec) ""); [reflexivity|].
  destruct (negb (lookup_id ids (refersTo rec))); [left; auto|].
  destruct (Unmarshal (data_ rec) (meta st)) as [meta'|]; [|reflexivity].
  destruct (String.eqb (MetaType (HeaderMetaData (Envelope meta'))) "response");
    [|left; auto].
  destruct (negb (Status (ResponseInfo (ResponseMeta (PayloadMetaData_ (Envelope meta'))))
                  =? 200)); [left; auto|].
  destruct (Contains _ "text/html"); [|left; auto].
  right. eexists _, _. cbn [filename out].
  destruct (String.eqb_spec (filename st) (Filename (Container meta'))) as [He|He];
    cbn [negb filename out].
  - left. auto.
  - destruct (String.eqb_spec (filename st) "") as [Hf|Hf]; cbn [negb].
    + right. left. split; [assumption|]. split; [congruence|].
      rewrite <- app_assoc. reflexivity.
    + right. right. split; [assumption|]. split; [congruence|].
      rewrite <- !app_assoc. reflexivity.
Qed.

Lemma names_of_app (a b : list printed) : names_of (a ++ b) = names_of a ++ names_of b.
Proof.
  induction a as [|x a IH]; [reflexivity|]. destruct x; cbn [app names_of]; rewrite IH;
    reflexivity.
Qed.

Lemma grouped_app (a b : list printed) :
  grouped a = true -> grouped b = true ->
  (a = [] \/ exists o l, last a = Some (Pair o l)) ->
  grouped (a ++ b) = true.
Proof.
  intros Ha Hb Hend. induction a as [|x a IH]; [exact Hb|].
  cbn [app grouped] in *. apply andb_true_iff in Ha as [Hx Ha].
  destruct a as [|y a].
  - destruct Hend as [|(o & l & Hl)]; [discriminate|]. cbn in Hl. inversion Hl; subst.
    cbn [app]. rewrite Hb. reflexivity.
  - cbn [app head] in *. rewrite Hx. apply IH; [assumption|].
    right. destruct Hend as [|(o & l & Hl)]; [discriminate|].
    rewrite last_cons_cons in Hl. exists o, l. exact Hl.
Qed.

Lemma no_repeat_snoc (names : list string) (f : string) :
  no_repeat names ->
  (forall x, last names = Some x -> x <> f) ->
  no_repeat (names ++ [f]).
Proof.
  induction names as [|a names IH]; intros Hn Hl; [exact I|].
  destruct names as [|b names].
  - cbn. split; [|exact I]. apply Hl. reflexivity.
  - cbn [app no_repeat] in *. destruct Hn as [Hab Hn]. split; [assumption|].
    apply IH; [assumption|]. intros x Hx. apply Hl. rewrite last_cons.
    cbn [app] in Hx. rewrite Hx. reflexivity.
Qed.

Lemma handle_grouping (rec : record) (st st' : state) :
  grouping st -> handle Unmarshal ids rec st = Next st' -> grouping st'.
Proof.
  intros (Hg & Hend & Hn & Hf & Hh) Hs.
  pose proof (handle_cases rec st) as Hc. rewrite Hs in Hc.
  destruct Hc as [[Ho Hfn]|(o & l & [[Ho Hfn]|[(Hfe & Hne & Ho)|(Hfe & Hne & Ho)]])];
    unfold grouping; rewrite Ho.
  - rewrite Hfn. auto.
  - rewrite names_of_app, app_nil_r, Hfn, last_snoc.
    repeat split; eauto using grouped_app.
    destruct (out st); [discriminate|assumption].
  - rewrite names_of_app.
    change (names_of [Name (filename st'); Pair o l]) with [filename st'].
    rewrite last_snoc.
    replace (out st ++ [Name (filename st'); Pair o l])
      with ((out st ++ [Name (filename st')]) ++ [Pair o l])
      by (rewrite <- app_assoc; reflexivity).
    rewrite last_snoc.
    repeat split; eauto.
    + rewrite <- app_assoc. apply grouped_app; auto.
    + apply no_repeat_snoc; [assumption|]. intros x Hx. rewrite Hx in Hf. congruence.
    + destruct (out st); [discriminate|assumption].
  - rewrite names_of_app.
    change (names_of [Blank; Name (filename st'); Pair o l]) with [filename st'].
    rewrite last_snoc.
    replace (out st ++ [Blank; Name (filename st'); Pair o l])
      with ((out st ++ [Blank; Name (filename st')]) ++ [Pair o l])
      by (rewrite <- app_assoc; reflexivity).
    rewrite last_snoc.
    repeat split; eauto.
    + rewrite <- app_assoc. apply grouped_app; auto.
    + apply no_repeat_snoc; [assumption|]. intros x Hx. rewrite Hx in Hf. congruence.
    + destruct (out st) as [|p o']; [|assumption].
      cbn in Hf. congruence.
Qed.

Lemma readMeta_loop_grouping (fuel : nat) (reader : Reader) (st : state) :
  grouping st ->
  let o := output_of (readMeta_loop Unmarshal ids fuel reader st) in
  grouped o = true /\ no_repeat (names_of o) /\ head o <> Some Blank.
Proof.
  revert reader st. induction fuel as [|fuel IH]; intros reader st Hst.
  - cbn. repeat split. discriminate.
  - cbn [readMeta_loop].
    destruct Hst as (Hg & Hend & Hn & Hf & Hh).
    destruct (nextRecord reader) as [[rec reader']|e|msg|].
    + pose proof (handle_cases rec st) as Hc.
      destruct (handle Unmarshal ids rec st) as [st'|o] eqn:Hs.
      * apply IH. eapply handle_grouping; [|exact Hs]. unfold grouping. auto.
      * cbv zeta. rewrite Hc. auto.
    + destruct e; cbn; auto.
    + cbn. auto.
    + cbn. repeat split. discriminate.
Qed.

End GroupingFacts.

(** X8. Whatever the stream and however [readMeta] ends, what it has printed
    is grouped: a blank line is always followed by a file name and a file
    name by an offset pair, the output does not start with a blank line, and
    two file names in a row are never the same. *)
Theorem readMeta_output_grouped
    (Unmarshal : string -> ReadMeta.WarcMeta -> option ReadMeta.WarcMeta)
    (ids : gmap string bool) (reader : Go.Reader) :
  let o := output_of (ReadMeta.readMeta Unmarshal ids reader) in
  grouped o = true /\ no_repeat (names_of o) /\ head o <> Some ReadMeta.Blank.
Proof.
  unfold ReadMeta.readMeta. apply readMeta_loop_grouping.
  unfold grouping. cbn. repeat split; auto.
Qed.

(** ** The sets read line by line: [getRecordSubset] and [learnChinese] *)

Section SetFacts.
Import Go ReadMeta.

Lemma forallb_one_line (raw : list string) :
  forallb one_line raw = true -> Forall (fun l => cut_line l = None) raw.
Proof.
  intros H. apply Forall_forall. intros l Hl. apply one_line_cut.
  rewrite List.forallb_forall in H. apply H. apply list_elem_of_In. exact Hl.
Qed.

Lemma getRecordSubset_loop_lines (raw : list string) (tail : string) (e : error)
      (sh : list nat) (fuel : nat) (set : gmap string bool) :
  forallb one_line raw = true ->
  one_line tail = true ->
  (length raw < fuel)%nat ->
  getRecordSubset_loop fuel (mkReader (stream_of raw tail) e sh) set
  = match e with
    | EOF => Go_on (fold_left (fun s l => <[trim_line l := true]> s) raw set)
    | _ => Return_err e
    end.
Proof.
  intros Hraw Htail. revert fuel set.
  induction raw as [|l raw IH]; intros fuel set Hfuel;
    (destruct fuel as [|fuel]; [cbn [length] in Hfuel; lia|]).
  - cbn [stream_of fold_right getRecordSubset_loop fold_left].
    rewrite (ReadString_tail tail e sh (one_line_cut _ Htail)). destruct e; reflexivity.
  - cbn [forallb] in Hraw. apply andb_true_iff in Hraw as [Hl Hraw].
    cbn [stream_of fold_right getRecordSubset_loop fold_left].
    rewrite (ReadString_line l _ e sh (one_line_cut _ Hl)).
    apply IH; [assumption|]. cbn [length] in Hfuel. lia.
Qed.

Lemma inserted_ids (raw : list string) (set : gmap string bool) (k : string) :
  lookup_id (fold_left (fun s l => <[trim_line l := true]> s) raw set) k = true
  <-> In k (map trim_line raw) \/ lookup_id set k = true.
Proof.
  revert set. induction raw as [|l raw IH]; intros set; cbn [fold_left map In].
  - tauto.
  - rewrite IH. unfold lookup_id at 1.
    destruct (decide (trim_line l = k)) as [->|Hne].
    + rewrite lookup_insert_eq. cbn. tauto.
    + rewrite lookup_insert_ne by assumption. fold (lookup_id set k). tauto.
Qed.

Lemma learnChinese_loop_lines (raw : list string) (tail : string) (e : error)
      (sh : list nat) (fuel : nat) (cc : gmap Z bool) :
  forallb one_line raw = true ->
  one_line tail = true ->
  (length raw < fuel)%nat ->
  Seed.learnChinese_loop fuel (mkReader (stream_of raw tail) e sh) cc
  = match e with
    | EOF => Go_on (fold_left (fun s ru => <[ru := true]> s)
                              (first_runes (map trim_line raw)) cc)
    | _ => Panics "learnChinese: read error"
    end.
Proof.
  intros Hraw Htail. revert fuel cc.
  induction raw as [|l raw IH]; intros fuel cc Hfuel;
    (destruct fuel as [|fuel]; [cbn [length] in Hfuel; lia|]).
  - cbn [stream_of fold_right Seed.learnChinese_loop fold_left].
    rewrite (ReadString_tail tail e sh (one_line_cut _ Htail)). destruct e; reflexivity.
  - cbn [forallb] in Hraw. apply andb_true_iff in Hraw as [Hl Hraw].
    cbn [stream_of fold_right Seed.learnChinese_loop].
    rewrite (ReadString_line l _ e sh (one_line_cut _ Hl)).
    change (TrimSpace (l ++ String LF "")) with (trim_line l).
    cbn [map]. unfold first_runes. cbn [flat_map]. fold (first_runes (map trim_line raw)).
    destruct (range_string (trim_line l)) as [|[k ru] rs].
    + cbn [app]. apply IH; [assumption|]. cbn [length] in Hfuel. lia.
    + cbn [app fold_left]. apply IH; [assumption|]. cbn [length] in Hfuel. lia.
Qed.

Lemma inserted_runes (rs : list Z) (cc : gmap Z bool) (ru : Z) :
  DetectChinese.is_chinese (fold_left (fun s r => <[r := true]> s) rs cc) ru = true
  <-> In ru rs \/ DetectChinese.is_chinese cc ru = true.
Proof.
  revert cc. induction rs as [|r rs IH]; intros cc; cbn [fold_left In].
  - tauto.
  - rewrite IH. unfold DetectChinese.is_chinese at 1.
    destruct (decide (r = ru)) as [->|Hne].
    + rewrite lookup_insert_eq. rewrite bool_decide_eq_true_2 by eauto. tauto.
    + rewrite lookup_insert_ne by assumption. fold (DetectChinese.is_chinese cc ru). tauto.
Qed.

End SetFacts.

(** X9. [getRecordSubset] on an input given line by line: at [io.EOF] the set
    holds exactly the trimmed lines that a line feed ends (what follows the
    last line feed is dropped), and any other error is returned as fatal. *)
Theorem getRecordSubset_holds_the_lines
    (raw : list string) (tail : string) (e : Go.error) (sh : list nat) :
  forallb one_line raw = true ->
  one_line tail = true ->
  match e with
  | Go.EOF =>
    exists ids,
      ReadMeta.getRecordSubset (Go.mkReader (stream_of raw tail) e sh) = ReadMeta.Go_on ids
      /\ forall k, ReadMeta.lookup_id ids k = true <-> In k (map trim_line raw)
  | _ => ReadMeta.getRecordSubset (Go.mkReader (stream_of raw tail) e sh)
         = ReadMeta.Return_err e
  end.
Proof.
  intros Hraw Htail. unfold ReadMeta.getRecordSubset. cbn [Go.data].
  rewrite getRecordSubset_loop_lines; try assumption.
  2:{ pose proof (len_stream_of raw tail). lia. }
  destruct e; try reflexivity.
  eexists. split; [reflexivity|]. intros k. rewrite inserted_ids.
  unfold ReadMeta.lookup_id at 1. rewrite lookup_empty. cbn. intuition discriminate.
Qed.

Lemma getRecordSubset_holds_the_lines_witness :
  exists ids,
    ReadMeta.getRecordSubset
      (Go.mkReader (stream_of ["<urn:a> "; "<urn:b>"]%string "<urn:c>") Go.EOF [])
    = ReadMeta.Go_on ids
    /\ forall k, ReadMeta.lookup_id ids k = true
                 <-> In k (map trim_line ["<urn:a> "; "<urn:b>"]%string).
Proof.
  apply (getRecordSubset_holds_the_lines ["<urn:a> "; "<urn:b>"]%string "<urn:c>" Go.EOF []);
    reflexivity.
Defined.

(** X10. [learnChinese] on a file given line by line: at [io.EOF] the map
    holds exactly the first rune of every trimmed line that is not empty
    and that a line feed ends; any other error is a panic. *)
Theorem learnChinese_holds_first_runes
    (raw : list string) (tail : string) (e : Go.error) (sh : list nat) :
  forallb one_line raw = true ->
  one_line tail = true ->
  match e with
  | Go.EOF =>
    exists chinese_chars,
      Seed.learnChinese (Go.mkReader (stream_of raw tail) e sh) = ReadMeta.Go_on chinese_chars
      /\ forall ru, DetectChinese.is_chinese chinese_chars ru = true
                    <-> In ru (first_runes (map trim_line raw))
  | _ => exists msg, Seed.learnChinese (Go.mkReader (stream_of raw tail) e sh)
                     = ReadMeta.Panics msg
  end.
Proof.
  intros Hraw Htail. unfold Seed.learnChinese. cbn [Go.data].
  rewrite learnChinese_loop_lines; try assumption.
  2:{ pose proof (len_stream_of raw tail). lia. }
  destruct e; try (eexists; reflexivity).
  eexists. split; [reflexivity|]. intros ru. rewrite inserted_runes.
  unfold DetectChinese.is_chinese at 1. rewrite lookup_empty.
  rewrite bool_decide_eq_false_2 by (intros [? ?]; discriminate).
  intuition discriminate.
Qed.

Lemma learnChinese_holds_first_runes_witness :
  exists chinese_chars,
    Seed.learnChinese
      (Go.mkReader (stream_of [(zhong ++ " 1")%string; ""%string; ("  " ++ e_acute)%string] zhong)
                   Go.EOF [])
    = ReadMeta.Go_on chinese_chars
    /\ forall ru, DetectChinese.is_chinese chinese_chars ru = true
                  <-> In ru (first_runes
                               (map trim_line
                                    [(zhong ++ " 1")%string; ""%string;
                                     ("  " ++ e_acute)%string])).
Proof.
  apply (learnChinese_holds_first_runes
           [(zhong ++ " 1")%string; ""%string; ("  " ++ e_acute)%string] zhong Go.EOF []);
    reflexivity.
Defined.

(** ** The dispatcher and the collector together *)

Section PipelineFacts.
Import Go Dispatch.

Lemma take_lines_markers (ls : list string) (d : dispatched) :
  responses_to_expect (fold_left take_line ls d)
  = (responses_to_expect d + length (List.filter (fun s => String.eqb s marker) ls))%nat.
Proof.
  revert d. induction ls as [|s ls IH]; intros d; cbn [fold_left List.filter].
  - cbn. lia.
  - rewrite IH. unfold take_line. destruct (String.eqb s marker); cbn; lia.
Qed.

Variable blank_first : bool.

Lemma receive_shown (c : collector) (ev : event) :
  printed (receive blank_first c ev) = printed c ++ shown blank_first ev
  /\ received_count (receive blank_first c ev)
     = received_count c + Z.of_nat (results_in [ev]).
Proof.
  destruct ev as [response|k]; cbn.
  - destruct (String.eqb response ""); [|destruct blank_first];
      cbn; rewrite ?app_nil_r; split; first [reflexivity|lia].
  - rewrite app_nil_r. split; [reflexivity|lia].
Qed.

Lemma results_in_cons (ev : event) (events : list event) :
  results_in (ev :: events) = (results_in [ev] + results_in events)%nat.
Proof. unfold results_in. cbn. destruct ev; reflexivity. Qed.

Lemma printResults_from_trace (events : list event) (c : collector) :
  let r := printResults_from blank_first c events in
  exists consumed,
    events = consumed ++ unread_of r
    /\ printed (collector_of r) = printed c ++ flat_map (shown blank_first) consumed
    /\ received_count (collector_of r)
       = received_count c + Z.of_nat (results_in consumed).
Proof.
  revert c. induction events as [|ev events IH]; intros c.
  - exists []. cbn. rewrite app_nil_r. repeat split. lia.
  - cbn [printResults_from]. destruct (receive_shown c ev) as [Hp1 Hc1].
    destruct (done (receive blank_first c ev)) eqn:Hd.
    + exists [ev]. cbn [unread_of collector_of app flat_map]. rewrite app_nil_r.
      auto.
    + destruct (IH (receive blank_first c ev)) as (consumed & He & Hp & Hc).
      exists (ev :: consumed). cbv zeta. split; [cbn [app]; f_equal; exact He|].
      rewrite Hp, Hc, Hp1, Hc1, (results_in_cons ev consumed). cbn [flat_map].
      rewrite <- app_assoc. split; [reflexivity|lia].
Qed.

Lemma printResults_from_no_total (events : list event) (c : collector) :
  expecting c <= 0 ->
  Forall (fun e => match e with Count k => k <= 0 | Result _ => True end) events ->
  exists c', printResults_from blank_first c events = Waiting c'.
Proof.
  intros Hc Hev. revert c Hc. induction Hev as [|ev events Hk Hev IH]; intros c Hc.
  - eexists. reflexivity.
  - cbn [printResults_from].
    assert (He : expecting (receive blank_first c ev) <= 0)
      by (destruct ev; cbn; assumption).
    unfold done. replace (0 <? expecting (receive blank_first c ev)) with false
      by (symmetry; apply Z.ltb_ge; exact He).
    cbn [andb]. apply IH. exact He.
Qed.

End PipelineFacts.

(** X11. On any input given line by line, [readWarc] launches one task for
    each marker line it reads and announces that number; the lines of the
    tasks followed by the lines left in [rec] are the trimmed lines of the
    input in order, so no line is lost or handed to two tasks. Any read
    error ends the loop like [io.EOF]. *)
Theorem readWarc_counts_markers
    (raw : list string) (tail : string) (e : Go.error) (sh : list nat) :
  forallb one_line raw = true ->
  one_line tail = true ->
  exists d,
    Dispatch.readWarc (Go.mkReader (stream_of raw tail) e sh) = Some d
    /\ Dispatch.responses_to_expect d
       = length (List.filter (fun s => String.eqb s Dispatch.marker) (map trim_line raw))
    /\ length (Dispatch.launched d) = Dispatch.responses_to_expect d
    /\ concat (Dispatch.launched d) ++ Dispatch.rec_left d = map trim_line raw.
Proof.
  intros Hraw Htail. unfold Dispatch.readWarc.
  rewrite readWarc_loop_lines;
    [|apply forallb_one_line; assumption|apply one_line_cut; assumption|].
  2:{ cbn [Go.data]. pose proof (len_stream_of raw tail). lia. }
  eexists. split; [reflexivity|].
  split; [apply take_lines_markers|].
  split; [symmetry; apply take_lines_count; reflexivity|].
  apply take_lines_concat.
Qed.

Lemma readWarc_counts_markers_witness :
  exists d,
    Dispatch.readWarc
      (Go.mkReader (stream_of ["WARC/1.0"; "a"; " WARC/1.0 "; "b"]%string "c") Go.ErrIO [])
    = Some d
    /\ Dispatch.responses_to_expect d
       = length (List.filter (fun s => String.eqb s Dispatch.marker)
                             (map trim_line ["WARC/1.0"; "a"; " WARC/1.0 "; "b"]%string))
    /\ length (Dispatch.launched d) = Dispatch.responses_to_expect d
    /\ concat (Dispatch.launched d) ++ Dispatch.rec_left d
       = map trim_line ["WARC/1.0"; "a"; " WARC/1.0 "; "b"]%string.
Proof.
  apply (readWarc_counts_markers ["WARC/1.0"; "a"; " WARC/1.0 "; "b"]%string "c"
                                 Go.ErrIO []); reflexivity.
Defined.

(** X12. An input without a marker line, the empty input included, launches
    no task and announces the total 0; the collector, which leaves its loop
    only for a positive total, then stays in its loop whatever it receives,
    and never signals completion. *)
Theorem no_marker_never_ends
    (raw : list string) (tail : string) (e : Go.error) (sh : list nat)
    (blank_first : bool) :
  forallb one_line raw = true ->
  one_line tail = true ->
  forallb (fun l => negb (String.eqb (trim_line l) Dispatch.marker)) raw = true ->
  exists d,
    Dispatch.readWarc (Go.mkReader (stream_of raw tail) e sh) = Some d
    /\ Dispatch.launched d = []
    /\ Dispatch.responses_to_expect d = 0%nat
    /\ forall results,
       exists c,
         Dispatch.printResults blank_first
           (map Dispatch.Result results
            ++ [Dispatch.Count (Z.of_nat (Dispatch.responses_to_expect d))])
         = Dispatch.Waiting c.
Proof.
  intros Hraw Htail Hno. unfold Dispatch.readWarc.
  rewrite readWarc_loop_lines;
    [|apply forallb_one_line; assumption|apply one_line_cut; assumption|].
  2:{ cbn [Go.data]. pose proof (len_stream_of raw tail). lia. }
  eexists. split; [reflexivity|].
  rewrite take_lines_no_marker.
  2:{ apply Forall_forall. intros s Hs. apply list_elem_of_In, in_map_iff in Hs.
      destruct Hs as (l & <- & Hl). rewrite List.forallb_forall in Hno.
      specialize (Hno l Hl). apply negb_true_iff, String.eqb_neq in Hno. exact Hno. }
  cbn [Dispatch.launched Dispatch.responses_to_expect].
  repeat split. intros results. apply printResults_from_no_total; [cbn; lia|].
  apply Forall_app. split.
  - apply Forall_forall. intros ev Hev. apply list_elem_of_In, in_map_iff in Hev.
    destruct Hev as (x & <- & _). exact I.
  - repeat constructor. cbn. lia.
Qed.

Lemma no_marker_never_ends_witness :
  exists d,
    Dispatch.readWarc (Go.mkReader (stream_of [] "") Go.EOF []) = Some d
    /\ Dispatch.launched d = []
    /\ Dispatch.responses_to_expect d = 0%nat
    /\ forall results,
       exists c,
         Dispatch.printResults false
           (map Dispatch.Result results
            ++ [Dispatch.Count (Z.of_nat (Dispatch.responses_to_expect d))])
         = Dispatch.Waiting c.
Proof.
  apply (no_marker_never_ends [] "" Go.EOF [] false); reflexivity.
Defined.

(** X13. Whatever is delivered, [printResults] prints exactly the non-empty
    responses it received, in the order they arrived (each after an empty
    line in the rune-index program), and its count is one more than the
    number of results received. *)
Theorem printResults_prints_in_arrival_order
    (blank_first : bool) (events : list Dispatch.event) :
  let r := Dispatch.printResults blank_first events in
  exists consumed,
    events = consumed ++ unread_of r
    /\ Dispatch.printed (collector_of r) = flat_map (shown blank_first) consumed
    /\ Dispatch.received_count (collector_of r) = 1 + Z.of_nat (results_in consumed).
Proof.
  exact (printResults_from_trace blank_first events Dispatch.collector_init).
Qed.

(** ** The records of the classifiers *)

Section RecordFacts.
Import Go.

Lemma id_line_is_metadata (line : string) :
  HasPrefix line "WARC-Record-ID: " = true ->
  String.eqb line "" = false /\ HasPrefix line "WARC" = true
  /\ String.eqb line "WARC-Type: warcinfo" = false.
Proof.
  unfold HasPrefix. intros H.
  do 6 (destruct line as [|? line]; [discriminate H|];
        cbn [String.prefix] in H;
        match type of H with
        | (if ascii_dec ?a ?b then _ else _) = true =>
          destruct (ascii_dec a b) as [<-|]; [|discriminate H]
        end).
  repeat split.
Qed.

Lemma interpret_lines_warcinfo (r : list string) (i : string) (b : list string) :
  is_warcinfo r = true -> DetectChinese.interpret_lines r i b = None.
Proof.
  revert i b. induction r as [|line r IH]; intros i b H; [discriminate|].
  cbn [is_warcinfo existsb] in H. cbn [DetectChinese.interpret_lines].
  destruct (String.eqb_spec line "WARC-Type: warcinfo") as [->|Hne].
  - reflexivity.
  - cbn [orb] in H. fold (is_warcinfo r) in H.
    destruct (String.eqb line ""); [apply IH; assumption|].
    destruct (HasPrefix line "WARC").
    + destruct (HasPrefix line "WARC-Record-ID: "); apply IH; assumption.
    + destruct (HasPrefix line "Content-"); apply IH; assumption.
Qed.

Lemma interpret_lines_record (r : list string) (i : string) (b : list string) :
  is_warcinfo r = false ->
  DetectChinese.interpret_lines r i b
  = Some (last_field "WARC-Record-ID: " r i, b ++ List.filter is_body_line r).
Proof.
  revert i b. induction r as [|line r IH]; intros i b Hw.
  - cbn. rewrite app_nil_r. reflexivity.
  - cbn [is_warcinfo existsb] in Hw. apply orb_false_iff in Hw as [Hw1 Hw].
    fold (is_warcinfo r) in Hw.
    cbn [DetectChinese.interpret_lines List.filter]. unfold last_field. cbn [fold_left].
    fold (last_field "WARC-Record-ID: "). unfold is_body_line. rewrite Hw1.
    destruct (HasPrefix line "WARC-Record-ID: ") eqn:Hid.
    + destruct (id_line_is_metadata _ Hid) as (He & Hp & _). rewrite He, Hp.
      cbn [negb andb]. apply IH. assumption.
    + destruct (String.eqb line ""); cbn [negb andb]; [apply IH; assumption|].
      destruct (HasPrefix line "WARC"); cbn [negb andb]; [apply IH; assumption|].
      destruct (HasPrefix line "Content-"); cbn [negb andb]; [apply IH; assumption|].
      rewrite IH by assumption. rewrite <- app_assoc. reflexivity.
Qed.

Lemma substring_len (n : nat) (s : string) :
  len (String.substring 0 n s) = Nat.min n (len s).
Proof.
  revert s. induction n as [|n IH]; intros s.
  - destruct s; reflexivity.
  - destruct s as [|c s]; [reflexivity|]. cbn [String.substring]. unfold len in *.
    cbn [String.length]. rewrite IH. reflexivity.
Qed.

(** [len(line) >= k && line[:k] == pre] is [strings.HasPrefix(line, pre)]
    when [pre] has [k] bytes. *)
Lemma starts_HasPrefix (line pre : string) :
  DetectRunes.starts line (len pre) pre = HasPrefix line pre.
Proof.
  unfold DetectRunes.starts, HasPrefix.
  destruct (String.prefix pre line) eqn:Hp.
  - apply String.prefix_correct in Hp. fold (len pre) in Hp.
    rewrite Hp, String.eqb_refl, andb_true_r. apply Nat.leb_le.
    pose proof (substring_len (len pre) line) as Hl. rewrite Hp in Hl. lia.
  - apply andb_false_iff. right. apply String.eqb_neq. intros He.
    apply String.prefix_correct in He. congruence.
Qed.

Lemma recordBody_lines_spec (r : list string) (b : list string) :
  DetectRunes.recordBody_lines r b
  = if is_warcinfo r then None else Some (b ++ List.filter is_body_line r).
Proof.
  revert b. induction r as [|line r IH]; intros b.
  - cbn. rewrite app_nil_r. reflexivity.
  - cbn [DetectRunes.recordBody_lines is_warcinfo existsb List.filter].
    fold (is_warcinfo r). unfold is_body_line at 1.
    change (DetectRunes.starts line 4 "WARC")
      with (DetectRunes.starts line (len "WARC") "WARC").
    change (DetectRunes.starts line 8 "Content-")
      with (DetectRunes.starts line (len "Content-") "Content-").
    rewrite !starts_HasPrefix.
    destruct (String.eqb_spec line "") as [->|Hne]; [cbn; apply IH|].
    destruct (HasPrefix line "WARC") eqn:Hp.
    + destruct (String.eqb line "WARC-Type: warcinfo"); [reflexivity|]. cbn. apply IH.
    + destruct (String.eqb_spec line "WARC-Type: warcinfo") as [->|_]; [discriminate Hp|].
      cbn [orb negb andb].
      destruct (HasPrefix line "Content-"); cbn [negb]; [apply IH|].
      rewrite IH. destruct (is_warcinfo r); [reflexivity|].
      rewrite <- app_assoc. reflexivity.
Qed.

Lemma interpret_cases (r : list string) :
  DetectChinese.interpret r
  = if is_warcinfo r then Ret None
    else match List.filter is_body_line r with
         | [] => Ret None
         | _ :: _ =>
           if String.eqb (last_id r) "" then Panic "Record missing ID"
           else Ret (Some (DetectChinese.mkWarc [] (last_id r) (reconstructed_body r)))
         end.
Proof.
  unfold DetectChinese.interpret.
  destruct (is_warcinfo r) eqn:Hw.
  - rewrite interpret_lines_warcinfo by assumption. reflexivity.
  - rewrite interpret_lines_record by assumption. cbn [app].
    unfold reconstructed_body, last_id.
    destruct (List.filter is_body_line r); reflexivity.
Qed.

Lemma recordBody_cases (r : list string) :
  DetectRunes.recordBody r
  = if is_warcinfo r then None else Some (List.filter is_body_line r).
Proof. unfold DetectRunes.recordBody. rewrite recordBody_lines_spec. reflexivity. Qed.

End RecordFacts.

(** X14. What [interpret] returns for any list of lines: nil for a record
    with the line [WARC-Type: warcinfo], wherever it stands, and for a
    record without body lines; otherwise the record whose identifier is
    what follows [WARC-Record-ID: ] in the last such line and whose body is
    the body lines joined by single spaces, or a panic when that identifier
    is empty. *)
Theorem interpret_spec (r : list string) :
  DetectChinese.interpret r
  = if is_warcinfo r then Go.Ret None
    else match List.filter is_body_line r with
         | [] => Go.Ret None
         | _ :: _ =>
           if String.eqb (last_id r) "" then Go.Panic "Record missing ID"
           else Go.Ret (Some (DetectChinese.mkWarc [] (last_id r) (reconstructed_body r)))
         end.
Proof. exact (interpret_cases r). Qed.

(** X15. [recordBody] of the rune-index program returns nil for a record with
    the line [WARC-Type: warcinfo] and otherwise the body lines in order:
    its tests on [line[:4]] and [line[:8]] are the prefix tests of
    [interpret]. So for a record [interpret] accepts, both programs
    classify the same body text. *)
Theorem recordBody_spec (r : list string) :
  DetectRunes.recordBody r
  = (if is_warcinfo r then None else Some (List.filter is_body_line r))
  /\ forall warc,
       DetectChinese.interpret r = Go.Ret (Some warc) ->
       exists body,
         DetectRunes.recordBody r = Some body
         /\ Go.Join body " " = DetectChinese.body warc.
Proof.
  pose proof (recordBody_cases r) as H.
  split; [exact H|]. intros warc Hi. rewrite H. rewrite interpret_cases in Hi.
  destruct (is_warcinfo r); [discriminate|].
  eexists. split; [reflexivity|].
  destruct (List.filter is_body_line r) eqn:Hf; [discriminate|].
  destruct (String.eqb (last_id r) ""); [discriminate|].
  inversion Hi. cbn. unfold reconstructed_body. rewrite Hf. reflexivity.
Qed.

Lemma recordBody_spec_witness :
  let r := ["WARC/1.0"; "WARC-Record-ID: <urn:x>"; "Content-Length: 3"; ""; "hello"; "";
            "world"]%string in
  DetectRunes.recordBody r
  = (if is_warcinfo r then None else Some (List.filter is_body_line r))
  /\ exists body,
       DetectRunes.recordBody r = Some body
       /\ Go.Join body " " = "hello world"%string.
Proof.
  intros r. split.
  - exact (proj1 (recordBody_spec r)).
  - apply (proj2 (recordBody_spec r) (DetectChinese.mkWarc [] "<urn:x>" "hello world")).
    reflexivity.
Defined.

(** ** Bodies of one kind, empty bodies, and what [process] never does *)

Section UniformFacts.
Import Go.

Variable chinese_chars : gmap Z bool.

Lemma members_all (rs : list Z) :
  Forall (fun ru => DetectChinese.is_chinese chinese_chars ru = true) rs ->
  members chinese_chars rs = length rs.
Proof.
  intros H. unfold members. induction H as [|ru rs Hru _ IH]; [reflexivity|].
  cbn [List.filter]. rewrite Hru. cbn [length]. rewrite IH. reflexivity.
Qed.

Lemma members_none (rs : list Z) :
  Forall (fun ru => DetectChinese.is_chinese chinese_chars ru = false) rs ->
  members chinese_chars rs = 0%nat.
Proof.
  intros H. unfold members. induction H as [|ru rs Hru _ IH]; [reflexivity|].
  cbn [List.filter]. rewrite Hru. exact IH.
Qed.

Lemma rune_count_samples_all (runes : list Z) (idxs : list nat) (cnt : nat) :
  Forall (fun ru => DetectChinese.is_chinese chinese_chars ru = true) runes ->
  Forall (fun i => (i < length runes)%nat) idxs ->
  DetectRunes.count_samples chinese_chars runes idxs (fcount cnt)
  = Ret (fcount (cnt + length idxs)).
Proof.
  intros Hall Hin. revert cnt. induction Hin as [|i idxs Hi _ IH]; intros cnt.
  - cbn. rewrite Nat.add_0_r. reflexivity.
  - cbn [DetectRunes.count_samples].
    destruct (lookup_lt_is_Some_2 runes i Hi) as [ru Hru]. rewrite Hru.
    rewrite Forall_lookup in Hall. rewrite rune_is_chinese, (Hall _ _ Hru).
    change (fcount cnt + 1)%float with (fcount (S cnt)). rewrite IH.
    cbn [length]. f_equal. f_equal. lia.
Qed.

Lemma rune_count_samples_none (runes : list Z) (idxs : list nat) (c : float) :
  Forall (fun ru => DetectChinese.is_chinese chinese_chars ru = false) runes ->
  Forall (fun i => (i < length runes)%nat) idxs ->
  DetectRunes.count_samples chinese_chars runes idxs c = Ret c.
Proof.
  intros Hnone Hin. induction Hin as [|i idxs Hi _ IH]; [reflexivity|].
  cbn [DetectRunes.count_samples].
  destruct (lookup_lt_is_Some_2 runes i Hi) as [ru Hru]. rewrite Hru.
  rewrite Forall_lookup in Hnone. rewrite rune_is_chinese, (Hnone _ _ Hru). exact IH.
Qed.

Lemma byte_count_samples_none (samples : list nat) (n : nat) (rs : list (nat * Z))
      (j m j' m' : nat) (c c' : float) :
  Forall (fun ru => DetectChinese.is_chinese chinese_chars ru = false) (map snd rs) ->
  DetectChinese.count_samples chinese_chars samples n rs j m c = Ret (j', m', c') ->
  c' = c.
Proof.
  revert j m. induction rs as [|[k ru] rs IH]; intros j m Hnone Hrun.
  - cbn in Hrun. inversion Hrun. reflexivity.
  - cbn [map snd] in Hnone. inversion Hnone as [|? ? Hru Hrest]; subst.
    cbn [DetectChinese.count_samples] in Hrun.
    destruct (samples !! j); [|discriminate].
    destruct (Z.of_nat n0 <? Z.of_nat k + RuneLen ru).
    + rewrite Hru in Hrun.
      destruct (DetectChinese.skip_duplicates _ _ _ _ _ =? n)%nat.
      * inversion Hrun. reflexivity.
      * eapply IH; eassumption.
    + eapply IH; eassumption.
Qed.

(** The sampling branch of the rune-index program, from what its loop
    returns. *)
Lemma rune_process_sampled_from (r : list string) (rand : nat -> N) (body : list string)
      (c : float) :
  DetectRunes.recordBody r = Some body ->
  (200 < rune_count (Join body " "))%nat ->
  DetectRunes.count_samples chinese_chars (map snd (range_string (Join body " ")))
    (draw_indices rand 200 (rune_count (Join body " "))) 0%float = Ret c ->
  DetectRunes.process chinese_chars r rand
  = Ret (conclude DetectRunes.threshold Sampled 200 200 c 200 (Join body " ")).
Proof.
  intros Hb Hlen Hrun. unfold DetectRunes.process. rewrite Hb, length_map.
  fold (rune_count (Join body " ")).
  replace (rune_count (Join body " ") <=? DetectRunes.n_samples)%nat with false
    by (symmetry; apply Nat.leb_gt; exact Hlen).
  change DetectRunes.n_samples with 200%nat. rewrite Hrun, draw_indices_length.
  reflexivity.
Qed.

Lemma fgt_at_one (thr : float) (num den : Z) (nmax n : nat) :
  table_ok thr num den nmax = true -> 0 < num < den ->
  (0 < n <= nmax)%nat ->
  fgt (fcount n / float64 n) thr = true.
Proof.
  intros Ht Hnd Hn. rewrite (table_ok_spec thr num den nmax n n Ht) by lia.
  apply Z.ltb_lt. nia.
Qed.

Lemma fgt_at_zero (thr : float) (num den : Z) (nmax n : nat) :
  table_ok thr num den nmax = true -> 0 < num ->
  (n <= nmax)%nat ->
  fgt (fcount 0 / float64 n) thr = false.
Proof.
  intros Ht Hnd Hn. rewrite (table_ok_spec thr num den nmax n 0 Ht) by lia.
  apply Z.ltb_ge. lia.
Qed.

End UniformFacts.

(** X16. In the rune-index program a body whose codepoints are all in the
    target set is a match in both regimes, whatever is drawn: the body text
    is sent. *)
Theorem rune_all_members_match
    (chinese_chars : gmap Z bool) (r : list string) (rand : nat -> N)
    (body : list string) :
  DetectRunes.recordBody r = Some body ->
  Go.Join body " " <> ""%string ->
  Forall (fun ru => DetectRunes.is_chinese chinese_chars ru = true)
         (map snd (Go.range_string (Go.Join body " "))) ->
  exists run,
    DetectRunes.process chinese_chars r rand = Go.Ret (Classified run)
    /\ matched run = true
    /\ sent run = Go.Join body " ".
Proof.
  intros Hb Hne Hall.
  assert (Hpos : (0 < Go.rune_count (Go.Join body " "))%nat).
  { pose proof (range_string_nonempty _ Hne) as H. unfold Go.rune_count.
    destruct (Go.range_string (Go.Join body " ")); [contradiction|cbn; lia]. }
  destruct (le_lt_dec (Go.rune_count (Go.Join body " ")) 200) as [Hle|Hgt].
  - rewrite (rune_process_exhaustive chinese_chars r rand body Hb Hle).
    rewrite (members_all chinese_chars _ Hall), length_map.
    fold (Go.rune_count (Go.Join body " ")).
    eexists. split; [reflexivity|]. cbn [conclude matched sent].
    rewrite (fgt_at_one _ 3 10 200 _ table_03) by lia. auto.
  - rewrite (rune_process_sampled_from chinese_chars r rand body (fcount 200) Hb Hgt).
    + eexists. split; [reflexivity|]. cbn [conclude matched sent].
      rewrite (fgt_at_one _ 3 10 200 200 table_03) by lia. auto.
    + change 0%float with (fcount 0). rewrite rune_count_samples_all.
      * rewrite draw_indices_length. reflexivity.
      * exact Hall.
      * rewrite length_map. apply draw_indices_bound. lia.
Qed.

Lemma rune_all_members_match_witness :
  exists run,
    DetectRunes.process {[ 20013 := true ]} ["WARC/1.0"; Repeat zhong 300]%string
                        (fun i => N.of_nat (17 * i))
    = Go.Ret (Classified run)
    /\ matched run = true
    /\ sent run = Go.Join [Repeat zhong 300] " ".
Proof.
  apply (rune_all_members_match {[ 20013 := true ]} ["WARC/1.0"; Repeat zhong 300]%string
                                (fun i => N.of_nat (17 * i)) [Repeat zhong 300]).
  - vm_compute. reflexivity.
  - vm_compute. discriminate.
  - vm_compute. repeat constructor.
Defined.

(** X17. A body none of whose codepoints is in the target set is never a
    match, in either program and in either regime, whatever is drawn: the
    empty message is sent. *)
Theorem no_member_no_match
    (chinese_chars : gmap Z bool) (r : list string) (rand : nat -> N) :
  (forall warc,
     DetectChinese.interpret r = Go.Ret (Some warc) ->
     Forall (fun ru => DetectChinese.is_chinese chinese_chars ru = false)
            (map snd (Go.range_string (DetectChinese.body warc))) ->
     exists run,
       DetectChinese.process chinese_chars r rand = Go.Ret (Classified run)
       /\ matched run = false /\ sent run = ""%string)
  /\ (forall body,
        DetectRunes.recordBody r = Some body ->
        Forall (fun ru => DetectRunes.is_chinese chinese_chars ru = false)
               (map snd (Go.range_string (Go.Join body " "))) ->
        exists run,
          DetectRunes.process chinese_chars r rand = Go.Ret (Classified run)
          /\ matched run = false /\ sent run = ""%string).
Proof.
  split.
  - intros warc Hi Hnone.
    destruct (le_lt_dec (Go.len (DetectChinese.body warc)) 500) as [Hle|Hgt].
    + rewrite (byte_process_exhaustive chinese_chars r rand warc Hi Hle).
      rewrite (members_none chinese_chars _ Hnone).
      eexists. split; [reflexivity|]. cbn [conclude matched sent].
      rewrite (fgt_at_zero _ 7 20 500 _ table_035); [auto|lia|].
      pose proof (range_from_length (DetectChinese.body warc) 0 0).
      unfold Go.rune_count, Go.range_string. lia.
    + destruct (byte_process_sampled chinese_chars r rand warc Hi Hgt)
        as (m & cnt & Hp & _).
      unfold DetectChinese.process in Hp |- *. rewrite Hi in Hp |- *.
      replace (Go.len (DetectChinese.body warc) <=? DetectChinese.n_samples)%nat
        with false in Hp |- * by (symmetry; apply Nat.leb_gt; exact Hgt).
      destruct (DetectChinese.count_samples _ _ _ _ _ _ _) as [[[j m'] c]|?|?] eqn:Hrun;
        try discriminate.
      apply byte_count_samples_none in Hrun; [|exact Hnone]. subst c.
      destruct (negb (j =? DetectChinese.n_samples)%nat); [discriminate|].
      eexists. split; [reflexivity|]. cbn [matched sent].
      change 0%float with (fcount 0).
      rewrite (fgt_at_zero _ 7 20 500 _ table_035); [auto|lia|].
      unfold DetectChinese.n_samples. lia.
  - intros body Hb Hnone.
    destruct (le_lt_dec (Go.rune_count (Go.Join body " ")) 200) as [Hle|Hgt].
    + rewrite (rune_process_exhaustive chinese_chars r rand body Hb Hle).
      rewrite (members_none chinese_chars _ Hnone).
      eexists. split; [reflexivity|]. cbn [conclude matched sent].
      rewrite (fgt_at_zero _ 3 10 200 _ table_03); [auto|lia|lia].
    + rewrite (rune_process_sampled_from chinese_chars r rand body (fcount 0) Hb Hgt).
      * eexists. split; [reflexivity|]. cbn [conclude matched sent].
        rewrite (fgt_at_zero _ 3 10 200 200 table_03); [auto|lia|lia].
      * change 0%float with (fcount 0). apply rune_count_samples_none; [exact Hnone|].
        rewrite length_map. apply draw_indices_bound. lia.
Qed.

Lemma no_member_no_match_witness :
  let r := ["WARC/1.0"; "WARC-Record-ID: <urn:x>"; Repeat "plain text " 50]%string in
  let rand := fun i : nat => N.of_nat (13 * i) in
  (exists run,
     DetectChinese.process {[ 20013 := true ]} r rand = Go.Ret (Classified run)
     /\ matched run = false /\ sent run = ""%string)
  /\ (exists run,
        DetectRunes.process {[ 20013 := true ]} r rand = Go.Ret (Classified run)
        /\ matched run = false /\ sent run = ""%string).
Proof.
  intros r rand. split.
  - apply (proj1 (no_member_no_match {[ 20013 := true ]} r rand)
                 (DetectChinese.mkWarc [] "<urn:x>" (Repeat "plain text " 50))).
    + vm_compute. reflexivity.
    + vm_compute. repeat constructor.
  - apply (proj2 (no_member_no_match {[ 20013 := true ]} r rand)
                 [Repeat "plain text " 50]).
    + vm_compute. reflexivity.
    + vm_compute. repeat constructor.
Defined.

(** X18. Every task sends exactly one message, with one exception: the
    rune-index [process] always concludes, and the byte-offset [process]
    concludes unless the record has body lines, is no warcinfo record and
    has no identifier, when it panics with "Record missing ID". No index
    is ever out of range and the check on [j != n] never fires. *)
Theorem process_one_message_or_missing_id
    (chinese_chars : gmap Z bool) (r : list string) (rand : nat -> N) :
  (exists c, DetectRunes.process chinese_chars r rand = Go.Ret c)
  /\ ((exists c, DetectChinese.process chinese_chars r rand = Go.Ret c)
      \/ DetectChinese.process chinese_chars r rand = Go.Panic "Record missing ID")
  /\ (DetectChinese.process chinese_chars r rand = Go.Panic "Record missing ID"
      <-> is_warcinfo r = false /\ List.filter is_body_line r <> [] /\ last_id r = ""%string).
Proof.
  split.
  { destruct (DetectRunes.recordBody r) as [body|] eqn:Hb.
    - destruct (le_lt_dec (Go.rune_count (Go.Join body " ")) 200) as [Hle|Hgt].
      + rewrite (rune_process_exhaustive chinese_chars r rand body Hb Hle). eauto.
      + destruct (rune_process_sampled chinese_chars r rand body Hb Hgt) as (cnt & -> & _).
        eauto.
    - unfold DetectRunes.process. rewrite Hb. eauto. }
  assert (Hcases :
    match DetectChinese.interpret r with
    | Go.Ret (Some warc) => exists c, DetectChinese.process chinese_chars r rand = Go.Ret c
    | Go.Ret None => DetectChinese.process chinese_chars r rand = Go.Ret Skip
    | Go.Err e => False
    | Go.Panic msg => DetectChinese.process chinese_chars r rand = Go.Panic msg
    end).
  { destruct (DetectChinese.interpret r) as [[warc|]|e|msg] eqn:Hi.
    - destruct (le_lt_dec (Go.len (DetectChinese.body warc)) 500) as [Hle|Hgt].
      + rewrite (byte_process_exhaustive chinese_chars r rand warc Hi Hle). eauto.
      + destruct (byte_process_sampled chinese_chars r rand warc Hi Hgt)
          as (m & cnt & -> & _). eauto.
    - unfold DetectChinese.process. rewrite Hi. reflexivity.
    - rewrite interpret_cases in Hi.
      repeat match type of Hi with
             | (if ?b then _ else _) = _ => destruct b
             | match ?x with _ => _ end = _ => destruct x
             end; discriminate.
    - unfold DetectChinese.process. rewrite Hi. reflexivity. }
  rewrite interpret_cases in Hcases.
  destruct (is_warcinfo r).
  { rewrite Hcases. split; [eauto|]. split; [discriminate|]. intros [? _]. discriminate. }
  destruct (List.filter is_body_line r) as [|l ls].
  { rewrite Hcases. split; [eauto|]. split; [discriminate|]. intros (_ & H & _).
    contradiction. }
  destruct (String.eqb_spec (last_id r) "") as [He|Hne].
  - rewrite Hcases. split; [auto|]. split; [|reflexivity]. intros _.
    repeat split; [discriminate|assumption].
  - destruct Hcases as [c ->]. split; [eauto|]. split; [discriminate|].
    intros (_ & _ & H). contradiction.
Qed.

(** X19. A record without body lines that is no warcinfo record: the
    byte-offset program skips it, and the rune-index program classifies
    the empty text, divides 0 by 0 and, the result comparing false with
    the threshold, sends the empty message; neither panics. *)
Theorem empty_body_record
    (chinese_chars : gmap Z bool) (r : list string) (rand : nat -> N) :
  is_warcinfo r = false ->
  List.filter is_body_line r = [] ->
  DetectChinese.process chinese_chars r rand = Go.Ret Skip
  /\ exists run,
       DetectRunes.process chinese_chars r rand = Go.Ret (Classified run)
       /\ run_regime run = Exhaustive
       /\ denom run = 0%nat
       /\ matched run = false
       /\ sent run = ""%string.
Proof.
  intros Hw Hf. split.
  - unfold DetectChinese.process. rewrite interpret_cases, Hw, Hf. reflexivity.
  - pose proof (recordBody_cases r) as Hb. rewrite Hw, Hf in Hb.
    rewrite (rune_process_exhaustive chinese_chars r rand [] Hb) by (cbn; lia).
    eexists. split; [reflexivity|]. repeat split.
Qed.

Lemma empty_body_record_witness :
  let r := ["WARC/1.0"; "WARC-Type: request"; "Content-Length: 0"; ""]%string in
  DetectChinese.process ∅ r (fun _ => 0%N) = Go.Ret Skip
  /\ exists run,
       DetectRunes.process ∅ r (fun _ => 0%N) = Go.Ret (Classified run)
       /\ run_regime run = Exhaustive
       /\ denom run = 0%nat
       /\ matched run = false
       /\ sent run = ""%string.
Proof.
  apply (empty_body_record ∅ ["WARC/1.0"; "WARC-Type: request"; "Content-Length: 0"; ""]%string
                           (fun _ => 0%N)); reflexivity.
Defined.

(** X20. The sample both programs draw: [n] indices, each below the size
    they are drawn for, in ascending order after [sort.Ints]. *)
Theorem draw_indices_sorted_in_range (rand : nat -> N) (n size : nat) :
  (0 < size)%nat ->
  length (draw_indices rand n size) = n
  /\ Forall (fun s => (s < size)%nat) (draw_indices rand n size)
  /\ Sorted Nat.le (draw_indices rand n size).
Proof.
  intros Hsize. split; [apply draw_indices_length|].
  split; [apply draw_indices_bound; assumption|].
  unfold draw_indices. apply (Sorted_merge_sort Nat.le).
Qed.

Lemma draw_indices_sorted_in_range_witness :
  length (draw_indices (fun i => N.of_nat (7 * i)) 500 603) = 500%nat
  /\ Forall (fun s => (s < 603)%nat) (draw_indices (fun i => N.of_nat (7 * i)) 500 603)
  /\ Sorted Nat.le (draw_indices (fun i => N.of_nat (7 * i)) 500 603).
Proof.
  apply (draw_indices_sorted_in_range (fun i => N.of_nat (7 * i)) 500 603). lia.
Defined.

(** ** What the sampling loop of the byte-offset program counts *)

Section HitFacts.
Import Go DetectChinese.

Variable chinese_chars : gmap Z bool.
Variable sample_indices : list nat.
Variable n : nat.
Hypothesis sample_length : length sample_indices = n.
Hypothesis sample_sorted : StronglySorted Nat.le sample_indices.

Lemma drop_sorted (j : nat) : StronglySorted Nat.le (drop j sample_indices).
Proof.
  generalize sample_sorted. generalize sample_indices. clear.
  intros l Hl. revert j. induction Hl as [|x l Hs IH Hx]; intros j.
  - rewrite drop_nil. constructor.
  - destruct j as [|j]; [constructor; assumption|]. apply IH.
Qed.

Lemma drop_lookup (j s : nat) :
  sample_indices !! j = Some s ->
  drop j sample_indices = s :: drop (S j) sample_indices.
Proof. intros H. apply drop_S. exact H. Qed.

(** Where the inner loop stops: everything it passes is below [bound], and
    what remains is not. *)
Lemma skip_duplicates_spec (fuel : nat) (bound : Z) (j : nat) :
  (j <= n)%nat -> (n - j <= fuel)%nat ->
  let j' := skip_duplicates sample_indices n fuel bound j in
  exists passed,
    drop j sample_indices = passed ++ drop j' sample_indices
    /\ Forall (fun s => Z.of_nat s < bound) passed
    /\ Forall (fun s => bound <= Z.of_nat s) (drop j' sample_indices).
Proof.
  revert j. induction fuel as [|fuel IH]; intros j Hj Hfuel; cbn [skip_duplicates].
  - exists []. assert (j = n) as -> by lia.
    rewrite <- sample_length, drop_all. repeat split; constructor.
  - destruct (Nat.ltb_spec j n) as [Hlt|Hge]; cbn [andb].
    + destruct (lookup_lt_is_Some_2 sample_indices j ltac:(lia)) as [s Hs].
      rewrite Hs. destruct (Z.ltb_spec (Z.of_nat s) bound) as [Hb|Hb].
      * destruct (IH (S j) ltac:(lia) ltac:(lia)) as (passed & Hd & Hp & Hr).
        exists (s :: passed). rewrite (drop_lookup j s Hs), Hd.
        repeat split; [constructor; assumption|assumption].
      * exists []. repeat split; [constructor|].
        pose proof (drop_sorted j) as Hsorted. rewrite (drop_lookup j s Hs) in *.
        apply StronglySorted_inv in Hsorted as [_ Hall]. constructor; [assumption|].
        eapply Forall_impl; [exact Hall|]. intros x Hx. simpl in Hx. lia.
    + exists []. assert (j = n) as -> by lia.
      rewrite <- sample_length, drop_all. repeat split; constructor.
Qed.

Lemma reaches_app (a b : list nat) (e : nat * Z) : reaches (a ++ b) e = reaches a e || reaches b e.
Proof. unfold reaches. apply existsb_app. Qed.

Lemma reaches_below (a : list nat) (e : nat * Z) :
  Forall (fun s => Z.of_nat s < Z.of_nat (fst e)) a -> reaches a e = false.
Proof.
  intros H. unfold reaches. induction H as [|s a Hs _ IH]; [reflexivity|].
  cbn [existsb]. rewrite IH.
  replace (Z.of_nat (fst e) <=? Z.of_nat s) with false by (symmetry; apply Z.leb_gt; lia).
  reflexivity.
Qed.

Lemma reaches_above (a : list nat) (e : nat * Z) :
  Forall (fun s => Z.of_nat (fst e) + RuneLen (snd e) <= Z.of_nat s) a -> reaches a e = false.
Proof.
  intros H. unfold reaches. induction H as [|s a Hs _ IH]; [reflexivity|].
  cbn [existsb]. rewrite IH.
  replace (Z.of_nat s <? Z.of_nat (fst e) + RuneLen (snd e)) with false
    by (symmetry; apply Z.ltb_ge; lia).
  rewrite andb_false_r. reflexivity.
Qed.

(** Codepoints that tile the bytes from [k] on all start at [k] or later. *)
Lemma tiled_starts (k : Z) (rs : list (nat * Z)) :
  tiled k rs = true -> Forall (fun e => k <= Z.of_nat (fst e)) rs.
Proof.
  revert k. induction rs as [|[k' ru] rs IH]; intros k H; [constructor|].
  cbn [tiled] in H. apply andb_true_iff in H as [H Ht]. apply andb_true_iff in H as [Hk Hl].
  apply Z.eqb_eq in Hk. apply Z.ltb_lt in Hl. constructor; [simpl; lia|].
  eapply Forall_impl; [exact (IH _ Ht)|]. intros e He. simpl in He. lia.
Qed.

(** Samples below [k] reach none of the codepoints that start at [k] or
    later. *)
Lemma filter_reaches_passed (k : Z) (passed rest : list nat) (rs : list (nat * Z)) :
  Forall (fun e => k <= Z.of_nat (fst e)) rs ->
  Forall (fun s => Z.of_nat s < k) passed ->
  List.filter (reaches (passed ++ rest)) rs = List.filter (reaches rest) rs.
Proof.
  intros Hrs Hp. induction Hrs as [|e rs He _ IH]; [reflexivity|].
  cbn [List.filter]. rewrite IH, reaches_app, reaches_below; [reflexivity|].
  eapply Forall_impl; [exact Hp|]. intros s Hs. simpl in Hs. lia.
Qed.

Lemma filter_reaches_nil (rs : list (nat * Z)) : List.filter (reaches []) rs = [].
Proof. induction rs as [|e rs IH]; [reflexivity|]. cbn. exact IH. Qed.

(** The loop looks up exactly the codepoints that a remaining sample
    reaches, each once. *)
Lemma count_samples_hits (rs : list (nat * Z)) (k : Z) (j m cnt : nat) :
  tiled k rs = true ->
  (j < n)%nat ->
  Forall (fun s => k <= Z.of_nat s) (drop j sample_indices) ->
  exists j',
    count_samples chinese_chars sample_indices n rs j m (fcount cnt)
    = Ret (j',
           (m + length (List.filter (reaches (drop j sample_indices)) rs))%nat,
           fcount (cnt + members chinese_chars
                           (map snd (List.filter (reaches (drop j sample_indices)) rs)))).
Proof.
  revert k j m cnt. induction rs as [|[k' ru] rs IH]; intros k j m cnt Ht Hj Hk.
  - cbn. rewrite !Nat.add_0_r. eauto.
  - cbn [tiled] in Ht. apply andb_true_iff in Ht as [Ht Hrest].
    apply andb_true_iff in Ht as [Hk' Hl]. apply Z.eqb_eq in Hk'. apply Z.ltb_lt in Hl.
    subst k. pose proof (tiled_starts _ _ Hrest) as Hstarts.
    cbn [count_samples].
    destruct (lookup_lt_is_Some_2 sample_indices j ltac:(lia)) as [s Hs].
    rewrite Hs. pose proof (drop_lookup j s Hs) as Hd.
    pose proof (drop_sorted j) as Hsorted. rewrite Hd in Hsorted, Hk.
    apply StronglySorted_inv in Hsorted as [_ Hall].
    apply Forall_cons in Hk as [Hks _].
    cbn [List.filter].
    destruct (Z.ltb_spec (Z.of_nat s) (Z.of_nat k' + RuneLen ru)) as [Hlt|Hge].
    + assert (Hh : reaches (drop j sample_indices) (k', ru) = true).
      { rewrite Hd. unfold reaches. cbn [existsb fst snd].
        replace (Z.of_nat k' <=? Z.of_nat s) with true by (symmetry; apply Z.leb_le; lia).
        replace (Z.of_nat s <? Z.of_nat k' + RuneLen ru) with true
          by (symmetry; apply Z.ltb_lt; lia).
        reflexivity. }
      rewrite Hh.
      destruct (skip_duplicates_spec n (Z.of_nat k' + RuneLen ru) j ltac:(lia) ltac:(lia))
        as (passed & Hdrop & Hpassed & Hremain).
      pose proof (skip_duplicates_le sample_indices n sample_length n
                    (Z.of_nat k' + RuneLen ru) j ltac:(lia)) as Hle.
      set (j1 := skip_duplicates sample_indices n n (Z.of_nat k' + RuneLen ru) j) in *.
      rewrite Hdrop.
      rewrite (filter_reaches_passed (Z.of_nat k' + RuneLen ru) passed _ rs Hstarts Hpassed).
      assert (Hc : (if is_chinese chinese_chars ru then (fcount cnt + 1)%float
                    else fcount cnt)
                   = fcount (cnt + (if is_chinese chinese_chars ru then 1 else 0))).
      { destruct (is_chinese chinese_chars ru);
          [rewrite Nat.add_1_r|rewrite Nat.add_0_r]; reflexivity. }
      rewrite Hc.
      assert (Hm : forall l : list (nat * Z),
                 (cnt + members chinese_chars (map snd ((k', ru) :: l)))%nat
                 = (cnt + (if is_chinese chinese_chars ru then 1 else 0)
                    + members chinese_chars (map snd l))%nat).
      { intros l. unfold members. cbn [map snd List.filter].
        destruct (is_chinese chinese_chars ru); cbn [length]; lia. }
      rewrite Hm. cbn [length].
      destruct (Nat.eqb_spec j1 n) as [He|Hne].
      * rewrite He, <- sample_length, drop_all, filter_reaches_nil. cbn [length map].
        unfold members at 1. cbn [List.filter length].
        rewrite !Nat.add_0_r, Nat.add_1_r. eauto.
      * destruct (IH (Z.of_nat k' + RuneLen ru) j1 (S m)
                     (cnt + (if is_chinese chinese_chars ru then 1 else 0))%nat
                     Hrest ltac:(lia) Hremain) as (j' & ->).
        exists j'. rewrite Nat.add_succ_r. reflexivity.
    + assert (Hh : reaches (drop j sample_indices) (k', ru) = false).
      { apply reaches_above. rewrite Hd. cbn [fst snd]. constructor; [lia|].
        eapply Forall_impl; [exact Hall|]. intros x Hx. simpl in Hx. lia. }
      rewrite Hh.
      apply (IH (Z.of_nat k' + RuneLen ru) j m cnt Hrest Hj).
      rewrite Hd. constructor; [lia|].
      eapply Forall_impl; [exact Hall|]. intros x Hx. simpl in Hx. lia.
Qed.

End HitFacts.

Section TilingFacts.
Import Go.

(** A body of ASCII bytes is tiled: every codepoint takes its one byte. *)
Lemma tiled_ascii (s : string) (k : nat) :
  ascii_only s = true -> tiled (Z.of_nat k) (range_from s 0 k) = true.
Proof.
  revert k. induction s as [|c s IH]; intros k H; [reflexivity|].
  unfold ascii_only in H. simpl in H. apply andb_true_iff in H as [Hc Hs].
  cbn [range_from DecodeRuneInString]. rewrite Hc. cbn [Nat.pred tiled].
  rewrite Z.eqb_refl. pose proof (byte_val_range c) as Hr. apply Z.ltb_lt in Hc.
  rewrite (RuneLen_1 (byte_val c)) by lia. cbn [andb Z.ltb Z.compare].
  replace (Z.of_nat k + 1) with (Z.of_nat (S k)) by lia. apply IH. exact Hs.
Qed.

End TilingFacts.

(** X21. What the sampling branch of the byte-offset [process] counts, for
    a body whose codepoints tile its bytes (each starting [RuneLen] bytes
    after the one before, as every ASCII body does): [m] is the number of
    codepoints that at least one of the 500 drawn offsets falls in, each
    looked up once however many offsets fall in it, and [c] the number of
    those in the target set; the ratio divides [c] by 500. *)
Theorem byte_sampled_counts_codepoints_reached
    (chinese_chars : gmap Z bool) (r : list string) (rand : nat -> N)
    (warc : DetectChinese.warcRecord) :
  DetectChinese.interpret r = Go.Ret (Some warc) ->
  (500 < Go.len (DetectChinese.body warc))%nat ->
  tiled 0 (Go.range_string (DetectChinese.body warc)) = true ->
  let samples := draw_indices rand 500 (Go.len (DetectChinese.body warc)) in
  let reached := List.filter (reaches samples) (Go.range_string (DetectChinese.body warc)) in
  DetectChinese.process chinese_chars r rand
  = Go.Ret (conclude DetectChinese.threshold Sampled 500 (length reached)
              (fcount (members chinese_chars (map snd reached))) 500
              (DetectChinese.id warc)).
Proof.
  intros Hi Hlen Ht samples reached.
  destruct (byte_process_sampled chinese_chars r rand warc Hi Hlen)
    as (m & cnt & Hp & _).
  assert (Hsl : length samples = 500%nat) by apply draw_indices_length.
  assert (Hss : StronglySorted Nat.le samples).
  { apply Sorted_StronglySorted; [intros x y z; apply Nat.le_trans|].
    unfold samples, draw_indices. apply (Sorted_merge_sort Nat.le). }
  destruct (count_samples_hits chinese_chars samples 500 Hsl Hss
              (Go.range_string (DetectChinese.body warc)) 0 0 0 0 Ht ltac:(lia))
    as (j' & Hrun).
  { apply Forall_forall. intros; lia. }
  rewrite drop_0 in Hrun. cbn [Nat.add] in Hrun. subst reached. subst samples.
  revert Hp. unfold DetectChinese.process. rewrite Hi.
  replace (Go.len (DetectChinese.body warc) <=? DetectChinese.n_samples)%nat with false
    by (symmetry; apply Nat.leb_gt; exact Hlen).
  change DetectChinese.n_samples with 500%nat.
  change 0%float with (fcount 0). rewrite Hrun.
  destruct (negb (j' =? 500)%nat) eqn:Hj; [discriminate|].
  intros _. apply negb_false_iff, Nat.eqb_eq in Hj. subst j'. reflexivity.
Qed.

Lemma byte_sampled_counts_codepoints_reached_witness :
  let r := ["WARC/1.0"; "WARC-Record-ID: <urn:x>"; Repeat zhong 200]%string in
  let rand := fun i : nat => N.of_nat (7 * i) in
  let body := Repeat zhong 200 in
  let samples := draw_indices rand 500 (Go.len body) in
  let reached := List.filter (reaches samples) (Go.range_string body) in
  DetectChinese.process {[ 20013 := true ]} r rand
  = Go.Ret (conclude DetectChinese.threshold Sampled 500 (length reached)
              (fcount (members {[ 20013 := true ]} (map snd reached))) 500
              "<urn:x>").
Proof.
  intros r rand body.
  apply (byte_sampled_counts_codepoints_reached {[ 20013 := true ]} r rand
           (DetectChinese.mkWarc [] "<urn:x>" body)).
  - vm_compute. reflexivity.
  - vm_compute. lia.
  - vm_compute. reflexivity.
Defined.

Section DistinctFacts.
Import Go.

Lemma range_from_ascii (s : string) (k : nat) :
  ascii_only s = true ->
  map fst (range_from s 0 k) = seq k (len s)
  /\ Forall (fun e => 0 <= snd e <= 127) (range_from s 0 k).
Proof.
  revert k. induction s as [|c s IH]; intros k H; [split; [reflexivity|constructor]|].
  unfold ascii_only in H. simpl in H. apply andb_true_iff in H as [Hc Hs].
  cbn [range_from DecodeRuneInString]. rewrite Hc. cbn [Nat.pred].
  destruct (IH (S k) Hs) as [Hf Hb]. split.
  - cbn [map fst]. rewrite Hf. reflexivity.
  - constructor; [|exact Hb]. cbn [snd]. pose proof (byte_val_range c).
    apply Z.ltb_lt in Hc. lia.
Qed.

(** A one-byte codepoint is reached exactly when its offset was drawn. *)
Lemma reaches_one_byte (samples : list nat) (k : nat) (b : Z) :
  0 <= b <= 127 -> reaches samples (k, b) = bool_decide (k ∈ samples).
Proof.
  intros Hb. unfold reaches. cbn [fst snd]. rewrite (RuneLen_1 b Hb).
  induction samples as [|s samples IH].
  - cbn. symmetry. apply bool_decide_eq_false. apply not_elem_of_nil.
  - cbn [existsb]. rewrite IH. destruct (decide (k = s)) as [->|Hne].
    + replace (Z.of_nat s <=? Z.of_nat s) with true by (symmetry; apply Z.leb_le; lia).
      replace (Z.of_nat s <? Z.of_nat s + 1) with true by (symmetry; apply Z.ltb_lt; lia).
      cbn [andb orb]. symmetry. apply bool_decide_eq_true. apply list_elem_of_here.
    + assert (Hf : (Z.of_nat k <=? Z.of_nat s) && (Z.of_nat s <? Z.of_nat k + 1) = false).
      { apply andb_false_iff.
        destruct (Z.leb_spec (Z.of_nat k) (Z.of_nat s)); [right|left; reflexivity].
        apply Z.ltb_ge. lia. }
      rewrite Hf. cbn [orb]. apply bool_decide_ext. rewrite elem_of_cons. tauto.
Qed.

Lemma filter_reaches_length (samples : list nat) (rs : list (nat * Z)) :
  Forall (fun e => 0 <= snd e <= 127) rs ->
  length (List.filter (reaches samples) rs)
  = length (List.filter (fun k => bool_decide (k ∈ samples)) (map fst rs)).
Proof.
  intros H. induction H as [|[k b] rs Hb _ IH]; [reflexivity|].
  cbn [List.filter map fst]. rewrite (reaches_one_byte samples k b Hb).
  destruct (bool_decide (k ∈ samples)); cbn [length]; rewrite IH; reflexivity.
Qed.

(** As many offsets of [0 .. size - 1] occur among the samples as the
    samples have distinct values. *)
Lemma drawn_offsets_distinct (samples : list nat) (size : nat) :
  Forall (fun s => (s < size)%nat) samples ->
  length (List.filter (fun k => bool_decide (k ∈ samples)) (seq 0 size))
  = length (remove_dups samples).
Proof.
  intros Hb. apply Permutation_length. apply NoDup_Permutation.
  - apply NoDup_ListNoDup, List.NoDup_filter, seq_NoDup.
  - apply NoDup_remove_dups.
  - intros x. rewrite elem_of_remove_dups, list_elem_of_In, List.filter_In.
    rewrite in_seq, bool_decide_eq_true. split; [tauto|]. intros Hx.
    rewrite Forall_forall in Hb. specialize (Hb x Hx). split; [lia|exact Hx].
Qed.

Lemma remove_dups_le (l : list nat) : (length (remove_dups l) <= length l)%nat.
Proof.
  induction l as [|x l IH]; [reflexivity|]. cbn [remove_dups].
  destruct (decide_rel elem_of x l); cbn [length]; lia.
Qed.

End DistinctFacts.

(** X22. For an ASCII body of more than 500 bytes the byte-offset
    [process] looks up as many codepoints as there are distinct offsets
    among the 500 drawn: an offset drawn twice is looked up once. The
    ratio still divides by 500. *)
Theorem byte_sampled_ascii_counts_distinct_offsets
    (chinese_chars : gmap Z bool) (r : list string) (rand : nat -> N)
    (warc : DetectChinese.warcRecord) :
  DetectChinese.interpret r = Go.Ret (Some warc) ->
  (500 < Go.len (DetectChinese.body warc))%nat ->
  ascii_only (DetectChinese.body warc) = true ->
  let samples := draw_indices rand 500 (Go.len (DetectChinese.body warc)) in
  exists cnt,
    DetectChinese.process chinese_chars r rand
    = Go.Ret (conclude DetectChinese.threshold Sampled 500 (length (remove_dups samples))
                (fcount cnt) 500 (DetectChinese.id warc))
    /\ (cnt <= length (remove_dups samples) <= 500)%nat.
Proof.
  intros Hi Hlen Ha samples.
  destruct (byte_process_sampled chinese_chars r rand warc Hi Hlen)
    as (m & cnt & Hp & _).
  assert (Hsl : length samples = 500%nat) by apply draw_indices_length.
  assert (Hss : StronglySorted Nat.le samples).
  { apply Sorted_StronglySorted; [intros x y z; apply Nat.le_trans|].
    unfold samples, draw_indices. apply (Sorted_merge_sort Nat.le). }
  assert (Hsb : Forall (fun s => (s < Go.len (DetectChinese.body warc))%nat) samples)
    by (apply draw_indices_bound; lia).
  destruct (range_from_ascii (DetectChinese.body warc) 0 Ha) as [Hfst Hbytes].
  destruct (count_samples_hits chinese_chars samples 500 Hsl Hss
              (Go.range_string (DetectChinese.body warc)) 0 0 0 0
              (tiled_ascii _ 0 Ha) ltac:(lia))
    as (j' & Hrun).
  { apply Forall_forall. intros; lia. }
  rewrite drop_0 in Hrun. cbn [Nat.add] in Hrun.
  assert (Hdistinct :
            length (List.filter (reaches samples) (Go.range_string (DetectChinese.body warc)))
            = length (remove_dups samples)).
  { unfold Go.range_string.
    rewrite (filter_reaches_length samples _ Hbytes), Hfst.
    apply drawn_offsets_distinct. exact Hsb. }
  rewrite Hdistinct in Hrun.
  exists (members chinese_chars
            (map snd (List.filter (reaches samples)
                                  (Go.range_string (DetectChinese.body warc))))).
  split.
  - revert Hp. unfold DetectChinese.process. rewrite Hi.
    replace (Go.len (DetectChinese.body warc) <=? DetectChinese.n_samples)%nat with false
      by (symmetry; apply Nat.leb_gt; exact Hlen).
    change DetectChinese.n_samples with 500%nat. subst samples.
    change 0%float with (fcount 0). rewrite Hrun.
    destruct (negb (j' =? 500)%nat) eqn:Hj; [discriminate|].
    intros _. apply negb_false_iff, Nat.eqb_eq in Hj. subst j'. reflexivity.
  - split.
    + rewrite <- Hdistinct. etransitivity; [apply members_le|].
      rewrite length_map. reflexivity.
    + rewrite <- Hsl. apply remove_dups_le.
Qed.

Lemma byte_sampled_ascii_counts_distinct_offsets_witness :
  let r := ["WARC/1.0"; "WARC-Record-ID: <urn:x>"; Repeat "plain text " 50]%string in
  let rand := fun i : nat => N.of_nat (13 * i) in
  let samples := draw_indices rand 500 (Go.len (Repeat "plain text " 50)) in
  exists cnt,
    DetectChinese.process {[ 20013 := true ]} r rand
    = Go.Ret (conclude DetectChinese.threshold Sampled 500 (length (remove_dups samples))
                (fcount cnt) 500 "<urn:x>")
    /\ (cnt <= length (remove_dups samples) <= 500)%nat.
Proof.
  intros r rand.
  apply (byte_sampled_ascii_counts_distinct_offsets {[ 20013 := true ]} r rand
           (DetectChinese.mkWarc [] "<urn:x>" (Repeat "plain text " 50))).
  - vm_compute. reflexivity.
  - vm_compute. lia.
  - vm_compute. reflexivity.
Defined.

(** ** What the sampling loop of the rune-index program counts *)

Section DrawnFacts.
Import Go DetectRunes.

Variable chinese_chars : gmap Z bool.

Lemma rune_count_samples_exact (runes : list Z) (idxs : list nat) (cnt : nat) :
  Forall (fun i => (i < length runes)%nat) idxs ->
  count_samples chinese_chars runes idxs (fcount cnt)
  = Ret (fcount (cnt + members chinese_chars (drawn_runes runes idxs))).
Proof.
  intros H. revert cnt. induction H as [|i idxs Hi Hrest IH]; intros cnt.
  - cbn. rewrite Nat.add_0_r. reflexivity.
  - cbn [count_samples]. unfold drawn_runes. cbn [omap list_omap].
    destruct (lookup_lt_is_Some_2 runes i Hi) as [ru Hru]. rewrite Hru.
    fold (drawn_runes runes idxs). unfold members. cbn [List.filter].
    rewrite rune_is_chinese.
    destruct (DetectChinese.is_chinese chinese_chars ru).
    + change (fcount cnt + 1)%float with (fcount (S cnt)). rewrite IH.
      unfold members. cbn [length]. do 2 f_equal. lia.
    + rewrite IH. reflexivity.
Qed.

Lemma drawn_runes_length (runes : list Z) (idxs : list nat) :
  Forall (fun i => (i < length runes)%nat) idxs ->
  length (drawn_runes runes idxs) = length idxs.
Proof.
  intros H. induction H as [|i idxs Hi _ IH]; [reflexivity|].
  unfold drawn_runes. cbn [omap list_omap].
  destruct (lookup_lt_is_Some_2 runes i Hi) as [ru ->]. cbn [length].
  f_equal. exact IH.
Qed.

End DrawnFacts.

(** X23. What the sampling branch of the rune-index [process] counts: for
    a body of more than 200 runes, [c] is the number of draws, among the
    200, whose rune is in the target set. An index drawn twice counts
    twice, unlike in the byte-offset program, and every draw is in range. *)
Theorem rune_sampled_counts_every_draw
    (chinese_chars : gmap Z bool) (r : list string) (rand : nat -> N)
    (body : list string) :
  DetectRunes.recordBody r = Some body ->
  (200 < Go.rune_count (Go.Join body " "))%nat ->
  let runes := map snd (Go.range_string (Go.Join body " ")) in
  let samples := draw_indices rand 200 (length runes) in
  length (drawn_runes runes samples) = 200%nat
  /\ DetectRunes.process chinese_chars r rand
     = Go.Ret (conclude DetectRunes.threshold Sampled 200 200
                 (fcount (members chinese_chars (drawn_runes runes samples))) 200
                 (Go.Join body " ")).
Proof.
  intros Hb Hlen runes samples.
  assert (Hl : length runes = Go.rune_count (Go.Join body " "))
    by (unfold runes; rewrite length_map; reflexivity).
  assert (Hsb : Forall (fun i => (i < length runes)%nat) samples)
    by (apply draw_indices_bound; lia).
  split.
  - rewrite (drawn_runes_length runes samples Hsb). apply draw_indices_length.
  - apply rune_process_sampled_from; [assumption|assumption|].
    change 0%float with (fcount 0). fold runes. rewrite <- Hl. fold samples.
    rewrite (rune_count_samples_exact chinese_chars runes samples 0 Hsb). reflexivity.
Qed.

Lemma rune_sampled_counts_every_draw_witness :
  let r := ["WARC/1.0"; Repeat zhong 300]%string in
  let rand := fun i : nat => N.of_nat (7 * i) in
  let runes := map snd (Go.range_string (Go.Join [Repeat zhong 300] " ")) in
  let samples := draw_indices rand 200 (length runes) in
  length (drawn_runes runes samples) = 200%nat
  /\ DetectRunes.process {[ 20013 := true ]} r rand
     = Go.Ret (conclude DetectRunes.threshold Sampled 200 200
                 (fcount (members {[ 20013 := true ]} (drawn_runes runes samples))) 200
                 (Go.Join [Repeat zhong 300] " ")).
Proof.
  intros r rand.
  apply (rune_sampled_counts_every_draw {[ 20013 := true ]} r rand [Repeat zhong 300]).
  - vm_compute. reflexivity.
  - vm_compute. lia.
Defined.
